(** * token-time-oracle: the price resolver and the backfill scheduler

    A shallow embedding of the two edge functions of the repository,

    - [supabase/functions/price/index.ts] (module [Price]) and
    - the schedule function (module [Schedule]),

    over an explicit model of the two tables they read and write
    ([token_prices] and [price_fetch_jobs]).

    Conventions of the embedding.

    - The price function is given twice.  Module [Price] reads a JavaScript
      [number] as an exact rational, extended with the three non-finite
      values that a division by zero produces (type [number]): it shows the
      control flow and the algebra of the formulas, without binary rounding,
      overflow or the sign of zero.  Module [Price64] computes with IEEE 754
      binary64 values (module [Double], on the standard library's
      [SpecFloat]), prints them the way [JSON.stringify] does and reads the
      [DECIMAL] column back as the nearest double: it gives the digits the
      program answers.  The decimal value of a JSON number is a [number].
    - A timestamp is a [Z] (the column is [BIGINT]), an integer that a
      double holds exactly.
    - A calendar day ['YYYY-MM-DD'] is represented by its number of days since
      1970-01-01, which is what [toISOString().split('T')[0]] determines.
    - What the code reads from its environment ([Math.random()],
      [Date.now()], [Deno.env], the price fetched for a timestamp) is an
      explicit argument of the handler that reads it.
    - A table is the list of its rows in the order they were inserted; a
      row is kept as its columns coerce it ([price DECIMAL(20, 8)],
      [date DATE]); the columns the database fills in or
      that only record when a row was touched ([id], [created_at],
      [started_at], [updated_at]) are left out, and so are the CORS preflight
      and the pause between two chunks. *)

From Stdlib Require Import ZArith QArith Qcanon Qround Qabs Lqa.
From Stdlib Require Import List String Ascii Bool Lia Sorted.
From Stdlib Require Import DecimalString SpecFloat.
Import ListNotations.

Local Open Scope string_scope.
Local Open Scope list_scope.
Local Open Scope Z_scope.

(** ** JavaScript numbers *)

Module JsNumber.

Inductive number : Type :=
| Fin (q : Qc)
| PosInf
| NegInf
| NaN.

(** An integer as a rational, and as a number. *)
Definition zq (z : Z) : Qc := Q2Qc (inject_Z z).

Definition of_Z (z : Z) : number := Fin (zq z).

Definition inf_of_sign (c : comparison) : number :=
  match c with Gt => PosInf | Lt => NegInf | Eq => NaN end.

Definition sign (x : number) : comparison :=
  match x with
  | Fin q => (q ?= 0)%Qc
  | PosInf => Gt
  | NegInf => Lt
  | NaN => Eq
  end.

Definition neg (x : number) : number :=
  match x with
  | Fin q => Fin (- q)%Qc
  | PosInf => NegInf
  | NegInf => PosInf
  | NaN => NaN
  end.

Definition add (x y : number) : number :=
  match x, y with
  | NaN, _ | _, NaN => NaN
  | Fin a, Fin b => Fin (a + b)%Qc
  | PosInf, NegInf | NegInf, PosInf => NaN
  | PosInf, _ | _, PosInf => PosInf
  | NegInf, _ | _, NegInf => NegInf
  end.

Definition sub (x y : number) : number := add x (neg y).

Definition mul_sign (a b : comparison) : comparison :=
  match a, b with
  | Eq, _ | _, Eq => Eq
  | Gt, Gt | Lt, Lt => Gt
  | _, _ => Lt
  end.

Definition mul (x y : number) : number :=
  match x, y with
  | NaN, _ | _, NaN => NaN
  | Fin a, Fin b => Fin (a * b)%Qc
  | _, _ => inf_of_sign (mul_sign (sign x) (sign y))
  end.

(** [x / y].  A finite zero divisor is the positive zero here: the only
    divisor the program forms is a difference of two timestamps. *)
Definition div (x y : number) : number :=
  match x, y with
  | NaN, _ | _, NaN => NaN
  | Fin a, Fin b =>
      match (b ?= 0)%Qc with
      | Eq => inf_of_sign (a ?= 0)%Qc
      | _ => Fin (a / b)%Qc
      end
  | Fin _, _ => Fin 0%Qc
  | _, Fin b =>
      match (b ?= 0)%Qc with
      | Lt => neg x
      | _ => x
      end
  | _, _ => NaN
  end.


(** [parseFloat(x.toFixed(8))].  [toFixed] works on the magnitude, takes the
    integer [n] with [n / 10^8] nearest to it (the larger one on a tie) and
    prints the digits of [n] with the sign of [x]; from [10^21] on, and for
    the non-finite values, it prints the number itself.  The result here is
    the decimal printed; [Double.toFixed8] below reads it back as a double,
    as [parseFloat] does. *)
Definition e8 : Z := 100000000.
Definition e21 : Z := 1000000000000000000000.

Definition toFixed8_digits (q : Q) : Z :=
  Qfloor (Qabs q * inject_Z e8 + (1 # 2)).

Definition parseFloat_toFixed8 (x : number) : number :=
  match x with
  | Fin q =>
      if Qle_bool (inject_Z e21) (Qabs q) then x
      else
        let n := toFixed8_digits q in
        let m := Q2Qc (Qmake n (Z.to_pos e8)) in
        match (q ?= 0)%Qc with
        | Lt => Fin (- m)%Qc
        | _ => Fin m
        end
  | _ => x
  end.

End JsNumber.
Export JsNumber.

(** ** IEEE 754 binary64 *)

(** The numbers of JavaScript, with the operations that the standard
    library specifies for the format ([SpecFloat]): round to nearest, ties
    to even, with signed zeros, infinities and NaN. *)
Module Double.

Definition prec : Z := 53.
Definition emax : Z := 1024.

Definition double : Type := spec_float.

(** The double nearest to a rational, a tie to the even significand: the
    correctly rounded quotient of numerator and denominator. *)
Definition of_Q (q : Q) : double :=
  match Qnum q with
  | Z0 => S754_zero false
  | Zpos a =>
      SFdiv prec emax (S754_finite false a 0) (S754_finite false (Qden q) 0)
  | Zneg a =>
      SFdiv prec emax (S754_finite true a 0) (S754_finite false (Qden q) 0)
  end.

(** Reading a decimal ([parseFloat], [JSON.parse], a numeric literal). *)
Definition of_number (x : number) : double :=
  match x with
  | Fin q => of_Q q
  | PosInf => S754_infinity false
  | NegInf => S754_infinity true
  | NaN => S754_nan
  end.

Definition of_Z (z : Z) : double := of_Q (inject_Z z).

(** The rational a finite double is. *)
Definition to_Q (s : bool) (m : positive) (e : Z) : Q :=
  let v := match e with
           | Z0 => inject_Z (Zpos m)
           | Zpos _ => inject_Z (Zpos m * 2 ^ e)
           | Zneg p => Qmake (Zpos m) (2 ^ p)
           end in
  if s then Qopp v else v.

Definition to_number (d : double) : number :=
  match d with
  | S754_zero _ => Fin 0%Qc
  | S754_infinity false => PosInf
  | S754_infinity true => NegInf
  | S754_nan => NaN
  | S754_finite s m e => Fin (Q2Qc (to_Q s m e))
  end.

Definition add : double -> double -> double := SFadd prec emax.
Definition sub : double -> double -> double := SFsub prec emax.
Definition mul : double -> double -> double := SFmul prec emax.
Definition div : double -> double -> double := SFdiv prec emax.

Definition eqb (x y : double) : bool :=
  match x, y with
  | S754_zero a, S754_zero b => Bool.eqb a b
  | S754_infinity a, S754_infinity b => Bool.eqb a b
  | S754_nan, S754_nan => true
  | S754_finite s m e, S754_finite s' m' e' =>
      (Bool.eqb s s' && Pos.eqb m m' && Z.eqb e e')%bool
  | _, _ => false
  end.

(** [parseFloat(x.toFixed(8))]: [toFixed] rounds the exact value of the
    double, [parseFloat] reads the digits back. *)
Definition toFixed8 (d : double) : double :=
  of_number (parseFloat_toFixed8 (to_number d)).

Definition pow10 (n : Z) : Q :=
  match n with
  | Z0 => 1%Q
  | Zpos _ => inject_Z (10 ^ n)
  | Zneg p => Qmake 1 (10 ^ p)
  end.

Definition Qlt_bool (x y : Q) : bool := negb (Qle_bool y x).

(** The least [n] from [n] on with [x < 10^n]. *)
Fixpoint magnitude (fuel : nat) (x : Q) (n : Z) : Z :=
  match fuel with
  | O => n
  | S fuel' => if Qlt_bool x (pow10 n) then n else magnitude fuel' x (n + 1)
  end.

(** [Number::toString]: the decimal of the fewest digits [k] that reads back
    as the double [d] (of value [x], with [10^(n-1) <= x < 10^n]), and among
    those of [k] digits the one closest to [x]. *)
Fixpoint shortest (fuel : nat) (d : double) (x : Q) (n k : Z) : Q :=
  match fuel with
  | O => x
  | S fuel' =>
      let scale := pow10 (n - k) in
      let s := Qfloor (x / scale) in
      let lo := (inject_Z s * scale)%Q in
      let hi := (inject_Z (s + 1) * scale)%Q in
      match eqb (of_Q lo) d, eqb (of_Q hi) d with
      | true, true =>
          match (x - lo ?= hi - x)%Q with
          | Lt => lo
          | Gt => hi
          | Eq => if Z.even s then lo else hi
          end
      | true, false => lo
      | false, true => hi
      | false, false => shortest fuel' d x n (k + 1)
      end
  end.

(** The decimal that [JSON.stringify] prints for a double, which is what a
    client or the database reads; [null] (here [NaN]) for a non-finite one. *)
Definition json_number (d : double) : number :=
  match d with
  | S754_zero _ => Fin 0%Qc
  | S754_finite s m e =>
      let x := to_Q false m e in
      let v := shortest 17 (S754_finite false m e) x (magnitude 700 x (-330)) 1 in
      Fin (Q2Qc (if s then Qopp v else v))
  | _ => NaN
  end.

End Double.

(** ** Strings *)

Definition lower_ascii (c : ascii) : ascii :=
  let n := nat_of_ascii c in
  if ((65 <=? n) && (n <=? 90))%nat then ascii_of_nat (n + 32) else c.

Fixpoint toLowerCase (s : string) : string :=
  match s with
  | EmptyString => EmptyString
  | String c r => String (lower_ascii c) (toLowerCase r)
  end.

(** A string is the list of its bytes.  On a string of ASCII characters,
    which the hexadecimal address of a token is, the function above is
    [String.prototype.toLowerCase]; the cased letters outside ASCII, which
    JavaScript lowers too, are left as they are. *)
Definition is_ascii (c : ascii) : bool := (nat_of_ascii c <? 128)%nat.

Fixpoint ascii_only (s : string) : bool :=
  match s with
  | EmptyString => true
  | String c r => (is_ascii c && ascii_only r)%bool
  end.

(** ** The [token_prices] table *)

Module TokenPrices.

Record CachedPrice : Type := mkCachedPrice {
  token_address : string;
  network : string;
  timestamp : Z;
  price : number;
  date : Z
}.

Definition table := list CachedPrice.

(** [new Date(ts * 1000).toISOString().split('T')[0]]: the UTC day of [ts];
    [toISOString] throws a [RangeError] outside +-8.64e15 ms. *)
Definition maxDateMs : Z := 8640000000000000.

Definition isoDate (ts : Z) : option Z :=
  if Z.abs (ts * 1000) <=? maxDateMs then Some (ts / 86400) else None.

(** [.eq('token_address', token).eq('network', net)] *)
Definition same_key (token net : string) (r : CachedPrice) : bool :=
  (String.eqb (token_address r) token && String.eqb (network r) net)%bool.

(** [idx_token_prices_unique] on [(token_address, network, date)]. *)
Definition conflicts (r r' : CachedPrice) : bool :=
  (same_key (token_address r) (network r) r' && (date r =? date r'))%bool.

Fixpoint pairwise_free (rows : list CachedPrice) : bool :=
  match rows with
  | [] => true
  | r :: rest => (negb (existsb (conflicts r) rest) && pairwise_free rest)%bool
  end.

(** [price DECIMAL(20, 8) NOT NULL]: the column keeps a written price
    rounded to 8 decimals (a tie away from zero) and refuses it when the
    rounded magnitude reaches [10^12] or when it is not a finite number
    ([JSON.stringify] sends [null] for those). *)
Definition decimal_20_8 (x : number) : option number :=
  match x with
  | Fin q =>
      let n := toFixed8_digits q in
      if n <? 10 ^ 20 then
        let m := Q2Qc (Qmake n (Z.to_pos e8)) in
        Some (match (q ?= 0)%Qc with
              | Lt => Fin (- m)%Qc
              | _ => Fin m
              end)
      else None
  | _ => None
  end.

(** [date DATE NOT NULL]: the days the column takes from the text that
    [toISOString] prints, 0001-01-01 to 9999-12-31; year 0000 and the
    six-digit years that [toISOString] prints outside 0000..9999 are refused. *)
Definition minDay : Z := -719162.
Definition maxDay : Z := 2932896.

Definition date_storable (day : Z) : bool := (minDay <=? day) && (day <=? maxDay).

(** The row the table keeps for a written row, if its columns take it. *)
Definition stored (r : CachedPrice) : option CachedPrice :=
  if date_storable (date r) then
    match decimal_20_8 (price r) with
    | Some p => Some {| token_address := token_address r;
                        network := network r;
                        timestamp := timestamp r;
                        price := p;
                        date := date r |}
    | None => None
    end
  else None.

Fixpoint stored_all (rows : list CachedPrice) : option (list CachedPrice) :=
  match rows with
  | [] => Some []
  | r :: rest =>
      match stored r, stored_all rest with
      | Some r', Some rest' => Some (r' :: rest')
      | _, _ => None
      end
  end.

(** [.insert(rows)]: one statement; a value that a column refuses or a
    violation of the unique index rejects it as a whole, and the caller never
    looks at the returned error. *)
Definition insert (rows : list CachedPrice) (tbl : table) : table :=
  match stored_all rows with
  | Some rows' =>
      if (pairwise_free rows'
          && forallb (fun r => negb (existsb (conflicts r) tbl)) rows')%bool
      then tbl ++ rows' else tbl
  | None => tbl
  end.

(** [.order(col, {ascending}).limit(1)] over the selected rows: the first
    row whose column value no other row beats. *)
Fixpoint first_by (col : CachedPrice -> Z) (better : Z -> Z -> bool)
    (rows : list CachedPrice) : option CachedPrice :=
  match rows with
  | [] => None
  | r :: rest =>
      match first_by col better rest with
      | Some r' => if better (col r') (col r) then Some r' else Some r
      | None => Some r
      end
  end.

Definition order_asc_limit1 (col : CachedPrice -> Z) := first_by col Z.ltb.
Definition order_desc_limit1 (col : CachedPrice -> Z) := first_by col Z.gtb.

End TokenPrices.

(** ** [supabase/functions/price/index.ts] in exact arithmetic *)

Module Price.

Import TokenPrices.

Record PriceResponse : Type := mkPriceResponse {
  price : number;
  source : string
}.

Inductive Response : Type :=
| Json200 (body : PriceResponse)
| JsonError (status : Z) (error : string).

Definition interpolatePrice
    (targetTimestamp beforeTimestamp : Z) (beforePrice : number)
    (afterTimestamp : Z) (afterPrice : number) : number :=
  let ratio := div (of_Z (targetTimestamp - beforeTimestamp))
                   (of_Z (afterTimestamp - beforeTimestamp)) in
  add beforePrice (mul (sub afterPrice beforePrice) ratio).

Definition tolerance : Z := 3600.

(** The three selections of the handler. *)
Definition exactMatch (tbl : table) (token network : string) (timestamp : Z)
    : option CachedPrice :=
  order_asc_limit1 TokenPrices.timestamp
    (filter (fun r => same_key (toLowerCase token) network r
                      && (timestamp - tolerance <=? TokenPrices.timestamp r)
                      && (TokenPrices.timestamp r <=? timestamp + tolerance))%bool
            tbl).

Definition beforePrices (tbl : table) (token network : string) (timestamp : Z)
    : option CachedPrice :=
  order_desc_limit1 TokenPrices.timestamp
    (filter (fun r => same_key (toLowerCase token) network r
                      && (TokenPrices.timestamp r <? timestamp))%bool
            tbl).

Definition afterPrices (tbl : table) (token network : string) (timestamp : Z)
    : option CachedPrice :=
  order_asc_limit1 TokenPrices.timestamp
    (filter (fun r => same_key (toLowerCase token) network r
                      && (TokenPrices.timestamp r >? timestamp))%bool
            tbl).

(** [1.0 + Math.random() * 0.1] *)
Definition mockPrice (random : Qc) : number :=
  add (Fin 1%Qc) (mul (Fin random) (Fin (Q2Qc (1 # 10)))).

Definition falsy (s : string) : bool := String.eqb s "".

(** The handler, from the parsed request on.  [alchemyApiKey] is
    [Deno.env.get('ALCHEMY_API_KEY')], [random] the value [Math.random()]
    returns; the result is the response and the table the call leaves. *)
Definition handler (alchemyApiKey : option string) (random : Qc)
    (token network : string) (timestamp : Z) (tbl : table)
    : Response * table :=
  if (falsy token || falsy network || (timestamp =? 0))%bool then
    (JsonError 400 "Missing required fields: token, network, timestamp", tbl)
  else
    match exactMatch tbl token network timestamp with
    | Some cachedPrice =>
        (Json200 {| price := TokenPrices.price cachedPrice; source := "cache" |}, tbl)
    | None =>
        match beforePrices tbl token network timestamp,
              afterPrices tbl token network timestamp with
        | Some beforePrice, Some afterPrice =>
            let interpolatedPrice :=
              interpolatePrice timestamp
                (TokenPrices.timestamp beforePrice) (TokenPrices.price beforePrice)
                (TokenPrices.timestamp afterPrice) (TokenPrices.price afterPrice) in
            (Json200 {| price := parseFloat_toFixed8 interpolatedPrice;
                        source := "interpolated" |}, tbl)
        | _, _ =>
            if match alchemyApiKey with Some k => falsy k | None => true end then
              (JsonError 500 "Alchemy API key not configured", tbl)
            else
              match isoDate timestamp with
              | None => (JsonError 500 "Internal server error", tbl)
              | Some targetDate =>
                  let tbl' :=
                    insert [ {| token_address := toLowerCase token;
                                TokenPrices.network := network;
                                TokenPrices.timestamp := timestamp;
                                TokenPrices.price := mockPrice random;
                                date := targetDate |} ] tbl in
                  (Json200 {| price := parseFloat_toFixed8 (mockPrice random);
                              source := "alchemy" |}, tbl')
              end
        end
    end.

(** A request the validation lets through. *)
Definition valid (token network : string) (timestamp : Z) : Prop :=
  token <> "" /\ network <> "" /\ timestamp <> 0.

(** No stored point on one side of the query at least. *)
Definition no_bracket (tbl : table) (token network : string) (timestamp : Z) : Prop :=
  beforePrices tbl token network timestamp = None \/
  afterPrices tbl token network timestamp = None.

Definition key_configured (alchemyApiKey : option string) : Prop :=
  exists k, alchemyApiKey = Some k /\ k <> "".

(** The unique index lets a point of this token, network and day in. *)
Definition date_free (tbl : table) (token network : string) (day : Z) : Prop :=
  forall r, In r tbl ->
    ~ (token_address r = toLowerCase token /\ TokenPrices.network r = network /\
       date r = day).

Definition source_of (r : Response) : option string :=
  match r with
  | Json200 body => Some (source body)
  | JsonError _ _ => None
  end.

(** A stored point of [(token, network)] within the tolerance of a query. *)
Definition in_window (token network : string) (timestamp : Z) (r : CachedPrice) : Prop :=
  token_address r = toLowerCase token /\ TokenPrices.network r = network /\
  timestamp - tolerance <= TokenPrices.timestamp r <= timestamp + tolerance.

(** The point of the window the specification names: the one closest to the
    query, the earlier one on a tie. *)
Definition closest_in_window (token network : string) (timestamp : Z)
    (tbl : table) (r : CachedPrice) : Prop :=
  In r tbl /\ in_window token network timestamp r /\
  forall r', In r' tbl -> in_window token network timestamp r' ->
    Z.abs (TokenPrices.timestamp r - timestamp)
      < Z.abs (TokenPrices.timestamp r' - timestamp) \/
    (Z.abs (TokenPrices.timestamp r - timestamp)
       = Z.abs (TokenPrices.timestamp r' - timestamp) /\
     TokenPrices.timestamp r <= TokenPrices.timestamp r').

(** The point of the window the query selects: the earliest one. *)
Definition earliest_in_window (token network : string) (timestamp : Z)
    (tbl : table) (r : CachedPrice) : Prop :=
  In r tbl /\ in_window token network timestamp r /\
  forall r', In r' tbl -> in_window token network timestamp r' ->
    TokenPrices.timestamp r <= TokenPrices.timestamp r'.

End Price.

(** ** [supabase/functions/price/index.ts] in binary64 *)

Module Price64.

Import TokenPrices Double.

Definition interpolatePrice
    (targetTimestamp beforeTimestamp : Z) (beforePrice : double)
    (afterTimestamp : Z) (afterPrice : double) : double :=
  let ratio := div (sub (of_Z targetTimestamp) (of_Z beforeTimestamp))
                   (sub (of_Z afterTimestamp) (of_Z beforeTimestamp)) in
  add beforePrice (mul (sub afterPrice beforePrice) ratio).

(** [1.0 + Math.random() * 0.1] *)
Definition mockPrice (random : double) : double :=
  add (of_Z 1) (mul random (of_Q (1 # 10))).

(** The handler of module [Price] with its arithmetic in binary64.  The
    selections are those of [Price]; a stored price comes back as the double
    nearest to the decimal in the column, the price of the answer is the
    decimal that the body of the response prints, and the row handed to the
    table holds the decimal that the body of the insert request prints. *)
Definition handler (alchemyApiKey : option string) (random : double)
    (token network : string) (timestamp : Z) (tbl : table)
    : Price.Response * table :=
  if (Price.falsy token || Price.falsy network || (timestamp =? 0))%bool then
    (Price.JsonError 400 "Missing required fields: token, network, timestamp", tbl)
  else
    match Price.exactMatch tbl token network timestamp with
    | Some cachedPrice =>
        (Price.Json200
           {| Price.price := json_number (of_number (TokenPrices.price cachedPrice));
              Price.source := "cache" |}, tbl)
    | None =>
        match Price.beforePrices tbl token network timestamp,
              Price.afterPrices tbl token network timestamp with
        | Some beforePrice, Some afterPrice =>
            let interpolatedPrice :=
              interpolatePrice timestamp
                (TokenPrices.timestamp beforePrice)
                (of_number (TokenPrices.price beforePrice))
                (TokenPrices.timestamp afterPrice)
                (of_number (TokenPrices.price afterPrice)) in
            (Price.Json200
               {| Price.price := json_number (toFixed8 interpolatedPrice);
                  Price.source := "interpolated" |}, tbl)
        | _, _ =>
            if match alchemyApiKey with Some k => Price.falsy k | None => true end then
              (Price.JsonError 500 "Alchemy API key not configured", tbl)
            else
              match isoDate timestamp with
              | None => (Price.JsonError 500 "Internal server error", tbl)
              | Some targetDate =>
                  let tbl' :=
                    insert [ {| token_address := toLowerCase token;
                                TokenPrices.network := network;
                                TokenPrices.timestamp := timestamp;
                                TokenPrices.price := json_number (mockPrice random);
                                date := targetDate |} ] tbl in
                  (Price.Json200
                     {| Price.price := json_number (toFixed8 (mockPrice random));
                        Price.source := "alchemy" |}, tbl')
              end
        end
    end.

End Price64.

(** ** The [price_fetch_jobs] table *)

Module FetchJobs.

Record Job : Type := mkJob {
  job_id : string;
  token_address : string;
  network : string;
  total_days : Z;
  completed_days : Z;
  status : string;
  error_message : option string
}.

Definition table := list Job.

Definition has_id (jobId : string) (j : Job) : bool := String.eqb (job_id j) jobId.

(** [job_id TEXT UNIQUE NOT NULL]: a second row of the same [job_id] is
    rejected, and the caller never looks at the returned error. *)
Definition insert (j : Job) (tbl : table) : table :=
  if existsb (has_id (job_id j)) tbl then tbl else tbl ++ [j].

(** [.update(fields).eq('job_id', jobId)] *)
Definition update (fields : Job -> Job) (jobId : string) (tbl : table) : table :=
  map (fun j => if has_id jobId j then fields j else j) tbl.

Definition get (jobId : string) (tbl : table) : option Job :=
  find (has_id jobId) tbl.

End FetchJobs.

Record Database : Type := mkDatabase {
  prices : TokenPrices.table;
  jobs : FetchJobs.table
}.

(** ** The schedule function *)

Module Schedule.

Import TokenPrices FetchJobs.

Record ScheduleResponse : Type := mkScheduleResponse {
  resp_job_id : string;
  message : string;
  estimated_days : Z
}.

Inductive Response : Type :=
| Json200 (body : ScheduleResponse)
| JsonError (status : Z) (error : string).

(** The readings of [Date.now()] (milliseconds), one per place that reads
    it: in [getTokenBirthdate], in [generateDailyTimestamps] and in the
    template of the job identifier. *)
Record Clock : Type := mkClock {
  now_birthdate : Z;
  now_generate : Z;
  now_job_id : Z
}.

Definition getTokenBirthdate (dateNow : Z) : Z :=
  let oneYearAgo := dateNow - 365 * 24 * 60 * 60 * 1000 in
  oneYearAgo / 1000.

Definition oneDaySeconds : Z := 24 * 60 * 60.

(** [for (let ts = startTimestamp; ts <= now; ts += oneDaySeconds)] *)
Fixpoint daily_loop (fuel : nat) (ts now : Z) : list Z :=
  match fuel with
  | O => []
  | S fuel' =>
      if ts <=? now then ts :: daily_loop fuel' (ts + oneDaySeconds) now else []
  end.

(** The loop runs at most [(now - start) / 86400 + 1] times. *)
Definition generateDailyTimestamps (startTimestamp dateNow : Z) : list Z :=
  let now := dateNow / 1000 in
  daily_loop (Z.to_nat ((now - startTimestamp) / oneDaySeconds + 1)) startTimestamp now.

Definition chunkSize : nat := 10.

(** [for (let i = 0; i < length; i += chunkSize) chunks.push(slice(i, i + chunkSize))] *)
Fixpoint chunk_loop (fuel : nat) (rest : list Z) : list (list Z) :=
  match fuel, rest with
  | S fuel', _ :: _ => firstn chunkSize rest :: chunk_loop fuel' (skipn chunkSize rest)
  | _, _ => []
  end.

Definition make_chunks (dailyTimestamps : list Z) : list (list Z) :=
  chunk_loop (List.length dailyTimestamps) dailyTimestamps.

Definition string_of_Z (z : Z) : string := NilZero.string_of_int (Z.to_int z).

Definition falsy (s : string) : bool := String.eqb s "".

(** What the handler leaves to the timer callback. *)
Record Background : Type := mkBackground {
  bg_jobId : string;
  bg_dailyTimestamps : list Z;
  bg_chunks : list (list Z)
}.

(** Where the enumeration starts: the day after the last stored date, or
    the birth date of the token. *)
Definition startTimestamp (clock : Clock) (token network : string) (db : Database) : Z :=
  let existingData :=
    order_desc_limit1 date
      (filter (same_key (toLowerCase token) network) (prices db)) in
  match existingData with
  | Some row => date row * 86400 + 86400
  | None => getTokenBirthdate (now_birthdate clock)
  end.

(** [`job-${token.slice(0, 8)}-${Date.now()}`] *)
Definition job_identifier (clock : Clock) (token : string) : string :=
  ("job-" ++ substring 0 8 token ++ "-" ++ string_of_Z (now_job_id clock))%string.

(** The record the handler inserts into [price_fetch_jobs]. *)
Definition job_record (jobId token network : string) (dailyTimestamps : list Z) : Job :=
  {| job_id := jobId;
     FetchJobs.token_address := toLowerCase token;
     FetchJobs.network := network;
     total_days := Z.of_nat (List.length dailyTimestamps);
     completed_days := 0;
     status := "running";
     error_message := None |}.

(** The handler, from the parsed request on: the response, the database it
    leaves, and the background work it has set a timer for. *)
Definition handler (clock : Clock) (token network : string) (db : Database)
    : Response * Database * option Background :=
  if (falsy token || falsy network)%bool then
    (JsonError 400 "Missing required fields: token, network", db, None)
  else
    let dailyTimestamps :=
      generateDailyTimestamps (startTimestamp clock token network db)
                              (now_generate clock) in
    match dailyTimestamps with
    | [] =>
        (Json200 {| resp_job_id := ("no-work-" ++ string_of_Z (now_job_id clock))%string;
                    message := "All historical data already cached";
                    estimated_days := 0 |}, db, None)
    | _ :: _ =>
        let jobId := job_identifier clock token in
        let db' :=
          {| prices := prices db;
             jobs := FetchJobs.insert (job_record jobId token network dailyTimestamps)
                                      (jobs db) |} in
        (Json200 {| resp_job_id := jobId;
                    message := "Historical price fetch scheduled successfully";
                    estimated_days := Z.of_nat (List.length dailyTimestamps) |},
         db',
         Some {| bg_jobId := jobId;
                 bg_dailyTimestamps := dailyTimestamps;
                 bg_chunks := make_chunks dailyTimestamps |})
    end.

(** *** The timer callback *)

Section Runner.

(** [fetchPriceFromAlchemy]: the price the source gives for a timestamp, or
    the message of the error it rejects with. *)
Variable fetchPriceFromAlchemy : string -> string -> Z -> string + number.

Variables (token network : string).

(** One element of [chunk.map(async (timestamp) => ...)]. *)
Definition pricePromise (timestamp : Z) : string + CachedPrice :=
  match fetchPriceFromAlchemy token network timestamp with
  | inl msg => inl msg
  | inr price =>
      match isoDate timestamp with
      | None => inl "Invalid time value"
      | Some date =>
          inr {| TokenPrices.token_address := toLowerCase token;
                 TokenPrices.network := network;
                 timestamp := timestamp;
                 price := price;
                 date := date |}
      end
  end.

(** [await Promise.all(promises)]: every value, or the first rejection; the
    promises settle in the order of the list. *)
Fixpoint promiseAll {A : Type} (promises : list (string + A)) : string + list A :=
  match promises with
  | [] => inr []
  | inl msg :: _ => inl msg
  | inr v :: rest =>
      match promiseAll rest with
      | inl msg => inl msg
      | inr vs => inr (v :: vs)
      end
  end.

Definition progress (completedDays total : Z) (j : Job) : Job :=
  {| job_id := job_id j;
     FetchJobs.token_address := FetchJobs.token_address j;
     FetchJobs.network := FetchJobs.network j;
     total_days := total_days j;
     completed_days := completedDays;
     status := if completedDays >=? total then "completed" else "running";
     error_message := error_message j |}.

Definition failure (msg : string) (j : Job) : Job :=
  {| job_id := job_id j;
     FetchJobs.token_address := FetchJobs.token_address j;
     FetchJobs.network := FetchJobs.network j;
     total_days := total_days j;
     completed_days := completed_days j;
     status := "error";
     error_message := Some msg |}.

(** The [for (const chunk of chunks)] loop inside [try], with its [catch]:
    the successive states of the database, one per update of the job. *)
Fixpoint chunk_states (bg : Background) (todo : list (list Z))
    (completedDays : Z) (db : Database) : list Database :=
  match todo with
  | [] => []
  | chunk :: rest =>
      match promiseAll (map pricePromise chunk) with
      | inl msg =>
          [ {| prices := prices db;
               jobs := FetchJobs.update (failure msg) (bg_jobId bg) (jobs db) |} ]
      | inr rows =>
          let db1 := {| prices := TokenPrices.insert rows (prices db);
                        jobs := jobs db |} in
          let completedDays := completedDays + Z.of_nat (List.length chunk) in
          let db2 :=
            {| prices := prices db1;
               jobs := FetchJobs.update
                         (progress completedDays
                            (Z.of_nat (List.length (bg_dailyTimestamps bg))))
                         (bg_jobId bg) (jobs db1) |} in
          db2 :: chunk_states bg rest completedDays db2
      end
  end.

Definition background_states (bg : Background) (db : Database) : list Database :=
  chunk_states bg (bg_chunks bg) 0 db.

(** The database when the callback returns. *)
Definition background (bg : Background) (db : Database) : Database :=
  last (background_states bg db) db.

End Runner.


End Schedule.

(** ** [src/components/TokenPriceForm.tsx] *)

Module Form.

Record ScheduleProgress : Type := mkScheduleProgress {
  token : string;
  network : string;
  progress : Z;
  status : string
}.

(** The state [handleScheduleHistory] sets once the function has answered. *)
Definition scheduled (tokenAddress network : string) : option ScheduleProgress :=
  Some {| token := tokenAddress; network := network;
          progress := 0; status := "running" |}.

(** One run of the [setInterval] callback: the next state, and whether the
    callback has called [clearInterval]. *)
Definition progressTick (prev : option ScheduleProgress)
    : option ScheduleProgress * bool :=
  match prev with
  | None => (prev, true)
  | Some p =>
      if progress p >=? 100 then (prev, true)
      else
        let newProgress := Z.min (progress p + 10) 100 in
        (Some {| token := token p; network := network p;
                 progress := newProgress;
                 status := if newProgress =? 100 then "completed" else "running" |},
         false)
  end.

(** The state after [n] runs of the callback. *)
Fixpoint after_ticks (n : nat) (state : option ScheduleProgress)
    : option ScheduleProgress :=
  match n with
  | O => state
  | S n' => after_ticks n' (fst (progressTick state))
  end.

Definition getSourceBadgeVariant (source : string) : string :=
  if String.eqb source "cache" then "secondary"
  else if String.eqb source "alchemy" then "default"
  else if String.eqb source "interpolated" then "outline"
  else "secondary".

End Form.

(** ** Sample data *)

Module Scenarios.

Import TokenPrices.

Definition point (ts : Z) (p : Qc) : CachedPrice :=
  {| token_address := "0xab"; network := "ethereum"; timestamp := ts;
     price := Fin p; date := ts / 86400 |}.

Definition q (n : Z) (d : positive) : Qc := Q2Qc (Qmake n d).

(** Two points of consecutive days in the window of a query at 86400, the
    later one closer. *)
Definition window_pair : table := [point 83400 (q 1 1); point 86410 (q 2 1)].

(** One point, two hours before a query at 93600 of the same day. *)
Definition same_day : table := [point 86400 (q 1 1)].

(** Two points of consecutive days with a query at 90000 half-way, outside
    the tolerance of both. *)
Definition bracket_pair : table := [point 80000 (q 1 1); point 100000 (q 2 1)].

(** Two points for which the interpolation at 90003 is 1.000018015 in exact
    arithmetic, a tie of the rounding to 8 decimals. *)
Definition tie_pair : table := [point 86400 (q 1 1); point 200086400 (q 2 1)].

(** The points of the specification's scenario.  Both timestamps fall on
    1970-01-01, so the unique index admits the two rows only under dates
    that differ. *)
Definition scenario_A : table :=
  [ {| token_address := "0xab"; network := "ethereum"; timestamp := 1000;
       price := Fin (q 1 1); date := 0 |};
    {| token_address := "0xab"; network := "ethereum"; timestamp := 2000;
       price := Fin (q 2 1); date := 1 |} ].

(** Two values of [Math.random()]: the double nearest to 1/3, and a
    multiple of [2^-53] for which [1.0 + random * 0.1] prints as
    1.000018015. *)
Definition third : Double.double := Double.of_Q (1 # 3).
Definition tie_draw : Double.double := Double.of_Q (1622646945740 # 9007199254740992).

(** An empty database and a token first seen at the epoch, scheduled in the
    second day: two daily timestamps, one chunk. *)
Definition empty : Database := {| prices := []; jobs := [] |}.

Definition two_days : Schedule.Clock :=
  {| Schedule.now_birthdate := 31536000000;
     Schedule.now_generate := 86405000;
     Schedule.now_job_id := 86405001 |}.

(** A price source that answers for the first day only. *)
Definition first_day_only (token network : string) (ts : Z) : string + number :=
  if ts =? 0 then inr (Fin (q 1 1)) else inl "rate limited".

(** A price source that always answers. *)
Definition steady (token network : string) (ts : Z) : string + number :=
  inr (Fin (q 1 1)).

(** A price source that fails for the days 12 and 14, with messages that
    differ. *)
Definition flaky (token network : string) (ts : Z) : string + number :=
  if ts =? 12 * 86400 then inl "timeout"
  else if ts =? 14 * 86400 then inl "rate limited"
  else inr (Fin (q 1 1)).

(** The call that schedules these two days. *)
Definition scheduled : Schedule.Response * Database * option Schedule.Background :=
  Schedule.handler two_days "0xABCDEF1234" "ethereum" empty.

Definition scheduled_db : Database := snd (fst scheduled).

Definition scheduled_bg : Schedule.Background :=
  {| Schedule.bg_jobId := "job-0xABCDEF-86405001";
     Schedule.bg_dailyTimestamps := [0; 86400];
     Schedule.bg_chunks := [[0; 86400]] |}.

(** The same token scheduled in the 25th day: 25 daily timestamps, three
    chunks. *)
Definition month : Schedule.Clock :=
  {| Schedule.now_birthdate := 31536000000;
     Schedule.now_generate := 2073605000;
     Schedule.now_job_id := 2073605001 |}.

Definition month_days : list Z :=
  Schedule.generateDailyTimestamps 0 (Schedule.now_generate month).

Definition month_first : list Z := firstn 10 month_days.
Definition month_second : list Z := firstn 10 (skipn 10 month_days).
Definition month_third : list Z := skipn 20 month_days.

Definition month_bg : Schedule.Background :=
  {| Schedule.bg_jobId := "job-0xABCDEF-2073605001";
     Schedule.bg_dailyTimestamps := month_days;
     Schedule.bg_chunks := [month_first] ++ month_second :: [month_third] |}.

Definition month_db : Database :=
  snd (fst (Schedule.handler month "0xABCDEF1234" "ethereum" empty)).

(** Two calls for one token within one millisecond, on two networks.  The
    store holds the first day of the token on polygon and nothing on
    ethereum; both calls form the identifier job-0xABCDEF-86405001. *)
Definition polygon_day : Database :=
  {| prices := [ {| token_address := "0xabcdef1234"; network := "polygon";
                    timestamp := 0; price := Fin (q 1 1); date := 0 |} ];
     jobs := [] |}.

Definition ethereum_call : Schedule.Response * Database * option Schedule.Background :=
  Schedule.handler two_days "0xABCDEF1234" "ethereum" polygon_day.



End Scenarios.

(** * Properties *)

(** ** Numbers *)

(** Closing goals between evaluated numbers: two canonical rationals are
    equal as soon as their fractions are. *)
Ltac number_eq :=
  repeat first [ reflexivity | apply Qc_decomp | f_equal ].

Module JsNumberFacts.








(** The model on a few values: division by zero, and [toFixed(8)] on a tie,
    on a negative number and from [10^21] on. *)
Example div_zero_values :
  div (of_Z 5) (of_Z 0) = PosInf /\ div (of_Z (-5)) (of_Z 0) = NegInf /\
  div (of_Z 0) (of_Z 0) = NaN.
Proof. repeat split; reflexivity. Qed.

Example toFixed8_tie :
  parseFloat_toFixed8 (Fin (Q2Qc (5 # 1000000000))) = Fin (Q2Qc (1 # 100000000)).
Proof. vm_compute. number_eq. Qed.

Example toFixed8_negative :
  parseFloat_toFixed8 (Fin (Q2Qc (-15 # 1000000000))) = Fin (Q2Qc (-2 # 100000000)).
Proof. vm_compute. number_eq. Qed.

Example toFixed8_large :
  parseFloat_toFixed8 (Fin (Q2Qc (3000000000000000000001 # 3)))
  = Fin (Q2Qc (3000000000000000000001 # 3)).
Proof. reflexivity. Qed.

End JsNumberFacts.


(** ** Selections over [token_prices] *)

Module TokenPricesFacts.

Import TokenPrices.

Section FirstBy.

Variable col : CachedPrice -> Z.

Lemma first_by_None (better : Z -> Z -> bool) (rows : list CachedPrice) :
  first_by col better rows = None <-> rows = [].
Proof.
  destruct rows as [|r rest]; simpl.
  - tauto.
  - split; [|discriminate].
    destruct (first_by col better rest) as [r'|]; [|discriminate].
    destruct (better (col r') (col r)); discriminate.
Qed.

Lemma first_by_In (better : Z -> Z -> bool) (rows : list CachedPrice) (r : CachedPrice) :
  first_by col better rows = Some r -> In r rows.
Proof.
  revert r. induction rows as [|x rest IH]; simpl; intros r H.
  - discriminate.
  - destruct (first_by col better rest) as [r'|].
    + destruct (better (col r') (col x)); inversion H; subst; auto.
    + inversion H; auto.
Qed.

Lemma order_asc_least (rows : list CachedPrice) (r : CachedPrice) :
  order_asc_limit1 col rows = Some r ->
  forall r', In r' rows -> col r <= col r'.
Proof.
  unfold order_asc_limit1. revert r.
  induction rows as [|x rest IH]; simpl; intros r H r' Hin.
  - contradiction.
  - destruct (first_by col Z.ltb rest) as [m|] eqn:Hm.
    + specialize (IH m eq_refl).
      destruct (Z.ltb_spec (col m) (col x)); inversion H; subst;
        destruct Hin as [->|Hin]; try lia; specialize (IH _ Hin); lia.
    + apply first_by_None in Hm. subst rest. inversion H; subst.
      destruct Hin as [->|[]]. lia.
Qed.

Lemma order_desc_greatest (rows : list CachedPrice) (r : CachedPrice) :
  order_desc_limit1 col rows = Some r ->
  forall r', In r' rows -> col r' <= col r.
Proof.
  unfold order_desc_limit1. revert r.
  induction rows as [|x rest IH]; simpl; intros r H r' Hin.
  - contradiction.
  - destruct (first_by col Z.gtb rest) as [m|] eqn:Hm.
    + specialize (IH m eq_refl). rewrite Z.gtb_ltb in H.
      destruct (Z.ltb_spec (col x) (col m)); inversion H; subst;
        destruct Hin as [->|Hin]; try lia; specialize (IH _ Hin); lia.
    + apply first_by_None in Hm. subst rest. inversion H; subst.
      destruct Hin as [->|[]]. lia.
Qed.

End FirstBy.

Example toLowerCase_address : toLowerCase "0xABCdef12" = "0xabcdef12".
Proof. reflexivity. Qed.

Lemma same_key_spec (token net : string) (r : CachedPrice) :
  same_key token net r = true <-> token_address r = token /\ network r = net.
Proof.
  unfold same_key. rewrite andb_true_iff, !String.eqb_eq. tauto.
Qed.

Lemma same_key_refl (r : CachedPrice) :
  same_key (token_address r) (network r) r = true.
Proof. apply same_key_spec. auto. Qed.

End TokenPricesFacts.

(** ** The price resolver *)

Module PriceFacts.

Import TokenPrices Price JsNumberFacts TokenPricesFacts.

Lemma valid_passes (token network : string) (timestamp : Z) :
  valid token network timestamp ->
  (falsy token || falsy network || (timestamp =? 0))%bool = false.
Proof.
  intros (Ht & Hn & Hz). unfold falsy.
  apply String.eqb_neq in Ht, Hn. apply Z.eqb_neq in Hz.
  rewrite Ht, Hn, Hz. reflexivity.
Qed.

(** *** The three selections *)

Lemma window_filter (token network : string) (timestamp : Z) (r : CachedPrice) :
  (same_key (toLowerCase token) network r
   && (timestamp - tolerance <=? TokenPrices.timestamp r)
   && (TokenPrices.timestamp r <=? timestamp + tolerance))%bool = true
  <-> in_window token network timestamp r.
Proof.
  unfold in_window.
  rewrite !andb_true_iff, same_key_spec, !Z.leb_le. tauto.
Qed.

Lemma exactMatch_earliest (tbl : table) (token network : string) (timestamp : Z)
    (c : CachedPrice) :
  exactMatch tbl token network timestamp = Some c ->
  earliest_in_window token network timestamp tbl c.
Proof.
  unfold exactMatch. intros H.
  pose proof (first_by_In _ _ _ _ H) as Hin.
  apply filter_In in Hin. destruct Hin as [Hin Hw].
  apply window_filter in Hw.
  split; [exact Hin|]. split; [exact Hw|].
  intros r' Hin' Hw'.
  apply (order_asc_least _ _ _ H).
  apply filter_In. split; [exact Hin'|]. apply window_filter. exact Hw'.
Qed.

Lemma exactMatch_None (tbl : table) (token network : string) (timestamp : Z) :
  exactMatch tbl token network timestamp = None <->
  forall r, In r tbl -> ~ in_window token network timestamp r.
Proof.
  unfold exactMatch, order_asc_limit1. rewrite first_by_None. split.
  - intros Hnil r Hin Hw.
    assert (Hf : In r (filter (fun r =>
      (same_key (toLowerCase token) network r
       && (timestamp - tolerance <=? TokenPrices.timestamp r)
       && (TokenPrices.timestamp r <=? timestamp + tolerance))%bool) tbl)).
    { apply filter_In. split; [exact Hin|]. apply window_filter. exact Hw. }
    rewrite Hnil in Hf. contradiction.
  - intros Hnone.
    destruct (filter _ tbl) as [|r rest] eqn:Hf; [reflexivity|].
    assert (Hin : In r (r :: rest)) by (left; reflexivity).
    rewrite <- Hf in Hin. apply filter_In in Hin. destruct Hin as [Hin Hw].
    apply window_filter in Hw. exfalso. exact (Hnone r Hin Hw).
Qed.

Lemma beforePrices_lt (tbl : table) (token network : string) (timestamp : Z)
    (b : CachedPrice) :
  beforePrices tbl token network timestamp = Some b ->
  In b tbl /\ TokenPrices.timestamp b < timestamp.
Proof.
  unfold beforePrices. intros H.
  apply first_by_In, filter_In in H. destruct H as [Hin Hf].
  apply andb_true_iff in Hf. destruct Hf as [_ Hlt].
  apply Z.ltb_lt in Hlt. auto.
Qed.

Lemma afterPrices_gt (tbl : table) (token network : string) (timestamp : Z)
    (a : CachedPrice) :
  afterPrices tbl token network timestamp = Some a ->
  In a tbl /\ timestamp < TokenPrices.timestamp a.
Proof.
  unfold afterPrices. intros H.
  apply first_by_In, filter_In in H. destruct H as [Hin Hf].
  apply andb_true_iff in Hf. destruct Hf as [_ Hgt].
  apply Z.gtb_lt in Hgt. auto.
Qed.

(** *** The interpolation *)



(** *** The paths of the handler *)

Section Paths.

Variables (alchemyApiKey : option string) (random : Qc).
Variables (token network : string) (timestamp : Z) (tbl : table).
Hypothesis Hvalid : valid token network timestamp.

Lemma handler_cache (c : CachedPrice) :
  exactMatch tbl token network timestamp = Some c ->
  handler alchemyApiKey random token network timestamp tbl
  = (Json200 {| price := TokenPrices.price c; source := "cache" |}, tbl).
Proof.
  intros Hc. unfold handler. rewrite (valid_passes _ _ _ Hvalid), Hc. reflexivity.
Qed.

Lemma handler_interpolated (b a : CachedPrice) :
  exactMatch tbl token network timestamp = None ->
  beforePrices tbl token network timestamp = Some b ->
  afterPrices tbl token network timestamp = Some a ->
  handler alchemyApiKey random token network timestamp tbl
  = (Json200 {| price := parseFloat_toFixed8
                           (interpolatePrice timestamp
                              (TokenPrices.timestamp b) (TokenPrices.price b)
                              (TokenPrices.timestamp a) (TokenPrices.price a));
                source := "interpolated" |}, tbl).
Proof.
  intros Hc Hb Ha. unfold handler.
  rewrite (valid_passes _ _ _ Hvalid), Hc, Hb, Ha. reflexivity.
Qed.

Lemma handler_external (targetDate : Z) :
  exactMatch tbl token network timestamp = None ->
  no_bracket tbl token network timestamp -> key_configured alchemyApiKey ->
  isoDate timestamp = Some targetDate ->
  handler alchemyApiKey random token network timestamp tbl
  = (Json200 {| price := parseFloat_toFixed8 (mockPrice random);
                source := "alchemy" |},
     insert [ {| token_address := toLowerCase token;
                 TokenPrices.network := network;
                 TokenPrices.timestamp := timestamp;
                 TokenPrices.price := mockPrice random;
                 date := targetDate |} ] tbl).
Proof.
  intros Hc Hnb (k & -> & Hk) Hd. unfold handler.
  rewrite (valid_passes _ _ _ Hvalid), Hc, Hd.
  apply String.eqb_neq in Hk. change (falsy k) with (String.eqb k "").
  rewrite Hk. destruct Hnb as [-> | Hn].
  - reflexivity.
  - rewrite Hn. destruct (beforePrices tbl token network timestamp); reflexivity.
Qed.

End Paths.

(** *** Cache hits *)

(** C2 (as amended).  When some stored point of (token, network) lies within
    3600 s of the query, the handler answers the price of the earliest point
    of that window, with source "cache", and leaves the table as it is. *)
Theorem resolve_cache_earliest
    (alchemyApiKey : option string) (random : Qc)
    (token network : string) (t : Z) (tbl : table) :
  valid token network t ->
  (exists r, In r tbl /\ in_window token network t r) ->
  exists c,
    earliest_in_window token network t tbl c /\
    handler alchemyApiKey random token network t tbl
    = (Json200 {| price := TokenPrices.price c; source := "cache" |}, tbl).
Proof.
  intros Hv (r & Hin & Hw).
  destruct (exactMatch tbl token network t) as [c|] eqn:Hc.
  - exists c. split.
    + apply exactMatch_earliest. exact Hc.
    + apply handler_cache; assumption.
  - exfalso. rewrite exactMatch_None in Hc. exact (Hc r Hin Hw).
Qed.

Lemma resolve_cache_earliest_witness :
  exists c,
    earliest_in_window "0xAB" "ethereum" 86400 Scenarios.window_pair c /\
    handler None 0%Qc "0xAB" "ethereum" 86400 Scenarios.window_pair
    = (Json200 {| price := TokenPrices.price c; source := "cache" |},
       Scenarios.window_pair).
Proof.
  apply (resolve_cache_earliest None 0%Qc "0xAB" "ethereum" 86400
           Scenarios.window_pair).
  - unfold valid. repeat split; discriminate.
  - exists (Scenarios.point 86410 (Scenarios.q 2 1)). split.
    + simpl. right. left. reflexivity.
    + unfold in_window, tolerance. simpl. repeat split; lia.
Defined.

(** C2, as the specification states it, fails: of two points in the window
    the closest one is not the one that answers. *)
Lemma closest_point_not_returned :
  exists r,
    closest_in_window "0xAB" "ethereum" 86400 Scenarios.window_pair r /\
    fst (handler None 0%Qc "0xAB" "ethereum" 86400 Scenarios.window_pair)
    <> Json200 {| price := TokenPrices.price r; source := "cache" |}.
Proof.
  exists (Scenarios.point 86410 (Scenarios.q 2 1)). split.
  - unfold closest_in_window, in_window, tolerance. simpl. split; [|split].
    + right. left. reflexivity.
    + repeat split; lia.
    + intros r' [<- | [<- | []]] _; simpl; lia.
  - vm_compute. intros H. discriminate H.
Qed.

(** *** The interpolator on its own *)




(** *** The source of an answer *)

(** C4 (as amended).  The source of every successful answer is "cache",
    "interpolated" or "alchemy", and it is "alchemy" whenever the call went
    to the external price source. *)
Theorem source_is_cache_interpolated_or_alchemy
    (alchemyApiKey : option string) (random : Qc)
    (token network : string) (t : Z) (tbl tbl' : table) (body : PriceResponse) :
  handler alchemyApiKey random token network t tbl = (Json200 body, tbl') ->
  (source body = "cache" \/ source body = "interpolated"
   \/ source body = "alchemy") /\
  (exactMatch tbl token network t = None ->
   no_bracket tbl token network t ->
   source body = "alchemy").
Proof.
  unfold handler, no_bracket.
  destruct (falsy token || falsy network || (t =? 0))%bool; [discriminate|].
  destruct (exactMatch tbl token network t) as [c|].
  - intros H. inversion H; subst. simpl. split; [auto|discriminate].
  - destruct (beforePrices tbl token network t) as [b|],
             (afterPrices tbl token network t) as [a|];
      try (destruct (match alchemyApiKey with Some k => falsy k | None => true end);
           [discriminate|];
           destruct (isoDate t); [|discriminate];
           intros H; inversion H; subst; simpl; split; auto).
    intros H. inversion H; subst. simpl. split; [auto|].
    intros _ [Hn | Hn]; discriminate Hn.
Qed.

Lemma source_is_cache_interpolated_or_alchemy_witness :
  (source {| price := parseFloat_toFixed8 (mockPrice 0%Qc); source := "alchemy" |}
     = "cache"
   \/ source {| price := parseFloat_toFixed8 (mockPrice 0%Qc); source := "alchemy" |}
     = "interpolated"
   \/ source {| price := parseFloat_toFixed8 (mockPrice 0%Qc); source := "alchemy" |}
     = "alchemy") /\
  (exactMatch [] "0xAB" "ethereum" 1500 = None ->
   no_bracket [] "0xAB" "ethereum" 1500 ->
   source {| price := parseFloat_toFixed8 (mockPrice 0%Qc); source := "alchemy" |}
   = "alchemy").
Proof.
  apply (source_is_cache_interpolated_or_alchemy (Some "key") 0%Qc
           "0xAB" "ethereum" 1500 []
           (snd (handler (Some "key") 0%Qc "0xAB" "ethereum" 1500 []))).
  reflexivity.
Defined.

(** C4, as the specification states it, fails: the source of an answer
    fetched from the external price source is "alchemy", not "external". *)
Lemma external_answer_is_tagged_alchemy :
  source_of (fst (handler (Some "key") 0%Qc "0xAB" "ethereum" 1500 []))
  = Some "alchemy" /\
  source_of (fst (handler (Some "key") 0%Qc "0xAB" "ethereum" 1500 []))
  <> Some "external".
Proof. split; [reflexivity|]. vm_compute. intros H. discriminate H. Qed.

(** *** Repeated calls *)

(** C5 (as amended).  Two calls with the same arguments against the same
    table give answers of the same source; when a stored point lies within
    the tolerance, or stored points lie on both sides of the query, they
    give the same answer whatever the random draws, and leave the table as
    it is.  (On the external path the price follows the draw.) *)
Theorem resolve_repeatable
    (alchemyApiKey : option string) (random1 random2 : Qc)
    (token network : string) (t : Z) (tbl : table) :
  source_of (fst (handler alchemyApiKey random1 token network t tbl))
  = source_of (fst (handler alchemyApiKey random2 token network t tbl)) /\
  ((exists c, exactMatch tbl token network t = Some c) \/
   (exists b a, beforePrices tbl token network t = Some b /\
                afterPrices tbl token network t = Some a) ->
   handler alchemyApiKey random1 token network t tbl
   = handler alchemyApiKey random2 token network t tbl /\
   snd (handler alchemyApiKey random1 token network t tbl) = tbl).
Proof.
  unfold handler.
  destruct (falsy token || falsy network || (t =? 0))%bool; [simpl; auto|].
  destruct (exactMatch tbl token network t) as [c|]; [simpl; auto|].
  destruct (beforePrices tbl token network t) as [b|],
           (afterPrices tbl token network t) as [a|]; [simpl; auto| | |];
    (split;
     [ destruct (match alchemyApiKey with Some k => falsy k | None => true end);
       [reflexivity|]; destruct (isoDate t); reflexivity
     | intros [(c & Hc) | (b' & a' & Hb & Ha)]; discriminate ]).
Qed.

Lemma resolve_repeatable_witness :
  handler None 0%Qc "0xAB" "ethereum" 90000 Scenarios.bracket_pair
  = handler None (Scenarios.q 1 2) "0xAB" "ethereum" 90000 Scenarios.bracket_pair /\
  snd (handler None 0%Qc "0xAB" "ethereum" 90000 Scenarios.bracket_pair)
  = Scenarios.bracket_pair.
Proof.
  apply (proj2 (resolve_repeatable None 0%Qc (Scenarios.q 1 2)
                  "0xAB" "ethereum" 90000 Scenarios.bracket_pair)).
  right. exists (Scenarios.point 80000 (Scenarios.q 1 1)),
                (Scenarios.point 100000 (Scenarios.q 2 1)).
  split; reflexivity.
Defined.

(** C5, as the specification states it, fails on the external path: the
    price is drawn afresh at every call.  Here the table is the same before
    and after both calls (the unique index rejects the write) and the two
    answers differ. *)
Lemma external_answers_differ :
  snd (handler (Some "key") 0%Qc "0xAB" "ethereum" 93600 Scenarios.same_day)
  = Scenarios.same_day /\
  snd (handler (Some "key") (Scenarios.q 1 2) "0xAB" "ethereum" 93600 Scenarios.same_day)
  = Scenarios.same_day /\
  fst (handler (Some "key") 0%Qc "0xAB" "ethereum" 93600 Scenarios.same_day)
  <> fst (handler (Some "key") (Scenarios.q 1 2) "0xAB" "ethereum" 93600
            Scenarios.same_day).
Proof.
  split; [reflexivity|]. split; [reflexivity|].
  vm_compute. intros H. discriminate H.
Qed.

(** *** What the table keeps of a written row *)

Lemma stored_key (r kept : CachedPrice) :
  stored r = Some kept ->
  token_address kept = token_address r /\
  TokenPrices.network kept = TokenPrices.network r /\
  TokenPrices.timestamp kept = TokenPrices.timestamp r /\
  date kept = date r /\
  decimal_20_8 (TokenPrices.price r) = Some (TokenPrices.price kept) /\
  minDay <= date r <= maxDay.
Proof.
  unfold stored. destruct (date_storable (date r)) eqn:Hd; [|discriminate].
  destruct (decimal_20_8 (TokenPrices.price r)) as [p|]; [|discriminate].
  intros H. inversion H; subst; clear H. simpl.
  unfold date_storable in Hd. apply andb_true_iff in Hd. destruct Hd as [H1 H2].
  apply Z.leb_le in H1. apply Z.leb_le in H2. repeat split; auto.
Qed.

Lemma stored_all_spec (rows kept : list CachedPrice) :
  stored_all rows = Some kept -> Forall2 (fun r k => stored r = Some k) rows kept.
Proof.
  revert kept. induction rows as [|r rows IH]; simpl; intros kept H.
  - inversion H. constructor.
  - destruct (stored r) as [k|] eqn:Hk; [|discriminate].
    destruct (stored_all rows) as [ks|]; [|discriminate].
    inversion H; subst. constructor; auto.
Qed.

Lemma no_conflict (tbl : table) (token network : string) (r : CachedPrice) :
  token_address r = toLowerCase token ->
  TokenPrices.network r = network ->
  date_free tbl token network (date r) ->
  existsb (conflicts r) tbl = false.
Proof.
  intros Ht Hn Hfree. apply not_true_is_false. intros Hex.
  apply existsb_exists in Hex. destruct Hex as (x & Hin & Hx).
  unfold conflicts in Hx. apply andb_true_iff in Hx. destruct Hx as [Hk Hd].
  apply same_key_spec in Hk. apply Z.eqb_eq in Hd.
  apply (Hfree x Hin). rewrite <- Ht, <- Hn. intuition congruence.
Qed.

Lemma insert_one_free (tbl : table) (token network : string) (r kept : CachedPrice) :
  stored r = Some kept ->
  token_address r = toLowerCase token ->
  TokenPrices.network r = network ->
  date_free tbl token network (date r) ->
  insert [r] tbl = tbl ++ [kept].
Proof.
  intros Hk Ht Hn Hfree. unfold insert. cbn [stored_all]. rewrite Hk.
  destruct (stored_key _ _ Hk) as (Ht' & Hn' & _ & Hd' & _).
  cbn [pairwise_free forallb existsb negb andb].
  rewrite (no_conflict tbl token network kept);
    [reflexivity| | |]; rewrite ?Ht', ?Hn', ?Hd'; assumption.
Qed.

Lemma exactMatch_after_insert (tbl : table) (token network : string) (t : Z)
    (r : CachedPrice) :
  exactMatch tbl token network t = None ->
  in_window token network t r ->
  exactMatch (tbl ++ [r]) token network t = Some r.
Proof.
  unfold exactMatch, order_asc_limit1. intros Hnone Hw.
  apply first_by_None in Hnone. rewrite filter_app, Hnone. simpl.
  apply window_filter in Hw. rewrite Hw. reflexivity.
Qed.

End PriceFacts.

(** ** The price resolver in binary64 *)

Module Price64Facts.

Import TokenPrices Price Double.

Example double_tenth : of_Q (1 # 10) = S754_finite false 7205759403792794 (-56).
Proof. reflexivity. Qed.

(** [0.1 + 0.2] prints as 0.30000000000000004, [1 / 3] as
    0.3333333333333333, [2^53 + 1] as 9007199254740992. *)
Example json_number_samples :
  json_number (add (of_Q (1 # 10)) (of_Q (2 # 10)))
  = Fin (Scenarios.q 30000000000000004 100000000000000000) /\
  json_number (div (of_Z 1) (of_Z 3))
  = Fin (Scenarios.q 3333333333333333 10000000000000000) /\
  json_number (of_Z 9007199254740993) = Fin (Scenarios.q 9007199254740992 1) /\
  json_number (div (of_Z 0) (of_Z 0)) = NaN.
Proof. repeat split; vm_compute; number_eq. Qed.

(** *** The paths of the handler *)

Section Paths64.

Variables (alchemyApiKey : option string) (random : double).
Variables (token network : string) (timestamp : Z) (tbl : table).
Hypothesis Hvalid : valid token network timestamp.

Lemma handler64_cache (c : CachedPrice) :
  exactMatch tbl token network timestamp = Some c ->
  Price64.handler alchemyApiKey random token network timestamp tbl
  = (Json200 {| price := json_number (of_number (TokenPrices.price c));
                source := "cache" |}, tbl).
Proof.
  intros Hc. unfold Price64.handler.
  rewrite (PriceFacts.valid_passes _ _ _ Hvalid), Hc. reflexivity.
Qed.

Lemma handler64_interpolated (b a : CachedPrice) :
  exactMatch tbl token network timestamp = None ->
  beforePrices tbl token network timestamp = Some b ->
  afterPrices tbl token network timestamp = Some a ->
  Price64.handler alchemyApiKey random token network timestamp tbl
  = (Json200 {| price := json_number (toFixed8
                           (Price64.interpolatePrice timestamp
                              (TokenPrices.timestamp b)
                              (of_number (TokenPrices.price b))
                              (TokenPrices.timestamp a)
                              (of_number (TokenPrices.price a))));
                source := "interpolated" |}, tbl).
Proof.
  intros Hc Hb Ha. unfold Price64.handler.
  rewrite (PriceFacts.valid_passes _ _ _ Hvalid), Hc, Hb, Ha. reflexivity.
Qed.

Lemma handler64_external (targetDate : Z) :
  exactMatch tbl token network timestamp = None ->
  no_bracket tbl token network timestamp -> key_configured alchemyApiKey ->
  isoDate timestamp = Some targetDate ->
  Price64.handler alchemyApiKey random token network timestamp tbl
  = (Json200 {| price := json_number (toFixed8 (Price64.mockPrice random));
                source := "alchemy" |},
     insert [ {| token_address := toLowerCase token;
                 TokenPrices.network := network;
                 TokenPrices.timestamp := timestamp;
                 TokenPrices.price := json_number (Price64.mockPrice random);
                 date := targetDate |} ] tbl).
Proof.
  intros Hc Hnb (k & -> & Hk) Hd. unfold Price64.handler.
  rewrite (PriceFacts.valid_passes _ _ _ Hvalid), Hc, Hd.
  apply String.eqb_neq in Hk. change (falsy k) with (String.eqb k "").
  rewrite Hk. destruct Hnb as [-> | Hn].
  - reflexivity.
  - rewrite Hn. destruct (beforePrices tbl token network timestamp); reflexivity.
Qed.

End Paths64.

(** The two renderings of the handler take the same path: they fail with
    the same status and message or answer with the same source, and neither
    touches the table unless it answers from the external source. *)
Lemma handlers_agree
    (alchemyApiKey : option string) (random : Qc) (random64 : double)
    (token network : string) (t : Z) (tbl : table) :
  match Price.handler alchemyApiKey random token network t tbl,
        Price64.handler alchemyApiKey random64 token network t tbl with
  | (JsonError status error, tbl1), (JsonError status' error', tbl2) =>
      status = status' /\ error = error' /\ tbl1 = tbl /\ tbl2 = tbl
  | (Json200 body, tbl1), (Json200 body', tbl2) =>
      source body = source body' /\
      (source body <> "alchemy" -> tbl1 = tbl /\ tbl2 = tbl)
  | _, _ => False
  end.
Proof.
  unfold Price.handler, Price64.handler.
  destruct (falsy token || falsy network || (t =? 0))%bool; [auto|].
  destruct (exactMatch tbl token network t).
  { cbn. split; [reflexivity|auto]. }
  destruct (beforePrices tbl token network t), (afterPrices tbl token network t);
    try (cbn; split; [reflexivity|auto]; fail);
    (destruct (match alchemyApiKey with Some k => falsy k | None => true end);
     [auto|]; destruct (isoDate t); [|auto];
     cbn; split; [reflexivity|]; intros H; exfalso; apply H; reflexivity).
Qed.

(** *** Interpolated answers *)

(** C1 (as amended).  When no stored point lies within 3600 s of the query
    and stored points exist before and after it, the nearest of them
    [(t0, p0)] and [(t1, p1)] lie strictly on either side of the query and
    the handler answers, with source "interpolated" and without touching the
    table, the value of [p0 + (p1 - p0) * ((t - t0) / (t1 - t0))] computed
    in binary64 and rounded to 8 decimals by [toFixed(8)].  With points
    (80000, 1.0) and (100000, 2.0) a query at 90000 is answered 1.5.  With
    points (86400, 1.0) and (200086400, 2.0) a query at 90003 is answered
    1.00001801, where the exact value 1.000018015 of the formula rounds to
    1.00001802.  With points (1000, 1.0) and (2000, 2.0) a query at 1500
    finds both within the tolerance and is answered 1.0, "cache". *)
Theorem resolve_interpolated :
  (forall (alchemyApiKey : option string) (random : double)
          (token network : string) (t : Z) (tbl : table) (b a : CachedPrice),
      valid token network t ->
      exactMatch tbl token network t = None ->
      beforePrices tbl token network t = Some b ->
      afterPrices tbl token network t = Some a ->
      let t0 := TokenPrices.timestamp b in
      let t1 := TokenPrices.timestamp a in
      let p0 := of_number (TokenPrices.price b) in
      let p1 := of_number (TokenPrices.price a) in
      t0 < t < t1 /\
      Price64.handler alchemyApiKey random token network t tbl
      = (Json200 {| price := json_number (toFixed8
                      (add p0 (mul (sub p1 p0)
                                   (div (sub (of_Z t) (of_Z t0))
                                        (sub (of_Z t1) (of_Z t0))))));
                    source := "interpolated" |}, tbl)) /\
  Price64.handler None Scenarios.third "0xAB" "ethereum" 90000 Scenarios.bracket_pair
  = (Json200 {| price := Fin (Scenarios.q 3 2); source := "interpolated" |},
     Scenarios.bracket_pair) /\
  Price64.handler None Scenarios.third "0xAB" "ethereum" 90003 Scenarios.tie_pair
  = (Json200 {| price := Fin (Scenarios.q 100001801 100000000);
                source := "interpolated" |}, Scenarios.tie_pair) /\
  parseFloat_toFixed8
    (Price.interpolatePrice 90003 86400 (Fin (Scenarios.q 1 1))
                            200086400 (Fin (Scenarios.q 2 1)))
  = Fin (Scenarios.q 100001802 100000000) /\
  Price64.handler None Scenarios.third "0xAB" "ethereum" 1500 Scenarios.scenario_A
  = (Json200 {| price := Fin (Scenarios.q 1 1); source := "cache" |},
     Scenarios.scenario_A).
Proof.
  split; [|repeat split; vm_compute; number_eq].
  intros key random token network t tbl b a Hv Hc Hb Ha t0 t1 p0 p1.
  destruct (PriceFacts.beforePrices_lt _ _ _ _ _ Hb) as [_ Hlt].
  destruct (PriceFacts.afterPrices_gt _ _ _ _ _ Ha) as [_ Hgt].
  split; [subst t0 t1; lia|].
  rewrite (handler64_interpolated key random _ _ _ _ Hv b a Hc Hb Ha).
  reflexivity.
Qed.

Lemma resolve_interpolated_witness :
  80000 < 90000 < 100000 /\
  Price64.handler None Scenarios.third "0xAB" "ethereum" 90000 Scenarios.bracket_pair
  = (Json200 {| price := json_number (toFixed8
                  (add (of_number (Fin (Scenarios.q 1 1)))
                       (mul (sub (of_number (Fin (Scenarios.q 2 1)))
                                 (of_number (Fin (Scenarios.q 1 1))))
                            (div (sub (of_Z 90000) (of_Z 80000))
                                 (sub (of_Z 100000) (of_Z 80000))))));
                source := "interpolated" |}, Scenarios.bracket_pair).
Proof.
  refine (proj1 resolve_interpolated None Scenarios.third "0xAB" "ethereum" 90000
            Scenarios.bracket_pair
            (Scenarios.point 80000 (Scenarios.q 1 1))
            (Scenarios.point 100000 (Scenarios.q 2 1)) _ _ _ _).
  - unfold valid. repeat split; discriminate.
  - reflexivity.
  - reflexivity.
  - reflexivity.
Defined.

(** C1, as the specification states it, fails.  With points (86400, 1.0) and
    (200086400, 2.0) the answer at 90003 is not the formula's value rounded
    to 8 decimals: the quotient 3603 / 200000000 is rounded to a double
    below it, and the sum falls short of the tie.  And at the
    specification's own scenario the two points are within 3600 s of the
    query, so that the first of them answers. *)
Lemma interpolated_answer_is_not_the_rounded_formula :
  fst (Price64.handler None Scenarios.third "0xAB" "ethereum" 90003 Scenarios.tie_pair)
  <> Json200 {| price := parseFloat_toFixed8
                  (Fin (Scenarios.q 1 1 + (Scenarios.q 2 1 - Scenarios.q 1 1)
                        * zq (90003 - 86400) / zq (200086400 - 86400))%Qc);
                source := "interpolated" |} /\
  fst (Price64.handler None Scenarios.third "0xAB" "ethereum" 1500 Scenarios.scenario_A)
  <> Json200 {| price := Fin (Scenarios.q 3 2); source := "interpolated" |}.
Proof. split; vm_compute; intros H; discriminate H. Qed.

(** *** What is stored and what is returned *)

(** C10 (as amended).  On the external path the row handed to the table
    holds the fetched price as [JSON.stringify] prints it, and the answer
    holds the fetched price rounded to 8 decimals by [toFixed(8)].  The
    column keeps the written price rounded to 8 decimals, and a later call
    that hits this row in the cache answers the price the column kept.  For
    a draw of 1/3 the fetched price is 1.0333333333333334, and the first
    answer, the stored price and the answer of the cache hit are all
    1.03333333.  [toFixed] rounds the double and the column rounds its
    decimal text: for a fetched price that prints as 1.000018015 the first
    answer is 1.00001801, the stored price and the later answer are
    1.00001802. *)
Theorem stored_price_is_rounded :
  (forall (alchemyApiKey : option string) (random random' : double)
          (token network : string) (t day : Z) (tbl : table) (kept : CachedPrice),
      valid token network t ->
      key_configured alchemyApiKey ->
      exactMatch tbl token network t = None ->
      no_bracket tbl token network t ->
      isoDate t = Some day ->
      date_free tbl token network day ->
      let fetched := Price64.mockPrice random in
      stored {| token_address := toLowerCase token;
                TokenPrices.network := network;
                TokenPrices.timestamp := t;
                TokenPrices.price := json_number fetched;
                date := day |} = Some kept ->
      decimal_20_8 (json_number fetched) = Some (TokenPrices.price kept) /\
      Price64.handler alchemyApiKey random token network t tbl
      = (Json200 {| price := json_number (toFixed8 fetched); source := "alchemy" |},
         tbl ++ [kept]) /\
      Price64.handler alchemyApiKey random' token network t (tbl ++ [kept])
      = (Json200 {| price := json_number (of_number (TokenPrices.price kept));
                    source := "cache" |}, tbl ++ [kept])) /\
  (json_number (Price64.mockPrice Scenarios.third)
   = Fin (Scenarios.q 10333333333333334 10000000000000000) /\
   Price64.handler (Some "key") Scenarios.third "0xAB" "ethereum" 1500 []
   = (Json200 {| price := Fin (Scenarios.q 103333333 100000000);
                 source := "alchemy" |},
      [Scenarios.point 1500 (Scenarios.q 103333333 100000000)]) /\
   Price64.handler (Some "key") Scenarios.tie_draw "0xAB" "ethereum" 1500
     [Scenarios.point 1500 (Scenarios.q 103333333 100000000)]
   = (Json200 {| price := Fin (Scenarios.q 103333333 100000000);
                 source := "cache" |},
      [Scenarios.point 1500 (Scenarios.q 103333333 100000000)])) /\
  (json_number (Price64.mockPrice Scenarios.tie_draw)
   = Fin (Scenarios.q 1000018015 1000000000) /\
   Price64.handler (Some "key") Scenarios.tie_draw "0xAB" "ethereum" 1500 []
   = (Json200 {| price := Fin (Scenarios.q 100001801 100000000);
                 source := "alchemy" |},
      [Scenarios.point 1500 (Scenarios.q 100001802 100000000)]) /\
   Price64.handler (Some "key") Scenarios.third "0xAB" "ethereum" 1500
     [Scenarios.point 1500 (Scenarios.q 100001802 100000000)]
   = (Json200 {| price := Fin (Scenarios.q 100001802 100000000);
                 source := "cache" |},
      [Scenarios.point 1500 (Scenarios.q 100001802 100000000)])).
Proof.
  split; [|repeat split; vm_compute; number_eq].
  intros key random random' token network t day tbl kept
         Hv Hkey Hc Hnb Hd Hfree fetched Hk.
  destruct (PriceFacts.stored_key _ _ Hk) as (Ht & Hn & Hts & Hday & Hp & _).
  simpl in Ht, Hn, Hts, Hday, Hp.
  split; [exact Hp|]. split.
  - rewrite (handler64_external _ random _ _ _ _ Hv day Hc Hnb Hkey Hd).
    fold fetched.
    rewrite (PriceFacts.insert_one_free tbl token network _ kept Hk); auto.
  - apply handler64_cache; [exact Hv|].
    apply PriceFacts.exactMatch_after_insert; [exact Hc|].
    unfold in_window, tolerance. rewrite Ht, Hn, Hts. repeat split; lia.
Qed.

Lemma stored_price_is_rounded_witness :
  decimal_20_8 (json_number (Price64.mockPrice Scenarios.third))
  = Some (Fin (Scenarios.q 103333333 100000000)) /\
  Price64.handler (Some "key") Scenarios.third "0xAB" "ethereum" 1500 []
  = (Json200 {| price := json_number (toFixed8 (Price64.mockPrice Scenarios.third));
                source := "alchemy" |},
     [] ++ [Scenarios.point 1500 (Scenarios.q 103333333 100000000)]) /\
  Price64.handler (Some "key") Scenarios.tie_draw "0xAB" "ethereum" 1500
    ([] ++ [Scenarios.point 1500 (Scenarios.q 103333333 100000000)])
  = (Json200 {| price := json_number (of_number (Fin (Scenarios.q 103333333 100000000)));
                source := "cache" |},
     [] ++ [Scenarios.point 1500 (Scenarios.q 103333333 100000000)]).
Proof.
  refine (proj1 stored_price_is_rounded (Some "key") Scenarios.third
            Scenarios.tie_draw "0xAB" "ethereum" 1500 0 []
            (Scenarios.point 1500 (Scenarios.q 103333333 100000000))
            _ _ _ _ _ _ _).
  - unfold valid. repeat split; discriminate.
  - exists "key". split; [reflexivity|discriminate].
  - reflexivity.
  - left. reflexivity.
  - reflexivity.
  - intros r [].
  - vm_compute. number_eq.
Defined.

(** C10, as the specification states it, fails: for a draw of 1/3 the
    rounding changes the fetched price, and yet the table holds the rounded
    price, the one the first call returned, and the later cache hit returns
    this same price. *)
Lemma cache_hit_repeats_the_rounded_price :
  json_number (toFixed8 (Price64.mockPrice Scenarios.third))
  <> json_number (Price64.mockPrice Scenarios.third) /\
  map TokenPrices.price
      (snd (Price64.handler (Some "key") Scenarios.third "0xAB" "ethereum" 1500 []))
  <> [json_number (Price64.mockPrice Scenarios.third)] /\
  fst (Price64.handler (Some "key") Scenarios.tie_draw "0xAB" "ethereum" 1500
         (snd (Price64.handler (Some "key") Scenarios.third "0xAB" "ethereum" 1500 [])))
  = Json200 {| price := json_number (toFixed8 (Price64.mockPrice Scenarios.third));
               source := "cache" |}.
Proof.
  split; [|split].
  - vm_compute. intros H. discriminate H.
  - vm_compute. intros H. discriminate H.
  - vm_compute. number_eq.
Qed.

End Price64Facts.

(** ** The backfill scheduler *)

Module ScheduleFacts.

Import TokenPrices FetchJobs Schedule.

(** *** The enumeration of days *)

Lemma daily_loop_closed (fuel : nat) (ts now : Z) :
  ts <= now ->
  Z.of_nat fuel = (now - ts) / oneDaySeconds + 1 ->
  daily_loop fuel ts now
  = map (fun i => ts + oneDaySeconds * Z.of_nat i) (seq 0 fuel).
Proof.
  unfold oneDaySeconds. change (24 * 60 * 60) with 86400.
  revert ts. induction fuel as [|fuel IH]; intros ts Hle Hfuel.
  - reflexivity.
  - cbn [daily_loop seq map]. unfold oneDaySeconds. change (24 * 60 * 60) with 86400.
    destruct (Z.leb_spec ts now) as [_|]; [|lia].
    f_equal; [lia|].
    destruct fuel as [|fuel'].
    + reflexivity.
    + assert (Hq : (now - ts) / 86400 = Z.of_nat (S fuel')) by lia.
      assert (Hdiv : (now - (ts + 86400)) / 86400 = (now - ts) / 86400 - 1).
      { replace (now - (ts + 86400)) with (now - ts + (-1) * 86400) by lia.
        rewrite Z.div_add by lia. lia. }
      assert (Hge : 86400 <= now - ts).
      { pose proof (Z.mul_div_le (now - ts) 86400 ltac:(lia)). lia. }
      rewrite IH by lia.
      rewrite <- seq_shift, map_map. apply map_ext. intros i. lia.
Qed.

Lemma generateDailyTimestamps_closed (start dateNow : Z) :
  start <= dateNow / 1000 ->
  generateDailyTimestamps start dateNow
  = map (fun i => start + 86400 * Z.of_nat i)
        (seq 0 (Z.to_nat ((dateNow / 1000 - start) / 86400 + 1))).
Proof.
  intros Hle. unfold generateDailyTimestamps.
  rewrite daily_loop_closed; [reflexivity|exact Hle|].
  unfold oneDaySeconds. change (24 * 60 * 60) with 86400.
  pose proof (Z.div_pos (dateNow / 1000 - start) 86400 ltac:(lia) ltac:(lia)).
  lia.
Qed.

Lemma generateDailyTimestamps_late (start dateNow : Z) :
  dateNow / 1000 < start -> generateDailyTimestamps start dateNow = [].
Proof.
  intros Hlt. unfold generateDailyTimestamps, oneDaySeconds.
  change (24 * 60 * 60) with 86400.
  assert (Hneg : (dateNow / 1000 - start) / 86400 < 0).
  { apply Z.div_lt_upper_bound; lia. }
  replace (Z.to_nat ((dateNow / 1000 - start) / 86400 + 1)) with 0%nat by lia.
  reflexivity.
Qed.

(** The definition is the loop: it pushes [start] and goes on from the next
    day as long as [start <= now]. *)
Lemma generateDailyTimestamps_unfold (start dateNow : Z) :
  generateDailyTimestamps start dateNow
  = if start <=? dateNow / 1000
    then start :: generateDailyTimestamps (start + 86400) dateNow
    else [].
Proof.
  destruct (Z.leb_spec start (dateNow / 1000)) as [Hle|Hlt].
  - destruct (Z_le_gt_dec (start + 86400) (dateNow / 1000)) as [Hle'|Hgt].
    + rewrite !generateDailyTimestamps_closed by lia.
      assert (Hdiv : (dateNow / 1000 - (start + 86400)) / 86400
                     = (dateNow / 1000 - start) / 86400 - 1).
      { replace (dateNow / 1000 - (start + 86400))
          with (dateNow / 1000 - start + (-1) * 86400) by lia.
        rewrite Z.div_add by lia. lia. }
      pose proof (Z.div_pos (dateNow / 1000 - (start + 86400)) 86400
                    ltac:(lia) ltac:(lia)).
      rewrite Hdiv in *.
      replace (Z.to_nat ((dateNow / 1000 - start) / 86400 + 1))
        with (S (Z.to_nat ((dateNow / 1000 - start) / 86400 - 1 + 1))) by lia.
      cbn [seq map]. f_equal; [lia|].
      rewrite <- seq_shift, map_map. apply map_ext. intros i. lia.
    + rewrite generateDailyTimestamps_closed by lia.
      rewrite generateDailyTimestamps_late by lia.
      rewrite Z.div_small by lia. change (Z.to_nat (0 + 1)) with 1%nat.
      cbn [seq map]. f_equal. lia.
  - apply generateDailyTimestamps_late. exact Hlt.
Qed.

Lemma nth_error_days (start : Z) (n i : nat) (a : Z) :
  nth_error (map (fun i => start + 86400 * Z.of_nat i) (seq 0 n)) i = Some a ->
  (i < n)%nat /\ a = start + 86400 * Z.of_nat i.
Proof.
  intros H.
  assert (Hlt : (i < n)%nat).
  { assert (Hs : nth_error (map (fun i => start + 86400 * Z.of_nat i) (seq 0 n)) i
                 <> None) by congruence.
    apply nth_error_Some in Hs. rewrite length_map, length_seq in Hs. exact Hs. }
  split; [exact Hlt|].
  rewrite nth_error_map, nth_error_seq in H.
  apply Nat.ltb_lt in Hlt. rewrite Hlt in H. simpl in H. inversion H. reflexivity.
Qed.

Lemma days_sorted (start : Z) (n k : nat) :
  StronglySorted Z.lt (map (fun i => start + 86400 * Z.of_nat i) (seq k n)).
Proof.
  revert k. induction n as [|n IH]; intros k; cbn [seq map].
  - constructor.
  - constructor; [apply IH|].
    apply Forall_forall. intros x Hx. apply in_map_iff in Hx.
    destruct Hx as (i & <- & Hi). apply in_seq in Hi. cbv beta. lia.
Qed.

(** C9.  For a start not after the current time, the enumeration begins at
    the start, advances by 86400 s from each element to the next, is
    strictly increasing and ends at or before the current time; it misses no
    day up to the current time. *)
Theorem generateDailyTimestamps_enumerates (start dateNow : Z) :
  let now := dateNow / 1000 in
  start <= now ->
  let days := generateDailyTimestamps start dateNow in
  hd_error days = Some start /\
  StronglySorted Z.lt days /\
  (forall i a b,
     nth_error days i = Some a -> nth_error days (S i) = Some b ->
     b = a + 86400) /\
  last days start <= now /\
  (forall k, 0 <= k -> start + 86400 * k <= now -> In (start + 86400 * k) days).
Proof.
  intros now Hle days. subst days.
  rewrite generateDailyTimestamps_closed by exact Hle. fold now.
  pose proof (Z.div_pos (now - start) 86400 ltac:(lia) ltac:(lia)) as Hq.
  pose proof (Z.mul_div_le (now - start) 86400 ltac:(lia)) as Hfloor.
  remember (Z.to_nat ((now - start) / 86400)) as m eqn:Hm.
  replace (Z.to_nat ((now - start) / 86400 + 1)) with (S m) by lia.
  split; [|split; [|split; [|split]]].
  - cbn [seq map hd_error]. f_equal. lia.
  - apply days_sorted.
  - intros i a b Ha Hb.
    apply nth_error_days in Ha. apply nth_error_days in Hb. lia.
  - rewrite seq_S, map_app. cbn [map]. rewrite last_last. lia.
  - intros k Hk Hkn.
    assert (Hkq : k <= (now - start) / 86400).
    { apply Z.div_le_lower_bound; lia. }
    apply in_map_iff. exists (Z.to_nat k). split; [lia|].
    apply in_seq. lia.
Qed.

Lemma generateDailyTimestamps_enumerates_witness :
  hd_error (generateDailyTimestamps 10 259210000) = Some 10 /\
  StronglySorted Z.lt (generateDailyTimestamps 10 259210000) /\
  (forall i a b,
     nth_error (generateDailyTimestamps 10 259210000) i = Some a ->
     nth_error (generateDailyTimestamps 10 259210000) (S i) = Some b ->
     b = a + 86400) /\
  last (generateDailyTimestamps 10 259210000) 10 <= 259210000 / 1000 /\
  (forall k, 0 <= k -> 10 + 86400 * k <= 259210000 / 1000 ->
     In (10 + 86400 * k) (generateDailyTimestamps 10 259210000)).
Proof.
  apply (generateDailyTimestamps_enumerates 10 259210000).
  vm_compute. discriminate.
Defined.

(** *** Chunks *)

Example make_chunks_of_25 :
  map (@List.length Z) (make_chunks (generateDailyTimestamps 0 2073600000))
  = [10; 10; 5]%nat.
Proof. reflexivity. Qed.

Lemma chunk_loop_concat (fuel : nat) (l : list Z) :
  (List.length l <= fuel)%nat -> List.concat (chunk_loop fuel l) = l.
Proof.
  revert l. induction fuel as [|fuel IH]; intros l Hlen.
  - destruct l; [reflexivity|simpl in Hlen; lia].
  - destruct l as [|x l']; [reflexivity|].
    cbn [chunk_loop List.concat]. rewrite IH.
    + apply firstn_skipn.
    + rewrite length_skipn. unfold chunkSize. simpl List.length in *. lia.
Qed.

Lemma make_chunks_concat (l : list Z) : List.concat (make_chunks l) = l.
Proof. apply chunk_loop_concat. lia. Qed.

(** *** The job record *)

Lemma get_update (fields : Job -> Job) (jobId : string) (tbl : FetchJobs.table) :
  (forall j, job_id (fields j) = job_id j) ->
  get jobId (update fields jobId tbl) = option_map fields (get jobId tbl).
Proof.
  intros Hid. unfold get, update.
  induction tbl as [|j rest IH]; [reflexivity|].
  cbn [map find]. destruct (has_id jobId j) eqn:Hj.
  - unfold has_id in *. rewrite Hid, Hj. reflexivity.
  - rewrite Hj. exact IH.
Qed.

Lemma get_insert_fresh (j : Job) (tbl : FetchJobs.table) :
  get (job_id j) tbl = None ->
  get (job_id j) (FetchJobs.insert j tbl) = Some j.
Proof.
  unfold get, FetchJobs.insert. intros Hnone.
  assert (Hex : existsb (has_id (job_id j)) tbl = false).
  { apply not_true_is_false. intros Hex. apply existsb_exists in Hex.
    destruct Hex as (x & Hin & Hx).
    pose proof (find_none _ _ Hnone x Hin) as Hf. congruence. }
  rewrite Hex. clear Hex.
  induction tbl as [|x rest IH]; cbn [app find].
  - unfold has_id. rewrite String.eqb_refl. reflexivity.
  - cbn [find] in Hnone. destruct (has_id (job_id j) x); [discriminate|].
    apply IH. exact Hnone.
Qed.

Lemma promiseAll_fails {A : Type} (promises : list (string + A)) (m : string) :
  In (inl m) promises -> exists msg, promiseAll promises = inl msg.
Proof.
  induction promises as [|[m'|v] rest IH]; cbn [promiseAll]; intros Hin.
  - contradiction.
  - eauto.
  - destruct Hin as [Heq|Hin]; [discriminate|].
    destruct (IH Hin) as (msg & ->). eauto.
Qed.

(** *** Scheduling *)

Lemma handler_scheduled_inv (clock : Clock) (token network : string)
    (db db' : Database) (resp : Response) (bg : Background) :
  handler clock token network db = (resp, db', Some bg) ->
  let days := generateDailyTimestamps (startTimestamp clock token network db)
                                      (now_generate clock) in
  days <> [] /\
  bg = {| bg_jobId := job_identifier clock token;
          bg_dailyTimestamps := days;
          bg_chunks := make_chunks days |} /\
  db' = {| prices := prices db;
           jobs := FetchJobs.insert
                     (job_record (job_identifier clock token) token network days)
                     (jobs db) |}.
Proof.
  intros H days. unfold handler in H. fold days in H.
  destruct (falsy token || falsy network)%bool; [discriminate|].
  destruct days as [|d rest]; [discriminate|].
  inversion H; subst. split; [discriminate|]. split; reflexivity.
Qed.

(** C8 (as amended).  When the enumeration of days is not empty and the
    identifier the handler forms is not yet in the table of jobs, the
    handler inserts a job record whose [total_days] is the length of the
    enumeration, whose [completed_days] is 0 and whose status is "running",
    before it hands the work to the timer.  When the identifier is in the
    table already, the handler creates no record and changes none, and hands
    the work to the timer all the same. *)
Theorem scheduled_job_record (clock : Clock) (token network : string) (db : Database) :
  token <> "" -> network <> "" ->
  let days := generateDailyTimestamps (startTimestamp clock token network db)
                                      (now_generate clock) in
  days <> [] ->
  (get (job_identifier clock token) (jobs db) = None ->
   exists resp db' bg j,
     handler clock token network db = (resp, db', Some bg) /\
     bg_dailyTimestamps bg = days /\
     prices db' = prices db /\
     get (bg_jobId bg) (jobs db') = Some j /\
     total_days j = Z.of_nat (List.length days) /\
     completed_days j = 0 /\
     status j = "running") /\
  (forall j0, get (job_identifier clock token) (jobs db) = Some j0 ->
   exists resp bg,
     handler clock token network db = (resp, db, Some bg) /\
     bg_dailyTimestamps bg = days /\
     bg_jobId bg = job_identifier clock token /\
     get (bg_jobId bg) (jobs db) = Some j0).
Proof.
  intros Ht Hn days Hdays. unfold handler. fold days.
  apply String.eqb_neq in Ht, Hn. unfold falsy. rewrite Ht, Hn. cbn [orb].
  destruct days as [|d rest] eqn:Hd; [contradiction|]. split.
  - intros Hfresh. do 3 eexists.
    exists (job_record (job_identifier clock token) token network (d :: rest)).
    split; [reflexivity|]. cbn [bg_dailyTimestamps bg_jobId prices jobs].
    split; [reflexivity|]. split; [reflexivity|].
    split; [|split; [|split]]; try reflexivity.
    apply (get_insert_fresh
             (job_record (job_identifier clock token) token network (d :: rest))).
    exact Hfresh.
  - intros j0 Htaken.
    assert (Hex : existsb (has_id (job_identifier clock token)) (jobs db) = true).
    { unfold get in Htaken. apply find_some in Htaken. apply existsb_exists.
      exists j0. exact Htaken. }
    unfold FetchJobs.insert. cbn [job_id job_record]. rewrite Hex.
    do 2 eexists. split; [destruct db; reflexivity|].
    cbn [bg_dailyTimestamps bg_jobId]. repeat split. exact Htaken.
Qed.

Lemma scheduled_job_record_witness :
  (exists resp db' bg j,
     handler Scenarios.two_days "0xABCDEF1234" "ethereum" Scenarios.empty
     = (resp, db', Some bg) /\
     bg_dailyTimestamps bg = [0; 86400] /\
     prices db' = [] /\
     get (bg_jobId bg) (jobs db') = Some j /\
     total_days j = 2 /\
     completed_days j = 0 /\
     status j = "running") /\
  (exists resp bg,
     handler Scenarios.two_days "0xABCDEF1234" "polygon"
       (snd (fst Scenarios.ethereum_call))
     = (resp, snd (fst Scenarios.ethereum_call), Some bg) /\
     bg_dailyTimestamps bg = [86400] /\
     bg_jobId bg = "job-0xABCDEF-86405001" /\
     get (bg_jobId bg) (jobs (snd (fst Scenarios.ethereum_call)))
     = Some (job_record "job-0xABCDEF-86405001" "0xABCDEF1234" "ethereum"
               [0; 86400])).
Proof.
  split.
  - apply (scheduled_job_record Scenarios.two_days "0xABCDEF1234" "ethereum"
             Scenarios.empty).
    + discriminate.
    + discriminate.
    + vm_compute. discriminate.
    + reflexivity.
  - apply (scheduled_job_record Scenarios.two_days "0xABCDEF1234" "polygon"
             (snd (fst Scenarios.ethereum_call))).
    + discriminate.
    + discriminate.
    + vm_compute. discriminate.
    + reflexivity.
Defined.

(** C8, as the specification states it, fails: the record is created with
    status "running", never "pending". *)
Lemma scheduled_job_is_not_pending :
  let '(_, db', _) :=
    handler Scenarios.two_days "0xABCDEF1234" "ethereum" Scenarios.empty in
  option_map status (get "job-0xABCDEF-86405001" (jobs db')) = Some "running" /\
  option_map status (get "job-0xABCDEF-86405001" (jobs db')) <> Some "pending".
Proof. vm_compute. split; [reflexivity|discriminate]. Qed.

(** *** The runner *)

Section RunnerFacts.

Variable fetchPriceFromAlchemy : string -> string -> Z -> string + number.
Variables (token network : string).

Local Abbreviation states := (chunk_states fetchPriceFromAlchemy token network).
Local Abbreviation promise := (pricePromise fetchPriceFromAlchemy token network).

Lemma last_cons {A : Type} (l : list A) (a d : A) : last (a :: l) d = last l a.
Proof.
  revert a d. induction l as [|x l IH]; intros a d; [reflexivity|].
  change (last (a :: x :: l) d) with (last (x :: l) d).
  rewrite (IH x d), (IH x a). reflexivity.
Qed.




(** Chunks that succeed are gone through one after the other. *)
Lemma chunk_states_app (bg : Background) (pre rest : list (list Z)) :
  forall (c : Z) (db : Database),
    (forall chunk, In chunk pre ->
       exists rows, promiseAll (map promise chunk) = inr rows) ->
    states bg (pre ++ rest) c db
    = states bg pre c db
      ++ states bg rest (c + Z.of_nat (List.length (List.concat pre)))
                (last (states bg pre c db) db).
Proof.
  induction pre as [|chunk pre IH]; intros c db Hok.
  - cbn. rewrite Z.add_0_r. reflexivity.
  - destruct (Hok chunk (or_introl eq_refl)) as (rows & Hrows).
    cbn [app chunk_states]. rewrite Hrows. cbn [prices jobs].
    rewrite IH by (intros ch Hch; apply Hok; right; exact Hch).
    rewrite last_cons. cbn [List.concat]. rewrite length_app, Nat2Z.inj_add.
    rewrite Z.add_assoc. reflexivity.
Qed.

End RunnerFacts.





Lemma promiseAll_first_rejection {A : Type}
    (promises : list (string + A)) (msg : string) :
  promiseAll promises = inl msg ->
  exists (values : list A) (rest : list (string + A)),
    promises = map inr values ++ inl msg :: rest.
Proof.
  induction promises as [|[m|v] rest IH]; cbn [promiseAll]; intros H.
  - discriminate.
  - inversion H; subst. exists [], rest. reflexivity.
  - destruct (promiseAll rest) as [m|vs]; [|discriminate].
    inversion H; subst. destruct (IH eq_refl) as (values & rest' & ->).
    exists (v :: values), rest'. reflexivity.
Qed.

(** C7 (as amended).  When a fetch of a chunk fails, the chunk splits into
    the timestamps before the first failure, all fetched, the first failing
    timestamp, and the others; the runner writes no price of that chunk,
    sets the status of the job to "error" with the message of that first
    failure, and goes through no further chunk; the chunks before it have
    been written and counted. *)
Theorem failed_chunk_aborts
    (fetchPriceFromAlchemy : string -> string -> Z -> string + number)
    (token network : string) (bg : Background)
    (pre post : list (list Z)) (chunk : list Z) (c : Z) (db : Database)
    (ts : Z) (err : string) :
  (forall ch, In ch pre ->
     exists rows,
       promiseAll (map (pricePromise fetchPriceFromAlchemy token network) ch)
       = inr rows) ->
  In ts chunk ->
  fetchPriceFromAlchemy token network ts = inl err ->
  exists (fetched : list Z) (ts' : Z) (others : list Z) (msg : string),
    chunk = fetched ++ ts' :: others /\
    (forall x, In x fetched ->
       exists row, pricePromise fetchPriceFromAlchemy token network x = inr row) /\
    pricePromise fetchPriceFromAlchemy token network ts' = inl msg /\
    let before :=
      last (chunk_states fetchPriceFromAlchemy token network bg pre c db) db in
    let final :=
      {| prices := prices before;
         jobs := update (failure msg) (bg_jobId bg) (jobs before) |} in
    chunk_states fetchPriceFromAlchemy token network bg (pre ++ chunk :: post) c db
    = chunk_states fetchPriceFromAlchemy token network bg pre c db ++ [final] /\
    (forall j, get (bg_jobId bg) (jobs before) = Some j ->
       exists j', get (bg_jobId bg) (jobs final) = Some j' /\
                  status j' = "error" /\ error_message j' = Some msg /\
                  completed_days j' = completed_days j).
Proof.
  intros Hpre Hts Herr.
  assert (Hrej : In (inl err)
                   (map (pricePromise fetchPriceFromAlchemy token network) chunk)).
  { apply in_map_iff. exists ts. split; [|exact Hts].
    unfold pricePromise. rewrite Herr. reflexivity. }
  destruct (promiseAll_fails _ _ Hrej) as (msg & Hall).
  destruct (promiseAll_first_rejection _ _ Hall) as (values & rest & Hsplit).
  apply map_eq_app in Hsplit. destruct Hsplit as (fetched & tail & -> & Hf & Ht).
  apply map_eq_cons in Ht. destruct Ht as (ts' & others & -> & Hp & _).
  exists fetched, ts', others, msg. split; [reflexivity|]. split; [|split; [exact Hp|]].
  - intros x Hx.
    assert (Hin : In (pricePromise fetchPriceFromAlchemy token network x)
                     (map inr values)).
    { rewrite <- Hf. apply in_map. exact Hx. }
    apply in_map_iff in Hin. destruct Hin as (row & Hrow & _). eauto.
  - intros before final. split.
    + rewrite chunk_states_app by exact Hpre.
      cbn [chunk_states]. rewrite Hall. reflexivity.
    + intros j Hj. exists (failure msg j). subst final. cbn [jobs].
      rewrite get_update, Hj by reflexivity. repeat split; reflexivity.
Qed.

Lemma failed_chunk_aborts_witness :
  exists (fetched : list Z) (ts' : Z) (others : list Z) (msg : string),
    Scenarios.month_second = fetched ++ ts' :: others /\
    (forall x, In x fetched ->
       exists row, pricePromise Scenarios.flaky "0xABCDEF1234" "ethereum" x = inr row) /\
    pricePromise Scenarios.flaky "0xABCDEF1234" "ethereum" ts' = inl msg /\
    let before :=
      last (chunk_states Scenarios.flaky "0xABCDEF1234" "ethereum" Scenarios.month_bg
              [Scenarios.month_first] 0 Scenarios.month_db) Scenarios.month_db in
    let final :=
      {| prices := prices before;
         jobs := update (failure msg) (bg_jobId Scenarios.month_bg) (jobs before) |} in
    chunk_states Scenarios.flaky "0xABCDEF1234" "ethereum" Scenarios.month_bg
      ([Scenarios.month_first] ++ Scenarios.month_second :: [Scenarios.month_third])
      0 Scenarios.month_db
    = chunk_states Scenarios.flaky "0xABCDEF1234" "ethereum" Scenarios.month_bg
        [Scenarios.month_first] 0 Scenarios.month_db ++ [final] /\
    (forall j, get (bg_jobId Scenarios.month_bg) (jobs before) = Some j ->
       exists j', get (bg_jobId Scenarios.month_bg) (jobs final) = Some j' /\
                  status j' = "error" /\ error_message j' = Some msg /\
                  completed_days j' = completed_days j).
Proof.
  apply (failed_chunk_aborts Scenarios.flaky "0xABCDEF1234" "ethereum"
           Scenarios.month_bg [Scenarios.month_first] [Scenarios.month_third]
           Scenarios.month_second 0 Scenarios.month_db
           (14 * 86400) "rate limited").
  - intros ch [<-|[]]. eexists. vm_compute. reflexivity.
  - vm_compute. tauto.
  - reflexivity.
Defined.

(** The run of 25 days with a source that fails for the days 12 and 14: the
    handler plans three chunks; the first is written and counted, the second
    stops the run with the message of day 12, the third is never fetched. *)
Example month_run_stops_at_day_12 :
  snd (Schedule.handler Scenarios.month "0xABCDEF1234" "ethereum" Scenarios.empty)
  = Some Scenarios.month_bg /\
  let run := background_states Scenarios.flaky "0xABCDEF1234" "ethereum"
               Scenarios.month_bg Scenarios.month_db in
  let final := background Scenarios.flaky "0xABCDEF1234" "ethereum"
                 Scenarios.month_bg Scenarios.month_db in
  List.length run = 2%nat /\
  map TokenPrices.timestamp (prices final) = Scenarios.month_first /\
  get "job-0xABCDEF-2073605001" (jobs final)
  = Some {| job_id := "job-0xABCDEF-2073605001";
            FetchJobs.token_address := "0xabcdef1234";
            FetchJobs.network := "ethereum";
            total_days := 25;
            completed_days := 10;
            status := "error";
            error_message := Some "timeout" |}.
Proof. vm_compute. repeat split. Qed.

(** C7, as the specification states it, fails in its last part: the price of
    the first day was fetched, the fetch of the second day failed, and the
    table of prices is left without the first day. *)
Lemma sibling_prices_not_written :
  Scenarios.scheduled
  = (fst (fst Scenarios.scheduled), Scenarios.scheduled_db,
     Some Scenarios.scheduled_bg) /\
  (exists row,
     pricePromise Scenarios.first_day_only "0xABCDEF1234" "ethereum" 0 = inr row) /\
  pricePromise Scenarios.first_day_only "0xABCDEF1234" "ethereum" 86400
  = inl "rate limited" /\
  prices (background Scenarios.first_day_only "0xABCDEF1234" "ethereum"
            Scenarios.scheduled_bg Scenarios.scheduled_db) = [] /\
  option_map status
    (get "job-0xABCDEF-86405001"
       (jobs (background Scenarios.first_day_only "0xABCDEF1234" "ethereum"
                Scenarios.scheduled_bg Scenarios.scheduled_db)))
  = Some "error".
Proof.
  split; [reflexivity|]. split; [eexists; reflexivity|].
  split; [reflexivity|]. split; reflexivity.
Qed.

End ScheduleFacts.

(** ** The price resolver: errors, writes and lookups *)

Module PriceMore.

Import TokenPrices Price JsNumberFacts TokenPricesFacts PriceFacts.

(** *** Validation and the errors of the fallback *)

Lemma passes_valid (token network : string) (timestamp : Z) :
  (falsy token || falsy network || (timestamp =? 0))%bool = false ->
  valid token network timestamp.
Proof.
  intros H. apply orb_false_iff in H. destruct H as [H Hz].
  apply orb_false_iff in H. destruct H as [Ht Hn].
  unfold falsy in *. apply String.eqb_neq in Ht, Hn. apply Z.eqb_neq in Hz.
  repeat split; assumption.
Qed.

Lemma key_configured_dec (alchemyApiKey : option string) :
  match alchemyApiKey with Some k => falsy k | None => true end = false
  <-> key_configured alchemyApiKey.
Proof.
  unfold key_configured, falsy. destruct alchemyApiKey as [k|].
  - rewrite String.eqb_neq. split.
    + intros Hk. exists k. auto.
    + intros (k' & Heq & Hk). inversion Heq. subst. exact Hk.
  - split; [discriminate|]. intros (k & Heq & _). discriminate.
Qed.

Lemma bracket_or_not (tbl : table) (token network : string) (t : Z) :
  (exists b a, beforePrices tbl token network t = Some b /\
               afterPrices tbl token network t = Some a)
  \/ no_bracket tbl token network t.
Proof.
  unfold no_bracket.
  destruct (beforePrices tbl token network t) as [b|];
    destruct (afterPrices tbl token network t) as [a|]; eauto.
Qed.

(** The six ways through the handler. *)
Lemma handler_cases
    (alchemyApiKey : option string) (random : Qc)
    (token network : string) (t : Z) (tbl : table) :
  let result := handler alchemyApiKey random token network t tbl in
  (~ valid token network t /\
   result = (JsonError 400 "Missing required fields: token, network, timestamp", tbl))
  \/
  (valid token network t /\
   exists c, exactMatch tbl token network t = Some c /\
     result = (Json200 {| price := TokenPrices.price c; source := "cache" |}, tbl))
  \/
  (valid token network t /\ exactMatch tbl token network t = None /\
   exists b a,
     beforePrices tbl token network t = Some b /\
     afterPrices tbl token network t = Some a /\
     result
     = (Json200 {| price := parseFloat_toFixed8
                     (interpolatePrice t
                        (TokenPrices.timestamp b) (TokenPrices.price b)
                        (TokenPrices.timestamp a) (TokenPrices.price a));
                   source := "interpolated" |}, tbl))
  \/
  (valid token network t /\ exactMatch tbl token network t = None /\
   no_bracket tbl token network t /\ ~ key_configured alchemyApiKey /\
   result = (JsonError 500 "Alchemy API key not configured", tbl))
  \/
  (valid token network t /\ exactMatch tbl token network t = None /\
   no_bracket tbl token network t /\ key_configured alchemyApiKey /\
   isoDate t = None /\
   result = (JsonError 500 "Internal server error", tbl))
  \/
  (valid token network t /\ exactMatch tbl token network t = None /\
   no_bracket tbl token network t /\ key_configured alchemyApiKey /\
   exists day,
     isoDate t = Some day /\
     result
     = (Json200 {| price := parseFloat_toFixed8 (mockPrice random);
                   source := "alchemy" |},
        insert [ {| token_address := toLowerCase token;
                    TokenPrices.network := network;
                    TokenPrices.timestamp := t;
                    TokenPrices.price := mockPrice random;
                    date := day |} ] tbl)).
Proof.
  intros result.
  destruct (falsy token || falsy network || (t =? 0))%bool eqn:Hf.
  - left. split.
    + intros Hv. rewrite (valid_passes _ _ _ Hv) in Hf. discriminate.
    + subst result. unfold handler. rewrite Hf. reflexivity.
  - right. apply passes_valid in Hf.
    destruct (exactMatch tbl token network t) as [c|] eqn:Hc.
    + left. split; [exact Hf|]. exists c. split; [reflexivity|].
      apply handler_cache; assumption.
    + right. destruct (bracket_or_not tbl token network t) as [(b & a & Hb & Ha)|Hnb].
      * left. split; [exact Hf|]. split; [reflexivity|]. exists b, a.
        split; [exact Hb|]. split; [exact Ha|].
        apply handler_interpolated; assumption.
      * right.
        destruct (match alchemyApiKey with Some k => falsy k | None => true end)
          eqn:Hk.
        -- left. split; [exact Hf|]. split; [reflexivity|]. split; [exact Hnb|].
           split.
           ++ intros Hkey. apply key_configured_dec in Hkey. congruence.
           ++ subst result. unfold handler.
              rewrite (valid_passes _ _ _ Hf), Hc, Hk.
              destruct Hnb as [-> | Hn]; [reflexivity|]. rewrite Hn.
              destruct (beforePrices tbl token network t); reflexivity.
        -- right. apply key_configured_dec in Hk.
           destruct (isoDate t) as [day|] eqn:Hd.
           ++ right. split; [exact Hf|]. split; [reflexivity|].
              split; [exact Hnb|]. split; [exact Hk|]. exists day.
              split; [reflexivity|]. apply handler_external; assumption.
           ++ left. split; [exact Hf|]. split; [reflexivity|].
              split; [exact Hnb|]. split; [exact Hk|]. split; [reflexivity|].
              subst result. unfold handler.
              apply key_configured_dec in Hk.
              rewrite (valid_passes _ _ _ Hf), Hc, Hk, Hd.
              destruct Hnb as [-> | Hn]; [reflexivity|]. rewrite Hn.
              destruct (beforePrices tbl token network t); reflexivity.
Qed.

(** Uniform handling of [handler_cases] in the proofs below. *)
Ltac by_path key random token network t tbl :=
  let P := fresh "P" in
  pose proof (handler_cases key random token network t tbl) as P;
  cbv zeta in P;
  destruct P as [(Hnv & Hres)
               | [(Hv & c & Hc & Hres)
               | [(Hv & Hc & b & a & Hb & Ha & Hres)
               | [(Hv & Hc & Hnb & Hnk & Hres)
               | [(Hv & Hc & Hnb & Hk & Hd & Hres)
               | (Hv & Hc & Hnb & Hk & day & Hd & Hres)]]]]].

Lemma not_valid (token network : string) (t : Z) :
  ~ valid token network t <-> token = "" \/ network = "" \/ t = 0.
Proof.
  unfold valid. split.
  - intros Hnv.
    destruct (string_dec token "") as [|Ht]; [auto|].
    destruct (string_dec network "") as [|Hn]; [auto|].
    destruct (Z.eq_dec t 0) as [|Hz]; [auto|].
    exfalso. apply Hnv. auto.
  - intros [H|[H|H]] (Ht & Hn & Hz); contradiction.
Qed.

(** The handler answers 400 exactly when the token or the network is empty
    or the timestamp is 0, and then it leaves the table alone. *)
Theorem missing_field_iff_400
    (alchemyApiKey : option string) (random : Qc)
    (token network : string) (t : Z) (tbl : table) :
  (token = "" \/ network = "" \/ t = 0) <->
  handler alchemyApiKey random token network t tbl
  = (JsonError 400 "Missing required fields: token, network, timestamp", tbl).
Proof.
  rewrite <- not_valid.
  by_path alchemyApiKey random token network t tbl; rewrite Hres;
    (split; [intros Hx; try contradiction; try reflexivity
            | intros Hx; try discriminate Hx; try assumption]).
Qed.

(** The handler answers 500 "Alchemy API key not configured" exactly when a
    valid request finds no point within the tolerance, no point on one side
    at least, and no key; cache hits and interpolations never need the
    key. *)
Theorem missing_key_iff_500
    (alchemyApiKey : option string) (random : Qc)
    (token network : string) (t : Z) (tbl : table) :
  (valid token network t /\ exactMatch tbl token network t = None /\
   no_bracket tbl token network t /\ ~ key_configured alchemyApiKey) <->
  handler alchemyApiKey random token network t tbl
  = (JsonError 500 "Alchemy API key not configured", tbl).
Proof.
  by_path alchemyApiKey random token network t tbl; rewrite Hres;
    (split; [intros (Hv' & Hc' & Hnb' & Hnk') | intros Hx; try discriminate Hx]).
  - contradiction.
  - congruence.
  - destruct Hnb' as [Hn|Hn]; congruence.
  - reflexivity.
  - auto.
  - contradiction.
  - contradiction.
Qed.

(** The handler answers 500 "Internal server error" exactly when the
    external path is reached with a timestamp whose day [toISOString]
    cannot print, that is beyond 8.64e12 seconds either way. *)
Theorem unprintable_date_iff_500
    (alchemyApiKey : option string) (random : Qc)
    (token network : string) (t : Z) (tbl : table) :
  (valid token network t /\ exactMatch tbl token network t = None /\
   no_bracket tbl token network t /\ key_configured alchemyApiKey /\
   8640000000000 < Z.abs t) <->
  handler alchemyApiKey random token network t tbl
  = (JsonError 500 "Internal server error", tbl).
Proof.
  assert (Hiso : isoDate t = None <-> 8640000000000 < Z.abs t).
  { unfold isoDate, maxDateMs.
    destruct (Z.leb_spec (Z.abs (t * 1000)) 8640000000000000);
      split; try discriminate; try reflexivity; lia. }
  rewrite <- Hiso.
  by_path alchemyApiKey random token network t tbl; rewrite Hres;
    (split; [intros (Hv' & Hc' & Hnb' & Hk' & Hd') | intros Hx; try discriminate Hx]).
  - contradiction.
  - congruence.
  - destruct Hnb' as [Hn|Hn]; congruence.
  - contradiction.
  - reflexivity.
  - auto 6.
  - congruence.
Qed.

(** *** What a call writes *)

Lemma insert_one (r : CachedPrice) (tbl : table) :
  insert [r] tbl = tbl \/
  exists kept, stored r = Some kept /\ insert [r] tbl = tbl ++ [kept].
Proof.
  unfold insert. cbn [stored_all]. destruct (stored r) as [kept|]; [|left; reflexivity].
  destruct (pairwise_free [kept] && forallb _ [kept])%bool.
  - right. exists kept. split; reflexivity.
  - left. reflexivity.
Qed.

(** A call never removes or changes a stored row.  It adds at most one row,
    only when it answers from the external source and the day of the request
    is one the [DATE] column takes, and that row carries the lower-cased
    token, the network, the timestamp and the day of the request, and the
    fetched price as printed in the request and rounded to 8 decimals by
    the column. *)
Theorem handler_appends_at_most_one
    (alchemyApiKey : option string) (random : Double.double)
    (token network : string) (t : Z) (tbl : table) :
  snd (Price64.handler alchemyApiKey random token network t tbl) = tbl \/
  exists day p,
    isoDate t = Some day /\ minDay <= day <= maxDay /\
    decimal_20_8 (Double.json_number (Price64.mockPrice random)) = Some p /\
    source_of (fst (Price64.handler alchemyApiKey random token network t tbl))
    = Some "alchemy" /\
    snd (Price64.handler alchemyApiKey random token network t tbl)
    = tbl ++ [ {| token_address := toLowerCase token;
                  TokenPrices.network := network;
                  TokenPrices.timestamp := t;
                  TokenPrices.price := p;
                  date := day |} ].
Proof.
  unfold Price64.handler.
  destruct (falsy token || falsy network || (t =? 0))%bool; [left; reflexivity|].
  destruct (exactMatch tbl token network t); [left; reflexivity|].
  assert (Hext :
    (let '(resp, tbl') :=
       if match alchemyApiKey with Some k => falsy k | None => true end then
         (JsonError 500 "Alchemy API key not configured", tbl)
       else
         match isoDate t with
         | None => (JsonError 500 "Internal server error", tbl)
         | Some targetDate =>
             (Json200 {| price := Double.json_number
                                    (Double.toFixed8 (Price64.mockPrice random));
                         source := "alchemy" |},
              insert [ {| token_address := toLowerCase token;
                          TokenPrices.network := network;
                          TokenPrices.timestamp := t;
                          TokenPrices.price :=
                            Double.json_number (Price64.mockPrice random);
                          date := targetDate |} ] tbl)
         end in
     tbl' = tbl \/
     exists day p,
       isoDate t = Some day /\ minDay <= day <= maxDay /\
       decimal_20_8 (Double.json_number (Price64.mockPrice random)) = Some p /\
       source_of resp = Some "alchemy" /\
       tbl' = tbl ++ [ {| token_address := toLowerCase token;
                          TokenPrices.network := network;
                          TokenPrices.timestamp := t;
                          TokenPrices.price := p;
                          date := day |} ])).
  { destruct (match alchemyApiKey with Some k => falsy k | None => true end);
      [left; reflexivity|].
    destruct (isoDate t) as [day|]; [|left; reflexivity].
    match goal with |- context [insert [?r] tbl] =>
      destruct (insert_one r tbl) as [-> | (kept & Hk & ->)]; [left; reflexivity|];
      destruct (PriceFacts.stored_key _ _ Hk) as (Ht & Hn & Hts & Hday & Hp & Hrange)
    end.
    cbn [token_address TokenPrices.network TokenPrices.timestamp
         TokenPrices.price date] in *.
    right. exists day, (TokenPrices.price kept).
    repeat split; try assumption; try lia.
    destruct kept; cbn in *; subst; reflexivity. }
  destruct (beforePrices tbl token network t), (afterPrices tbl token network t);
    [left; reflexivity| | |];
    (destruct (if match alchemyApiKey with Some k => falsy k | None => true end
               then _ else _) as [resp tbl'] eqn:Hres in *; exact Hext).
Qed.

Lemma conflicts_sym (r r' : CachedPrice) : conflicts r r' = conflicts r' r.
Proof.
  unfold conflicts, same_key.
  rewrite (String.eqb_sym (token_address r')), (String.eqb_sym (network r')),
          (Z.eqb_sym (date r)).
  reflexivity.
Qed.

Lemma pairwise_free_app (l1 l2 : list CachedPrice) :
  pairwise_free l1 = true ->
  pairwise_free l2 = true ->
  forallb (fun r => negb (existsb (conflicts r) l1)) l2 = true ->
  pairwise_free (l1 ++ l2) = true.
Proof.
  intros H1 H2 Hx. induction l1 as [|x l1 IH]; [exact H2|].
  cbn [app pairwise_free] in *.
  apply andb_true_iff in H1. destruct H1 as [Hx1 H1].
  assert (Hsplit : forallb (fun r => negb (existsb (conflicts r) l1)) l2 = true
                   /\ existsb (conflicts x) l2 = false).
  { split.
    - apply forallb_forall. intros r Hr.
      pose proof (proj1 (forallb_forall _ _) Hx r Hr) as Hc.
      cbn [existsb] in Hc. apply negb_true_iff, orb_false_iff in Hc.
      apply negb_true_iff. tauto.
    - apply not_true_is_false. intros Hex. apply existsb_exists in Hex.
      destruct Hex as (r & Hr & Hc).
      pose proof (proj1 (forallb_forall _ _) Hx r Hr) as Hc'.
      cbn [existsb] in Hc'. apply negb_true_iff, orb_false_iff in Hc'.
      rewrite conflicts_sym in Hc. destruct Hc' as [Hc' _]. congruence. }
  destruct Hsplit as [Hrest Hxl2].
  rewrite existsb_app, Hxl2, orb_false_r, Hx1. cbn [andb]. apply IH; assumption.
Qed.

Lemma insert_keeps_unique (rows : list CachedPrice) (tbl : table) :
  pairwise_free tbl = true -> pairwise_free (insert rows tbl) = true.
Proof.
  intros Htbl. unfold insert.
  destruct (stored_all rows) as [kept|]; [|exact Htbl].
  destruct (pairwise_free kept
            && forallb (fun r => negb (existsb (conflicts r) tbl)) kept)%bool eqn:Hok;
    [|exact Htbl].
  apply andb_true_iff in Hok. destruct Hok as [Hrows Hx].
  apply pairwise_free_app; assumption.
Qed.

(** A table with at most one row per (token, network, day) is left so by
    every call, whatever the call answers. *)
Theorem handler_keeps_one_row_per_day
    (alchemyApiKey : option string) (random : Qc)
    (token network : string) (t : Z) (tbl : table) :
  pairwise_free tbl = true ->
  pairwise_free (snd (handler alchemyApiKey random token network t tbl)) = true.
Proof.
  intros Htbl.
  by_path alchemyApiKey random token network t tbl; rewrite Hres; cbn [snd];
    try exact Htbl.
  apply insert_keeps_unique. exact Htbl.
Qed.

Lemma handler_keeps_one_row_per_day_witness :
  pairwise_free
    (snd (handler (Some "key") 0%Qc "0xAB" "ethereum" 200000 Scenarios.same_day))
  = true.
Proof.
  apply (handler_keeps_one_row_per_day (Some "key") 0%Qc "0xAB" "ethereum"
           200000 Scenarios.same_day).
  reflexivity.
Defined.

(** When the day of the request already has a row for the token and the
    network, the external path still answers 200 with source "alchemy", but
    the write is rejected and nothing tells the caller: the table is the
    same after the call, so the same request goes to the external source
    again. *)
Theorem rejected_write_is_silent
    (alchemyApiKey : option string) (random : Qc)
    (token network : string) (t day : Z) (tbl : table) (r : CachedPrice) :
  valid token network t ->
  key_configured alchemyApiKey ->
  exactMatch tbl token network t = None ->
  no_bracket tbl token network t ->
  isoDate t = Some day ->
  In r tbl ->
  token_address r = toLowerCase token ->
  TokenPrices.network r = network ->
  date r = day ->
  handler alchemyApiKey random token network t tbl
  = (Json200 {| price := parseFloat_toFixed8 (mockPrice random);
                source := "alchemy" |}, tbl).
Proof.
  intros Hv Hk Hc Hnb Hd Hin Htok Hnet Hday.
  rewrite (handler_external _ random _ _ _ _ Hv day Hc Hnb Hk Hd).
  f_equal.
  match goal with |- insert [?w] tbl = tbl =>
    destruct (insert_one w tbl) as [H | (kept & Hst & H)]; [exact H|];
    destruct (PriceFacts.stored_key _ _ Hst) as (Ht & Hn & _ & Hd' & _)
  end.
  cbn [token_address TokenPrices.network date] in Ht, Hn, Hd'.
  exfalso. revert H. unfold insert. cbn [stored_all]. rewrite Hst.
  cbn [pairwise_free existsb forallb negb andb].
  assert (Hex : existsb (conflicts kept) tbl = true).
  { apply existsb_exists. exists r. split; [exact Hin|].
    unfold conflicts, same_key.
    rewrite Ht, Hn, Hd', Htok, Hnet, Hday, !String.eqb_refl, Z.eqb_refl.
    reflexivity. }
  rewrite Hex. cbn [negb andb]. intros H.
  apply (f_equal (@List.length CachedPrice)) in H.
  rewrite length_app in H. cbn [List.length] in H. lia.
Qed.

Lemma rejected_write_is_silent_witness :
  handler (Some "key") 0%Qc "0xAB" "ethereum" 93600 Scenarios.same_day
  = (Json200 {| price := parseFloat_toFixed8 (mockPrice 0%Qc);
                source := "alchemy" |}, Scenarios.same_day).
Proof.
  apply (rejected_write_is_silent (Some "key") 0%Qc "0xAB" "ethereum" 93600 1
           Scenarios.same_day (Scenarios.point 86400 (Scenarios.q 1 1))).
  - unfold valid. repeat split; discriminate.
  - exists "key". split; [reflexivity|discriminate].
  - reflexivity.
  - right. reflexivity.
  - reflexivity.
  - left. reflexivity.
  - reflexivity.
  - reflexivity.
  - reflexivity.
Defined.

(** *** The two points an interpolation uses *)

Lemma side_filter (token network : string) (r : CachedPrice) (side : bool) :
  (same_key (toLowerCase token) network r && side)%bool = true <->
  token_address r = toLowerCase token /\ TokenPrices.network r = network /\
  side = true.
Proof. rewrite andb_true_iff, same_key_spec. tauto. Qed.

(** The point before is the latest stored point of the token and network
    strictly before the query, the point after the earliest one strictly
    after it; a side has no point exactly when the lookup finds none. *)
Theorem brackets_are_nearest
    (tbl : table) (token network : string) (t : Z) :
  (forall b, beforePrices tbl token network t = Some b ->
     In b tbl /\ token_address b = toLowerCase token /\
     TokenPrices.network b = network /\ TokenPrices.timestamp b < t /\
     forall r, In r tbl -> token_address r = toLowerCase token ->
       TokenPrices.network r = network -> TokenPrices.timestamp r < t ->
       TokenPrices.timestamp r <= TokenPrices.timestamp b) /\
  (forall a, afterPrices tbl token network t = Some a ->
     In a tbl /\ token_address a = toLowerCase token /\
     TokenPrices.network a = network /\ t < TokenPrices.timestamp a /\
     forall r, In r tbl -> token_address r = toLowerCase token ->
       TokenPrices.network r = network -> t < TokenPrices.timestamp r ->
       TokenPrices.timestamp a <= TokenPrices.timestamp r) /\
  (beforePrices tbl token network t = None <->
   forall r, In r tbl -> token_address r = toLowerCase token ->
     TokenPrices.network r = network -> t <= TokenPrices.timestamp r) /\
  (afterPrices tbl token network t = None <->
   forall r, In r tbl -> token_address r = toLowerCase token ->
     TokenPrices.network r = network -> TokenPrices.timestamp r <= t).
Proof.
  unfold beforePrices, afterPrices. split; [|split; [|split]].
  - intros b Hb. pose proof (first_by_In _ _ _ _ Hb) as Hin.
    apply filter_In in Hin. destruct Hin as [Hin Hf].
    apply side_filter in Hf. destruct Hf as (Ht & Hn & Hlt).
    apply Z.ltb_lt in Hlt. repeat split; try assumption.
    intros r Hr Hrt Hrn Hrlt. apply (order_desc_greatest _ _ _ Hb).
    apply filter_In. split; [exact Hr|]. apply side_filter.
    rewrite Z.ltb_lt. auto.
  - intros a Ha. pose proof (first_by_In _ _ _ _ Ha) as Hin.
    apply filter_In in Hin. destruct Hin as [Hin Hf].
    apply side_filter in Hf. destruct Hf as (Ht & Hn & Hgt).
    apply Z.gtb_lt in Hgt. repeat split; try assumption.
    intros r Hr Hrt Hrn Hrgt. apply (order_asc_least _ _ _ Ha).
    apply filter_In. split; [exact Hr|]. apply side_filter.
    rewrite Z.gtb_ltb, Z.ltb_lt. auto.
  - unfold order_desc_limit1. rewrite first_by_None. split.
    + intros Hnil r Hr Hrt Hrn.
      destruct (Z_lt_le_dec (TokenPrices.timestamp r) t) as [Hlt|]; [|assumption].
      assert (Hf : In r (filter (fun r => (same_key (toLowerCase token) network r
                     && (TokenPrices.timestamp r <? t))%bool) tbl)).
      { apply filter_In. split; [exact Hr|]. apply side_filter.
        rewrite Z.ltb_lt. auto. }
      rewrite Hnil in Hf. contradiction.
    + intros Hall. destruct (filter _ tbl) as [|r rest] eqn:Hf; [reflexivity|].
      assert (Hr : In r (r :: rest)) by (left; reflexivity).
      rewrite <- Hf in Hr. apply filter_In in Hr. destruct Hr as [Hr Hs].
      apply side_filter in Hs. destruct Hs as (Ht & Hn & Hlt).
      apply Z.ltb_lt in Hlt. specialize (Hall r Hr Ht Hn). lia.
  - unfold order_asc_limit1. rewrite first_by_None. split.
    + intros Hnil r Hr Hrt Hrn.
      destruct (Z_lt_le_dec t (TokenPrices.timestamp r)) as [Hlt|]; [|assumption].
      assert (Hf : In r (filter (fun r => (same_key (toLowerCase token) network r
                     && (TokenPrices.timestamp r >? t))%bool) tbl)).
      { apply filter_In. split; [exact Hr|]. apply side_filter.
        rewrite Z.gtb_ltb, Z.ltb_lt. auto. }
      rewrite Hnil in Hf. contradiction.
    + intros Hall. destruct (filter _ tbl) as [|r rest] eqn:Hf; [reflexivity|].
      assert (Hr : In r (r :: rest)) by (left; reflexivity).
      rewrite <- Hf in Hr. apply filter_In in Hr. destruct Hr as [Hr Hs].
      apply side_filter in Hs. destruct Hs as (Ht & Hn & Hgt).
      apply Z.gtb_lt in Hgt. specialize (Hall r Hr Ht Hn). lia.
Qed.

Lemma brackets_are_nearest_witness :
  In (Scenarios.point 80000 (Scenarios.q 1 1)) Scenarios.bracket_pair /\
  token_address (Scenarios.point 80000 (Scenarios.q 1 1)) = toLowerCase "0xAB" /\
  TokenPrices.network (Scenarios.point 80000 (Scenarios.q 1 1)) = "ethereum" /\
  TokenPrices.timestamp (Scenarios.point 80000 (Scenarios.q 1 1)) < 90000 /\
  forall r, In r Scenarios.bracket_pair -> token_address r = toLowerCase "0xAB" ->
    TokenPrices.network r = "ethereum" -> TokenPrices.timestamp r < 90000 ->
    TokenPrices.timestamp r
    <= TokenPrices.timestamp (Scenarios.point 80000 (Scenarios.q 1 1)).
Proof.
  apply (proj1 (brackets_are_nearest Scenarios.bracket_pair "0xAB" "ethereum" 90000)).
  reflexivity.
Defined.

(** *** The case of the token *)

Lemma toLowerCase_empty (s : string) : falsy (toLowerCase s) = falsy s.
Proof. destruct s; reflexivity. Qed.

(** For tokens written in ASCII characters, the answer does not depend on
    the case of the letters: two spellings with the same lower-case form get
    the same response and the same write, in exact arithmetic and in
    binary64. *)
Theorem token_case_is_ignored
    (alchemyApiKey : option string) (random : Qc) (random64 : Double.double)
    (token token' network : string) (t : Z) (tbl : table) :
  ascii_only token = true ->
  ascii_only token' = true ->
  toLowerCase token = toLowerCase token' ->
  handler alchemyApiKey random token network t tbl
  = handler alchemyApiKey random token' network t tbl /\
  Price64.handler alchemyApiKey random64 token network t tbl
  = Price64.handler alchemyApiKey random64 token' network t tbl.
Proof.
  intros _ _ Heq.
  assert (Hf : falsy token = falsy token').
  { rewrite <- (toLowerCase_empty token), <- (toLowerCase_empty token'), Heq.
    reflexivity. }
  unfold handler, Price64.handler, exactMatch, beforePrices, afterPrices.
  rewrite Hf, Heq. split; reflexivity.
Qed.

Lemma token_case_is_ignored_witness :
  handler (Some "key") 0%Qc "0xAbCd" "ethereum" 90000 Scenarios.bracket_pair
  = handler (Some "key") 0%Qc "0XABCD" "ethereum" 90000 Scenarios.bracket_pair /\
  Price64.handler (Some "key") Scenarios.third "0xAbCd" "ethereum" 90000
    Scenarios.bracket_pair
  = Price64.handler (Some "key") Scenarios.third "0XABCD" "ethereum" 90000
      Scenarios.bracket_pair.
Proof.
  apply (token_case_is_ignored (Some "key") 0%Qc Scenarios.third
           "0xAbCd" "0XABCD" "ethereum" 90000 Scenarios.bracket_pair);
    reflexivity.
Defined.

End PriceMore.

(** ** Rounding to 8 decimals *)

Module NumberMore.

Import TokenPrices Price JsNumberFacts.

Lemma this_Q2Qc (q : Q) : (this (Q2Qc q) == q)%Q.
Proof. apply Qred_correct. Qed.
Lemma this_add (a b : Qc) : (this (a + b)%Qc == this a + this b)%Q.
Proof. apply Qred_correct. Qed.
Lemma this_mul (a b : Qc) : (this (a * b)%Qc == this a * this b)%Q.
Proof. apply Qred_correct. Qed.
Lemma this_opp (a : Qc) : (this (- a)%Qc == - this a)%Q.
Proof. apply Qred_correct. Qed.

Lemma hundred_millionths (n : Z) :
  ((n # 100000000) * inject_Z e8 == inject_Z n)%Q.
Proof. unfold Qeq, e8. simpl. lia. Qed.

Lemma round8_spec (q : Qc) :
  (Qabs q < inject_Z e21)%Q ->
  exists (n : Z) (m : Qc),
    parseFloat_toFixed8 (Fin q) = Fin m /\
    (inject_Z n <= Qabs q * inject_Z e8 + (1 # 2) < inject_Z n + 1)%Q /\
    ((q < 0)%Q /\ (m == - (n # 100000000))%Q \/
     (0 <= q)%Q /\ (m == n # 100000000)%Q).
Proof.
  intros Hsmall.
  assert (Hb : Qle_bool (inject_Z e21) (Qabs q) = false).
  { apply not_true_is_false. intros Hb. apply Qle_bool_iff in Hb.
    apply Qle_not_lt in Hb. contradiction. }
  set (n := toFixed8_digits q).
  assert (Hn : (inject_Z n <= Qabs q * inject_Z e8 + (1 # 2) < inject_Z n + 1)%Q).
  { subst n. unfold toFixed8_digits. split.
    - apply Qfloor_le.
    - pose proof (Qlt_floor (Qabs q * inject_Z e8 + (1 # 2))) as Hf.
      rewrite inject_Z_plus in Hf. exact Hf. }
  unfold parseFloat_toFixed8. rewrite Hb. fold n.
  change (Z.to_pos e8) with 100000000%positive.
  destruct (q ?= 0)%Qc eqn:Hs.
  - exists n, (Q2Qc (n # 100000000)). split; [reflexivity|]. split; [exact Hn|].
    right. split.
    + apply Qceq_alt in Hs. rewrite Hs. apply Qle_refl.
    + apply this_Q2Qc.
  - exists n, (- Q2Qc (n # 100000000))%Qc. split; [reflexivity|]. split; [exact Hn|].
    left. split.
    + apply Qclt_alt in Hs. exact Hs.
    + rewrite this_opp, this_Q2Qc. reflexivity.
  - exists n, (Q2Qc (n # 100000000)). split; [reflexivity|]. split; [exact Hn|].
    right. split.
    + apply Qcgt_alt in Hs. apply Qlt_le_weak. exact Hs.
    + apply this_Q2Qc.
Qed.

Lemma Z_of_Q_le (a b : Z) : (inject_Z a <= inject_Z b + (1 # 2))%Q -> a <= b.
Proof.
  intros H. destruct (Z_le_gt_dec a b) as [|Hgt]; [assumption|].
  assert (Hz : b + 1 <= a) by lia.
  rewrite Zle_Qle, inject_Z_plus in Hz. change (inject_Z 1) with 1%Q in Hz. lra.
Qed.

Lemma Z_of_Q_lt (a b : Z) : (inject_Z a + (1 # 2) < inject_Z b + 1)%Q -> a <= b.
Proof.
  intros H. destruct (Z_le_gt_dec a b) as [|Hgt]; [assumption|].
  assert (Hz : b + 1 <= a) by lia.
  rewrite Zle_Qle, inject_Z_plus in Hz. change (inject_Z 1) with 1%Q in Hz. lra.
Qed.

(** Rounding a rounded number changes nothing. *)
Theorem toFixed8_idempotent (x : number) :
  parseFloat_toFixed8 (parseFloat_toFixed8 x) = parseFloat_toFixed8 x.
Proof.
  destruct x as [q| | |]; try reflexivity.
  destruct (Qlt_le_dec (Qabs q) (inject_Z e21)) as [Hsmall|Hlarge].
  - destruct (round8_spec q Hsmall) as (n & m & Hm & [Hlo Hhi] & Hsign).
    rewrite Hm.
    destruct (Qlt_le_dec (Qabs m) (inject_Z e21)) as [Hsmall'|Hlarge'].
    + destruct (round8_spec m Hsmall') as (n' & m' & Hm' & [Hlo' Hhi'] & Hsign').
      rewrite Hm'. f_equal. apply Qc_is_canon.
      pose proof (hundred_millionths n) as Hn8.
      pose proof (hundred_millionths n') as Hn8'.
      pose proof (Qabs_nonneg q) as Hq0.
      unfold e8 in *. change (inject_Z 100000000) with (100000000 # 1)%Q in *.
      assert (Hn0 : (0 <= inject_Z n)%Q).
      { change 0%Q with (inject_Z 0). rewrite <- Zle_Qle.
        apply Z_of_Q_lt. change (inject_Z 0) with 0%Q. lra. }
      assert (Habs : (Qabs m * (100000000 # 1) == inject_Z n)%Q).
      { destruct Hsign as [[Hneg Heq]|[Hpos Heq]].
        - rewrite Heq, Qabs_opp, Qabs_pos; [exact Hn8|]. lra.
        - rewrite Heq, Qabs_pos; [exact Hn8|]. lra. }
      rewrite Habs in Hlo', Hhi'.
      assert (Hnn : n' = n).
      { apply Z.le_antisymm; [apply Z_of_Q_le | apply Z_of_Q_lt]; lra. }
      subst n'.
      destruct Hsign as [[Hneg Heq]|[Hpos Heq]];
        destruct Hsign' as [[Hneg' Heq']|[Hpos' Heq']]; lra.
    + unfold parseFloat_toFixed8 at 1.
      apply Qle_bool_iff in Hlarge'. rewrite Hlarge'. reflexivity.
  - assert (Hb : parseFloat_toFixed8 (Fin q) = Fin q).
    { unfold parseFloat_toFixed8. apply Qle_bool_iff in Hlarge.
      rewrite Hlarge. reflexivity. }
    rewrite !Hb. reflexivity.
Qed.

(** *** The [DECIMAL(20, 8)] column *)

Lemma decimal_spec (q : Qc) :
  let n := toFixed8_digits q in
  (inject_Z n <= Qabs q * inject_Z e8 + (1 # 2) < inject_Z n + 1)%Q /\
  (n < 10 ^ 20 ->
   exists m : Qc,
     decimal_20_8 (Fin q) = Some (Fin m) /\
     ((q < 0)%Q /\ (m == - (n # 100000000))%Q \/
      (0 <= q)%Q /\ (m == n # 100000000)%Q)) /\
  (10 ^ 20 <= n -> decimal_20_8 (Fin q) = None).
Proof.
  intros n.
  assert (Hn : (inject_Z n <= Qabs q * inject_Z e8 + (1 # 2) < inject_Z n + 1)%Q).
  { subst n. unfold toFixed8_digits. split.
    - apply Qfloor_le.
    - pose proof (Qlt_floor (Qabs q * inject_Z e8 + (1 # 2))) as Hf.
      rewrite inject_Z_plus in Hf. exact Hf. }
  split; [exact Hn|]. unfold decimal_20_8. fold n. split.
  - intros Hlt. apply Z.ltb_lt in Hlt. rewrite Hlt.
    change (Z.to_pos e8) with 100000000%positive.
    destruct (q ?= 0)%Qc eqn:Hs.
    + exists (Q2Qc (n # 100000000)). split; [reflexivity|]. right. split.
      * apply Qceq_alt in Hs. rewrite Hs. apply Qle_refl.
      * apply this_Q2Qc.
    + exists (- Q2Qc (n # 100000000))%Qc. split; [reflexivity|]. left. split.
      * apply Qclt_alt in Hs. exact Hs.
      * rewrite this_opp, this_Q2Qc. reflexivity.
    + exists (Q2Qc (n # 100000000)). split; [reflexivity|]. right. split.
      * apply Qcgt_alt in Hs. apply Qlt_le_weak. exact Hs.
      * apply this_Q2Qc.
  - intros Hge. apply Z.ltb_ge in Hge. rewrite Hge. reflexivity.
Qed.

(** The column refuses a price exactly when its magnitude rounds to [10^12]
    or more.  A price it takes is kept within half a unit of the eighth
    decimal, stays below [10^12] in magnitude, and is kept as it is when
    written again. *)
Theorem column_rounds_to_8_decimals (q : Qc) :
  (decimal_20_8 (Fin q) = None <->
   (inject_Z (10 ^ 12) - (1 # 200000000) <= Qabs q)%Q) /\
  (forall y, decimal_20_8 (Fin q) = Some y ->
     exists m : Qc,
       y = Fin m /\
       (Qabs (m - q) <= 1 # 200000000)%Q /\
       (Qabs m < inject_Z (10 ^ 12))%Q /\
       decimal_20_8 y = Some y).
Proof.
  destruct (decimal_spec q) as ([Hlo Hhi] & Hin & Hout).
  set (n := toFixed8_digits q) in *.
  pose proof (Qabs_nonneg q) as Hq0.
  pose proof (hundred_millionths n) as Hn8.
  unfold e8 in *. change (inject_Z 100000000) with (100000000 # 1)%Q in *.
  change (inject_Z (10 ^ 12)) with (1000000000000 # 1)%Q.
  assert (Hn0 : 0 <= n).
  { apply Z_of_Q_lt. change (inject_Z 0) with 0%Q. lra. }
  destruct (Z_lt_le_dec n (10 ^ 20)) as [Hlt|Hge].
  - destruct (Hin Hlt) as (m & Hm & Hsign).
    assert (HnQ : (inject_Z n <= 99999999999999999999 # 1)%Q).
    { assert (Hz : n <= 99999999999999999999) by lia.
      rewrite Zle_Qle in Hz. exact Hz. }
    assert (Hn0Q : (0 <= inject_Z n)%Q).
    { change 0%Q with (inject_Z 0). rewrite <- Zle_Qle. exact Hn0. }
    split.
    + split; [rewrite Hm; discriminate|]. intros Hbig. exfalso. lra.
    + intros y Hy. rewrite Hm in Hy. inversion Hy; subst y. clear Hy.
      exists m. split; [reflexivity|].
      assert (Habs : (Qabs m * (100000000 # 1) == inject_Z n)%Q).
      { destruct Hsign as [[Hneg Heq]|[Hpos Heq]].
        - rewrite Heq, Qabs_opp, Qabs_pos; [exact Hn8|]. lra.
        - rewrite Heq, Qabs_pos; [exact Hn8|]. lra. }
      split; [|split].
      * apply Qabs_Qle_condition.
        destruct Hsign as [[Hneg Heq]|[Hpos Heq]].
        -- rewrite (Qabs_neg q) in Hlo, Hhi by (apply Qlt_le_weak; exact Hneg).
           rewrite Heq. split; lra.
        -- rewrite (Qabs_pos q) in Hlo, Hhi by exact Hpos.
           rewrite Heq. split; lra.
      * lra.
      * destruct (decimal_spec m) as ([Hlo' Hhi'] & Hin' & _).
        set (n' := toFixed8_digits m) in *.
        unfold e8 in *. change (inject_Z 100000000) with (100000000 # 1)%Q in *.
        rewrite Habs in Hlo', Hhi'.
        assert (Hnn : n' = n).
        { apply Z.le_antisymm; [apply Z_of_Q_le | apply Z_of_Q_lt]; lra. }
        rewrite Hnn in Hin'. destruct (Hin' Hlt) as (m' & Hm' & Hsign').
        rewrite Hm'. f_equal. f_equal. apply Qc_is_canon.
        destruct Hsign as [[Hneg Heq]|[Hpos Heq]];
          destruct Hsign' as [[Hneg' Heq']|[Hpos' Heq']]; lra.
  - rewrite (Hout Hge). split.
    + split; [|reflexivity]. intros _.
      assert (HgeQ : (100000000000000000000 # 1 <= inject_Z n)%Q).
      { rewrite Zle_Qle in Hge. exact Hge. }
      lra.
    + intros y Hy. discriminate Hy.
Qed.

Lemma column_rounds_to_8_decimals_samples :
  decimal_20_8 (Fin (Scenarios.q 31 30)) = Some (Fin (Scenarios.q 103333333 100000000)) /\
  decimal_20_8 (Fin (Scenarios.q (-15) 1000000000))
  = Some (Fin (Scenarios.q (-2) 100000000)) /\
  decimal_20_8 (Fin (Scenarios.q 999999999999999999995 1000000000)) = None /\
  decimal_20_8 NaN = None.
Proof. repeat split; vm_compute; number_eq. Qed.

End NumberMore.

(** ** The scheduler: requests, enumeration and chunks *)

Module ScheduleMore.

Import TokenPrices FetchJobs Schedule TokenPricesFacts ScheduleFacts.

Lemma falsy_false (s : string) : falsy s = false <-> s <> "".
Proof. unfold falsy. apply String.eqb_neq. Qed.

Lemma falsy_true (s : string) : falsy s = true <-> s = "".
Proof. unfold falsy. apply String.eqb_eq. Qed.

(** The handler answers 400 exactly when the token or the network is empty;
    it then writes nothing and starts no background work. *)
Theorem schedule_missing_field_iff_400
    (clock : Clock) (token network : string) (db : Database) :
  (token = "" \/ network = "") <->
  handler clock token network db
  = (JsonError 400 "Missing required fields: token, network", db, None).
Proof.
  unfold handler. rewrite <- !falsy_true.
  destruct (falsy token), (falsy network); cbn [orb];
    try (split; [reflexivity | auto]).
  split; [intros [H|H]; discriminate|].
  destruct (generateDailyTimestamps _ _); discriminate.
Qed.

(** The enumeration has [(now - start) / 86400 + 1] elements when the start
    is not after the current time, and none otherwise. *)
Theorem generateDailyTimestamps_length (start dateNow : Z) :
  Z.of_nat (List.length (generateDailyTimestamps start dateNow))
  = Z.max 0 ((dateNow / 1000 - start) / 86400 + 1).
Proof.
  destruct (Z_le_gt_dec start (dateNow / 1000)) as [Hle|Hgt].
  - rewrite generateDailyTimestamps_closed by exact Hle.
    rewrite length_map, length_seq.
    pose proof (Z.div_pos (dateNow / 1000 - start) 86400 ltac:(lia) ltac:(lia)).
    lia.
  - rewrite generateDailyTimestamps_late by lia.
    assert (Hneg : (dateNow / 1000 - start) / 86400 < 0).
    { apply Z.div_lt_upper_bound; lia. }
    cbn [List.length]. lia.
Qed.

Lemma enumeration_empty_iff (start dateNow : Z) :
  generateDailyTimestamps start dateNow = [] <-> dateNow / 1000 < start.
Proof.
  split.
  - intros Hnil. destruct (Z_le_gt_dec start (dateNow / 1000)) as [Hle|]; [|lia].
    rewrite generateDailyTimestamps_unfold in Hnil.
    destruct (Z.leb_spec start (dateNow / 1000)); [discriminate|lia].
  - apply generateDailyTimestamps_late.
Qed.

(** When the start lies after the current time there is nothing to do: the
    handler answers a "no-work-..." identifier with 0 estimated days,
    creates no job and starts no background work; and this is the only case
    in which a valid request is answered so. *)
Theorem nothing_to_do_iff_start_is_late
    (clock : Clock) (token network : string) (db : Database) :
  token <> "" -> network <> "" ->
  (now_generate clock / 1000 < startTimestamp clock token network db <->
   handler clock token network db
   = (Json200 {| resp_job_id := ("no-work-" ++ string_of_Z (now_job_id clock))%string;
                 message := "All historical data already cached";
                 estimated_days := 0 |}, db, None)).
Proof.
  intros Ht Hn. rewrite <- enumeration_empty_iff.
  unfold handler. apply falsy_false in Ht, Hn. rewrite Ht, Hn. cbn [orb].
  destruct (generateDailyTimestamps _ _) as [|d rest].
  - split; reflexivity.
  - split; discriminate.
Qed.

Lemma nothing_to_do_iff_start_is_late_witness :
  (now_generate Scenarios.two_days / 1000
   < startTimestamp Scenarios.two_days "0xAB" "ethereum"
       {| prices := Scenarios.same_day; jobs := [] |} <->
   handler Scenarios.two_days "0xAB" "ethereum"
     {| prices := Scenarios.same_day; jobs := [] |}
   = (Json200 {| resp_job_id := ("no-work-" ++ string_of_Z 86405001)%string;
                 message := "All historical data already cached";
                 estimated_days := 0 |},
      {| prices := Scenarios.same_day; jobs := [] |}, None)).
Proof.
  apply (nothing_to_do_iff_start_is_late Scenarios.two_days "0xAB" "ethereum"
           {| prices := Scenarios.same_day; jobs := [] |}); discriminate.
Defined.

(** *** Chunks *)

Lemma chunk_loop_length (fuel : nat) (l : list Z) :
  (List.length l <= fuel)%nat ->
  List.length (chunk_loop fuel l) = ((List.length l + 9) / 10)%nat.
Proof.
  revert l. induction fuel as [|fuel IH]; intros l Hlen.
  - destruct l; [reflexivity|simpl in Hlen; lia].
  - destruct l as [|x l']; [reflexivity|].
    cbn [chunk_loop]. change (List.length (firstn chunkSize (x :: l')
                                            :: chunk_loop fuel (skipn chunkSize (x :: l'))))
      with (S (List.length (chunk_loop fuel (skipn chunkSize (x :: l'))))).
    rewrite IH.
    + rewrite length_skipn. unfold chunkSize.
      remember (List.length (x :: l')) as n eqn:En.
      assert (Hn : (1 <= n)%nat) by (subst n; simpl; lia).
      destruct (Nat.le_gt_cases 10 n) as [Hbig|Hsmall].
      * replace (n + 9)%nat with ((n - 10 + 9) + 1 * 10)%nat by lia.
        rewrite Nat.div_add by lia. lia.
      * replace (n - 10)%nat with 0%nat by lia.
        change ((0 + 9) / 10)%nat with 0%nat.
        apply (Nat.div_unique (n + 9) 10 1 (n - 1)); lia.
    + rewrite length_skipn. unfold chunkSize. simpl List.length in *. lia.
Qed.

Lemma chunk_loop_nth (fuel : nat) :
  forall (l : list Z) (i : nat),
    (List.length l <= fuel)%nat -> (10 * i < List.length l)%nat ->
    nth_error (chunk_loop fuel l) i = Some (firstn 10 (skipn (10 * i) l)).
Proof.
  induction fuel as [|fuel IH]; intros l i Hlen Hi.
  - lia.
  - destruct l as [|x l']; [simpl in Hi; lia|].
    cbn [chunk_loop]. destruct i as [|i].
    + reflexivity.
    + cbn [nth_error]. unfold chunkSize. rewrite IH.
      * rewrite skipn_skipn. do 3 f_equal. lia.
      * rewrite length_skipn. simpl List.length in *. lia.
      * rewrite length_skipn. simpl List.length in *. lia.
Qed.

(** The chunks are the enumeration cut every 10 days, in order: chunk [i]
    holds days [10 i] to [10 i + 9] (fewer in the last one), there are
    [ceil (n / 10)] chunks, and put end to end they give the enumeration
    back. *)
Theorem make_chunks_partition (dailyTimestamps : list Z) :
  List.concat (make_chunks dailyTimestamps) = dailyTimestamps /\
  List.length (make_chunks dailyTimestamps)
  = ((List.length dailyTimestamps + 9) / 10)%nat /\
  forall i, (10 * i < List.length dailyTimestamps)%nat ->
    nth_error (make_chunks dailyTimestamps) i
    = Some (firstn 10 (skipn (10 * i) dailyTimestamps)).
Proof.
  split; [|split].
  - apply chunk_loop_concat. lia.
  - apply chunk_loop_length. lia.
  - intros i Hi. apply chunk_loop_nth; [lia|exact Hi].
Qed.

Lemma make_chunks_partition_witness :
  nth_error (make_chunks [1; 2; 3; 4; 5; 6; 7; 8; 9; 10; 11; 12]) 1
  = Some (firstn 10 (skipn (10 * 1) [1; 2; 3; 4; 5; 6; 7; 8; 9; 10; 11; 12])).
Proof.
  apply (proj2 (proj2 (make_chunks_partition [1; 2; 3; 4; 5; 6; 7; 8; 9; 10; 11; 12]))).
  simpl. lia.
Defined.

(** *** Where the enumeration starts *)

Lemma getTokenBirthdate_seconds (dateNow : Z) :
  getTokenBirthdate dateNow = dateNow / 1000 - 31536000.
Proof.
  unfold getTokenBirthdate.
  replace (dateNow - 365 * 24 * 60 * 60 * 1000)
    with (dateNow + (-31536000) * 1000) by lia.
  rewrite Z.div_add by lia. lia.
Qed.

Lemma no_stored_row (token network : string) (db : Database) :
  order_desc_limit1 date
    (filter (same_key (toLowerCase token) network) (prices db)) = None <->
  forall r, In r (prices db) -> same_key (toLowerCase token) network r = false.
Proof.
  unfold order_desc_limit1. rewrite first_by_None. split.
  - intros Hnil r Hr. apply not_true_is_false. intros Hk.
    assert (Hf : In r (filter (same_key (toLowerCase token) network) (prices db))).
    { apply filter_In. auto. }
    rewrite Hnil in Hf. contradiction.
  - intros Hall. destruct (filter _ (prices db)) as [|r rest] eqn:Hf; [reflexivity|].
    assert (Hr : In r (r :: rest)) by (left; reflexivity).
    rewrite <- Hf in Hr. apply filter_In in Hr. destruct Hr as [Hr Hk].
    rewrite (Hall r Hr) in Hk. discriminate.
Qed.

(** For a token and network with no stored price, scheduled while the clock
    stays within one day, the handler plans 366 days in 37 chunks: the year
    the mock birth date goes back, and today. *)
Theorem first_schedule_plans_366_days
    (clock : Clock) (token network : string) (db : Database) :
  token <> "" -> network <> "" ->
  (forall r, In r (prices db) -> same_key (toLowerCase token) network r = false) ->
  0 <= now_generate clock / 1000 - now_birthdate clock / 1000 < 86400 ->
  exists resp db' bg,
    handler clock token network db = (Json200 resp, db', Some bg) /\
    estimated_days resp = 366 /\
    List.length (bg_dailyTimestamps bg) = 366%nat /\
    List.length (bg_chunks bg) = 37%nat /\
    hd_error (bg_dailyTimestamps bg) = Some (now_birthdate clock / 1000 - 31536000).
Proof.
  intros Ht Hn Hnone Hclock.
  assert (Hstart : startTimestamp clock token network db
                   = now_birthdate clock / 1000 - 31536000).
  { unfold startTimestamp. apply no_stored_row in Hnone. rewrite Hnone.
    apply getTokenBirthdate_seconds. }
  assert (Hlen : Z.of_nat (List.length
                   (generateDailyTimestamps (startTimestamp clock token network db)
                      (now_generate clock))) = 366).
  { rewrite generateDailyTimestamps_length, Hstart.
    replace (now_generate clock / 1000 - (now_birthdate clock / 1000 - 31536000))
      with ((now_generate clock / 1000 - now_birthdate clock / 1000) + 365 * 86400)
      by lia.
    rewrite Z.div_add by lia. rewrite Z.div_small by lia. reflexivity. }
  assert (Hhd : hd_error (generateDailyTimestamps
                            (startTimestamp clock token network db)
                            (now_generate clock))
                = Some (now_birthdate clock / 1000 - 31536000)).
  { rewrite generateDailyTimestamps_unfold, Hstart.
    destruct (Z.leb_spec (now_birthdate clock / 1000 - 31536000)
                         (now_generate clock / 1000)); [reflexivity|lia]. }
  unfold handler. apply falsy_false in Ht, Hn. rewrite Ht, Hn. cbn [orb].
  destruct (generateDailyTimestamps _ _) as [|d rest] eqn:Hdays;
    [cbn in Hlen; lia|].
  do 3 eexists. split; [reflexivity|].
  cbn [estimated_days bg_dailyTimestamps bg_chunks].
  assert (Hn366 : List.length (d :: rest) = 366%nat) by lia.
  split; [exact Hlen|]. split; [exact Hn366|]. split; [|exact Hhd].
  unfold make_chunks. rewrite chunk_loop_length by lia. rewrite Hn366.
  reflexivity.
Qed.

Lemma first_schedule_plans_366_days_witness :
  exists resp db' bg,
    handler {| now_birthdate := 1700000000000; now_generate := 1700000000250;
               now_job_id := 1700000000251 |} "0xABCDEF1234" "ethereum"
      Scenarios.empty
    = (Json200 resp, db', Some bg) /\
    estimated_days resp = 366 /\
    List.length (bg_dailyTimestamps bg) = 366%nat /\
    List.length (bg_chunks bg) = 37%nat /\
    hd_error (bg_dailyTimestamps bg) = Some (1700000000000 / 1000 - 31536000).
Proof.
  apply (first_schedule_plans_366_days
           {| now_birthdate := 1700000000000; now_generate := 1700000000250;
              now_job_id := 1700000000251 |} "0xABCDEF1234" "ethereum"
           Scenarios.empty).
  - discriminate.
  - discriminate.
  - intros r [].
  - simpl. lia.
Defined.

(** *** Resuming *)

Lemma enumeration_members (start dateNow ts : Z) :
  In ts (generateDailyTimestamps start dateNow) ->
  exists i, 0 <= i /\ ts = start + 86400 * i.
Proof.
  intros Hin.
  destruct (Z_le_gt_dec start (dateNow / 1000)) as [Hle|Hgt].
  - rewrite generateDailyTimestamps_closed in Hin by exact Hle.
    apply in_map_iff in Hin. destruct Hin as (i & <- & _).
    exists (Z.of_nat i). split; [lia|reflexivity].
  - rewrite generateDailyTimestamps_late in Hin by lia. contradiction.
Qed.

Lemma stored_before_start (clock : Clock) (token network : string)
    (db : Database) (x : CachedPrice) :
  In x (prices db) ->
  same_key (toLowerCase token) network x = true ->
  date x < startTimestamp clock token network db / 86400 /\
  startTimestamp clock token network db mod 86400 = 0.
Proof.
  intros Hin Hkey. unfold startTimestamp.
  destruct (order_desc_limit1 date
              (filter (same_key (toLowerCase token) network) (prices db)))
    as [row|] eqn:Hrow.
  - assert (Hx : In x (filter (same_key (toLowerCase token) network) (prices db))).
    { apply filter_In. auto. }
    pose proof (order_desc_greatest _ _ _ Hrow x Hx) as Hle.
    replace (date row * 86400 + 86400) with ((date row + 1) * 86400) by lia.
    rewrite Z.div_mul, Z.mod_mul by lia. lia.
  - rewrite no_stored_row in Hrow. rewrite (Hrow x Hin) in Hkey. discriminate.
Qed.

(** When prices of the token and network are stored already, every day the
    handler plans starts at midnight UTC and comes strictly after every
    stored date: a resumed backfill plans no day twice. *)
Theorem resumed_days_follow_stored_dates
    (clock : Clock) (token network : string) (db : Database)
    (x : CachedPrice) (ts : Z) :
  In x (prices db) ->
  TokenPrices.token_address x = toLowerCase token ->
  TokenPrices.network x = network ->
  In ts (generateDailyTimestamps (startTimestamp clock token network db)
                                 (now_generate clock)) ->
  date x < ts / 86400 /\ ts mod 86400 = 0.
Proof.
  intros Hin Htok Hnet Hts.
  assert (Hkey : same_key (toLowerCase token) network x = true).
  { apply same_key_spec. auto. }
  destruct (stored_before_start clock token network db x Hin Hkey) as [Hlt Hmod].
  destruct (enumeration_members _ _ _ Hts) as (i & Hi & ->).
  split.
  - replace (startTimestamp clock token network db + 86400 * i)
      with (startTimestamp clock token network db + i * 86400) by lia.
    rewrite Z.div_add by lia. lia.
  - replace (startTimestamp clock token network db + 86400 * i)
      with (startTimestamp clock token network db + i * 86400) by lia.
    rewrite Z.mod_add by lia. exact Hmod.
Qed.

Lemma resumed_days_follow_stored_dates_witness :
  date (Scenarios.point 86400 (Scenarios.q 1 1)) < 172800 / 86400 /\
  172800 mod 86400 = 0.
Proof.
  apply (resumed_days_follow_stored_dates
           {| now_birthdate := 0; now_generate := 300000000; now_job_id := 0 |}
           "0xAB" "ethereum" {| prices := Scenarios.same_day; jobs := [] |}
           (Scenarios.point 86400 (Scenarios.q 1 1)) 172800).
  - left. reflexivity.
  - reflexivity.
  - reflexivity.
  - vm_compute. left. reflexivity.
Defined.

(** *** The runner *)

Lemma promiseAll_inr {A : Type}
    (promises : list (string + A)) (values : list A) :
  promiseAll promises = inr values <-> promises = map inr values.
Proof.
  revert values. induction promises as [|[msg|v] rest IH]; intros values.
  - cbn. split.
    + intros H. inversion H. reflexivity.
    + destruct values; [reflexivity|discriminate].
  - cbn. split; [discriminate|]. destruct values; discriminate.
  - cbn [promiseAll]. destruct (promiseAll rest) as [msg|vs] eqn:Hrest.
    + split; [discriminate|]. destruct values as [|v' values]; [discriminate|].
      cbn. intros H. inversion H. subst.
      assert (Hx : @inl string (list A) msg = inr values) by (apply IH; reflexivity).
      discriminate.
    + split.
      * intros H. inversion H. subst. cbn. f_equal. apply IH. reflexivity.
      * destruct values as [|v' values]; [discriminate|].
        cbn. intros H. inversion H. subst. f_equal. f_equal.
        assert (Hx : @inr string (list A) vs = inr values) by (apply IH; reflexivity).
        inversion Hx. reflexivity.
Qed.

Section RunnerMore.

Variable fetchPriceFromAlchemy : string -> string -> Z -> string + number.
Variables (token network : string).

Local Abbreviation states := (chunk_states fetchPriceFromAlchemy token network).
Local Abbreviation promise := (pricePromise fetchPriceFromAlchemy token network).

Lemma get_update_other (fields : Job -> Job) (jobId jobId' : string)
    (tbl : FetchJobs.table) :
  (forall j, job_id (fields j) = job_id j) ->
  jobId' <> jobId ->
  get jobId' (update fields jobId tbl) = get jobId' tbl.
Proof.
  intros Hid Hne. unfold get, update.
  induction tbl as [|j rest IH]; [reflexivity|].
  cbn [map find]. destruct (has_id jobId j) eqn:Hj.
  - unfold has_id in *. rewrite Hid. apply String.eqb_eq in Hj.
    assert (Hj' : String.eqb (job_id j) jobId' = false).
    { apply String.eqb_neq. congruence. }
    rewrite Hj'. exact IH.
  - destruct (has_id jobId' j); [reflexivity|exact IH].
Qed.

Lemma length_update (fields : Job -> Job) (jobId : string) (tbl : FetchJobs.table) :
  List.length (update fields jobId tbl) = List.length tbl.
Proof. unfold update. apply length_map. Qed.

Lemma promise_row (ts : Z) (r : CachedPrice) :
  promise ts = inr r ->
  TokenPrices.token_address r = toLowerCase token /\ TokenPrices.network r = network /\
  TokenPrices.timestamp r = ts /\ isoDate ts = Some (date r).
Proof.
  unfold pricePromise.
  destruct (fetchPriceFromAlchemy token network ts); [discriminate|].
  destruct (isoDate ts); [|discriminate].
  intros H. inversion H. subst. cbn. auto.
Qed.

Lemma promised_rows (chunk : list Z) (rows : list CachedPrice) :
  promiseAll (map promise chunk) = inr rows ->
  Forall (fun r => TokenPrices.token_address r = toLowerCase token /\
                   TokenPrices.network r = network /\
                   In (TokenPrices.timestamp r) chunk) rows.
Proof.
  rewrite promiseAll_inr. revert rows.
  induction chunk as [|ts chunk IH]; intros rows H.
  - destruct rows; [constructor|discriminate].
  - destruct rows as [|r rows]; [discriminate|].
    cbn [map] in H. inversion H as [[Hr Hrest]].
    apply promise_row in Hr. destruct Hr as (Ht & Hn & Hts & _).
    constructor.
    + repeat split; try assumption. left. auto.
    + specialize (IH rows Hrest). eapply Forall_impl; [|exact IH].
      cbv beta. intros a (Ha1 & Ha2 & Ha3). repeat split; try assumption.
      right. exact Ha3.
Qed.

Lemma insert_extends (rows : list CachedPrice) (tbl : TokenPrices.table) :
  TokenPrices.insert rows tbl = tbl \/
  exists kept,
    Forall2 (fun r k => stored r = Some k) rows kept /\
    TokenPrices.insert rows tbl = tbl ++ kept.
Proof.
  unfold TokenPrices.insert.
  destruct (stored_all rows) as [kept|] eqn:Hk; [|left; reflexivity].
  destruct (pairwise_free kept && forallb _ kept)%bool; [|left; reflexivity].
  right. exists kept. split; [|reflexivity].
  apply PriceFacts.stored_all_spec. exact Hk.
Qed.

Lemma kept_rows (part : list Z) (rows kept : list CachedPrice) :
  Forall2 (fun r k => stored r = Some k) rows kept ->
  Forall (fun r => TokenPrices.token_address r = toLowerCase token /\
                   TokenPrices.network r = network /\
                   In (TokenPrices.timestamp r) part) rows ->
  Forall (fun r => TokenPrices.token_address r = toLowerCase token /\
                   TokenPrices.network r = network /\
                   In (TokenPrices.timestamp r) part) kept.
Proof.
  induction 1 as [|r k rows kept Hk _ IH]; intros Hrows; [constructor|].
  inversion Hrows as [|? ? (H1 & H2 & H3) Hrest]; subst.
  destruct (PriceFacts.stored_key _ _ Hk) as (Ht & Hn & Hts & _).
  constructor; [|apply IH; exact Hrest].
  rewrite Ht, Hn, Hts. auto.
Qed.

(** The runner changes no job but its own, adds and removes no job, and
    removes or changes no stored price: every state it leaves, from any
    point of its loop on, holds the prices it had, followed by rows of its
    own token and network for timestamps of the chunks it went through. *)
Theorem runner_touches_only_its_job (bg : Background) (todo : list (list Z)) :
  forall (c : Z) (db s : Database),
    In s (states bg todo c db) ->
    (forall jobId', jobId' <> bg_jobId bg ->
       get jobId' (jobs s) = get jobId' (jobs db)) /\
    List.length (jobs s) = List.length (jobs db) /\
    exists rows,
      prices s = prices db ++ rows /\
      Forall (fun r => TokenPrices.token_address r = toLowerCase token /\
                       TokenPrices.network r = network /\
                       In (TokenPrices.timestamp r) (List.concat todo)) rows.
Proof.
  induction todo as [|chunk rest IH]; intros c db s Hin.
  - contradiction.
  - cbn [chunk_states] in Hin.
    destruct (promiseAll (map promise chunk)) as [msg|rows] eqn:Hall.
    + destruct Hin as [<-|[]]. cbn [jobs prices].
      split; [|split].
      * intros id' Hne. apply get_update_other; [reflexivity|exact Hne].
      * apply length_update.
      * exists []. rewrite app_nil_r. split; [reflexivity|constructor].
    + cbn [prices jobs] in Hin.
      pose proof (promised_rows chunk rows Hall) as Hrows.
      assert (Hwiden : forall (l : list CachedPrice) (part : list Z),
                (forall ts, In ts part -> In ts (List.concat (chunk :: rest))) ->
                Forall (fun r => TokenPrices.token_address r = toLowerCase token /\
                                 TokenPrices.network r = network /\
                                 In (TokenPrices.timestamp r) part) l ->
                Forall (fun r => TokenPrices.token_address r = toLowerCase token /\
                                 TokenPrices.network r = network /\
                                 In (TokenPrices.timestamp r)
                                    (List.concat (chunk :: rest))) l).
      { intros l part Hsub Hl. eapply Forall_impl; [|exact Hl].
        cbv beta. intros a (H1 & H2 & H3). auto. }
      assert (Hhere : exists added,
                TokenPrices.insert rows (prices db) = prices db ++ added /\
                Forall (fun r => TokenPrices.token_address r = toLowerCase token /\
                                 TokenPrices.network r = network /\
                                 In (TokenPrices.timestamp r)
                                    (List.concat (chunk :: rest))) added).
      { destruct (insert_extends rows (prices db)) as [-> | (kept & Hkept & ->)].
        - exists []. rewrite app_nil_r. split; [reflexivity|constructor].
        - exists kept. split; [reflexivity|].
          apply (Hwiden kept chunk); [|exact (kept_rows chunk rows kept Hkept Hrows)].
          intros ts Hts. cbn [List.concat]. apply in_or_app. auto. }
      destruct Hhere as (added & Hadded & Hforall).
      destruct Hin as [<-|Hin].
      * cbn [jobs prices]. split; [|split].
        -- intros id' Hne. apply get_update_other; [reflexivity|exact Hne].
        -- apply length_update.
        -- exists added. auto.
      * apply IH in Hin. cbn [jobs prices] in Hin.
        destruct Hin as (Hother & Hlen & more & Hmore & Hmforall).
        split; [|split].
        -- intros id' Hne. rewrite (Hother id' Hne).
           apply get_update_other; [reflexivity|exact Hne].
        -- rewrite Hlen. apply length_update.
        -- exists (added ++ more). split.
           ++ rewrite Hmore, Hadded, app_assoc. reflexivity.
           ++ apply Forall_app. split; [exact Hforall|].
              apply (Hwiden more (List.concat rest)); [|exact Hmforall].
              intros ts Hts. cbn [List.concat]. apply in_or_app. auto.
Qed.

(** A table of prices with at most one row per (token, network, day) stays
    so in every state the runner leaves. *)
Theorem runner_keeps_one_row_per_day (bg : Background) (todo : list (list Z)) :
  forall (c : Z) (db s : Database),
    pairwise_free (prices db) = true ->
    In s (states bg todo c db) ->
    pairwise_free (prices s) = true.
Proof.
  induction todo as [|chunk rest IH]; intros c db s Hfree Hin.
  - contradiction.
  - cbn [chunk_states] in Hin.
    destruct (promiseAll (map promise chunk)) as [msg|rows].
    + destruct Hin as [<-|[]]. exact Hfree.
    + cbn [prices jobs] in Hin.
      assert (Hfree' : pairwise_free (TokenPrices.insert rows (prices db)) = true).
      { apply PriceMore.insert_keeps_unique. exact Hfree. }
      destruct Hin as [<-|Hin]; [exact Hfree'|].
      apply (IH _ _ s) in Hin; [exact Hin|exact Hfree'].
Qed.

End RunnerMore.

Lemma runner_touches_only_its_job_witness :
  (forall jobId', jobId' <> "job-0xABCDEF-86405001" ->
     get jobId'
       (jobs (background Scenarios.steady "0xABCDEF1234" "ethereum"
                Scenarios.scheduled_bg Scenarios.scheduled_db))
     = get jobId' (jobs Scenarios.scheduled_db)) /\
  List.length
    (jobs (background Scenarios.steady "0xABCDEF1234" "ethereum"
             Scenarios.scheduled_bg Scenarios.scheduled_db))
  = List.length (jobs Scenarios.scheduled_db) /\
  exists rows,
    prices (background Scenarios.steady "0xABCDEF1234" "ethereum"
              Scenarios.scheduled_bg Scenarios.scheduled_db)
    = prices Scenarios.scheduled_db ++ rows /\
    Forall (fun r => TokenPrices.token_address r = toLowerCase "0xABCDEF1234" /\
                     TokenPrices.network r = "ethereum" /\
                     In (TokenPrices.timestamp r)
                        (List.concat (bg_chunks Scenarios.scheduled_bg))) rows.
Proof.
  apply (runner_touches_only_its_job Scenarios.steady "0xABCDEF1234" "ethereum"
           Scenarios.scheduled_bg (bg_chunks Scenarios.scheduled_bg) 0
           Scenarios.scheduled_db).
  vm_compute. left. reflexivity.
Defined.

Lemma runner_keeps_one_row_per_day_witness :
  pairwise_free
    (prices (background Scenarios.steady "0xABCDEF1234" "ethereum"
               Scenarios.scheduled_bg Scenarios.scheduled_db)) = true.
Proof.
  apply (runner_keeps_one_row_per_day Scenarios.steady "0xABCDEF1234" "ethereum"
           Scenarios.scheduled_bg (bg_chunks Scenarios.scheduled_bg) 0
           Scenarios.scheduled_db).
  - reflexivity.
  - vm_compute. left. reflexivity.
Defined.

(** *** A run in which every fetch succeeds *)

Section HappyPath.

Variable fetchPriceFromAlchemy : string -> string -> Z -> string + number.
Variables (token network : string).

Local Abbreviation states := (chunk_states fetchPriceFromAlchemy token network).
Local Abbreviation promise := (pricePromise fetchPriceFromAlchemy token network).

Lemma promiseAll_succeeds (chunk : list Z) :
  (forall ts, In ts chunk -> exists r, promise ts = inr r) ->
  exists rows, promiseAll (map promise chunk) = inr rows.
Proof.
  induction chunk as [|ts chunk IH]; intros Hall.
  - exists []. reflexivity.
  - destruct (Hall ts (or_introl eq_refl)) as (r & Hr).
    destruct IH as (rows & Hrows).
    { intros ts' Hts'. apply Hall. right. exact Hts'. }
    exists (r :: rows). cbn [map promiseAll]. rewrite Hr, Hrows. reflexivity.
Qed.

Lemma chunk_loop_nil (fuel : nat) : chunk_loop fuel [] = [].
Proof. destruct fuel; reflexivity. Qed.

Lemma in_firstn {A : Type} (n : nat) (l : list A) (x : A) :
  In x (firstn n l) -> In x l.
Proof. intros H. rewrite <- (firstn_skipn n l). apply in_or_app. auto. Qed.

Lemma in_skipn {A : Type} (n : nat) (l : list A) (x : A) :
  In x (skipn n l) -> In x l.
Proof. intros H. rewrite <- (firstn_skipn n l). apply in_or_app. auto. Qed.

Lemma progress_states (bg : Background) (fuel : nat) :
  forall (l : list Z) (c : Z) (db : Database) (j : Job) (i : nat) (s : Database),
    (List.length l <= fuel)%nat ->
    (forall ts, In ts l -> exists r, promise ts = inr r) ->
    get (bg_jobId bg) (jobs db) = Some j ->
    nth_error (states bg (chunk_loop fuel l) c db) i = Some s ->
    get (bg_jobId bg) (jobs s)
    = Some (progress (c + Z.min (10 * (Z.of_nat i + 1)) (Z.of_nat (List.length l)))
                     (Z.of_nat (List.length (bg_dailyTimestamps bg))) j).
Proof.
  induction fuel as [|fuel IH]; intros l c db j i s Hlen Hall Hget Hnth.
  - destruct l; [|simpl in Hlen; lia]. destruct i; discriminate Hnth.
  - destruct l as [|x l']; [destruct i; discriminate Hnth|].
    cbn [chunk_loop chunk_states] in Hnth.
    destruct (promiseAll_succeeds (firstn chunkSize (x :: l'))) as (rows & Hrows).
    { intros ts Hts. apply Hall. eapply in_firstn. exact Hts. }
    rewrite Hrows in Hnth. cbn [prices jobs] in Hnth.
    set (total := Z.of_nat (List.length (bg_dailyTimestamps bg))) in *.
    set (c' := c + Z.of_nat (List.length (firstn chunkSize (x :: l')))) in *.
    assert (Hc' : c' = c + Z.min 10 (Z.of_nat (List.length (x :: l')))).
    { subst c'. rewrite length_firstn. unfold chunkSize. lia. }
    set (db2 := {| prices := TokenPrices.insert rows (prices db);
                   jobs := update (progress c' total) (bg_jobId bg) (jobs db) |}) in *.
    assert (Hget2 : get (bg_jobId bg) (jobs db2) = Some (progress c' total j)).
    { subst db2. cbn [jobs]. rewrite get_update, Hget by reflexivity. reflexivity. }
    destruct i as [|i].
    + cbn [nth_error] in Hnth. inversion Hnth; subst s.
      rewrite Hget2. do 2 f_equal. lia.
    + cbn [nth_error] in Hnth.
      destruct (skipn chunkSize (x :: l')) as [|y rest] eqn:Hskip.
      { rewrite chunk_loop_nil in Hnth. destruct i; discriminate Hnth. }
      assert (Hlen' : List.length (y :: rest) = (List.length (x :: l') - 10)%nat).
      { rewrite <- Hskip, length_skipn. reflexivity. }
      rewrite (IH (y :: rest) c' db2 (progress c' total j) i s); try assumption.
      * assert (Heq : c' + Z.min (10 * (Z.of_nat i + 1))
                                 (Z.of_nat (List.length (y :: rest)))
                      = c + Z.min (10 * (Z.of_nat (S i) + 1))
                                  (Z.of_nat (List.length (x :: l')))).
        { assert (Hpos : (1 <= List.length (y :: rest))%nat)
            by (cbn [List.length]; lia).
          lia. }
        rewrite Heq. reflexivity.
      * lia.
      * intros ts Hts. apply Hall. apply (in_skipn chunkSize). rewrite Hskip.
        exact Hts.
Qed.

Lemma success_states_length (bg : Background) (todo : list (list Z)) :
  forall (c : Z) (db : Database),
    (forall ts, In ts (List.concat todo) -> exists r, promise ts = inr r) ->
    List.length (states bg todo c db) = List.length todo.
Proof.
  induction todo as [|chunk rest IH]; intros c db Hall; [reflexivity|].
  cbn [chunk_states].
  destruct (promiseAll_succeeds chunk) as (rows & Hrows).
  { intros ts Hts. apply Hall. cbn [List.concat]. apply in_or_app. auto. }
  rewrite Hrows. cbn [List.length]. f_equal. apply IH.
  intros ts Hts. apply Hall. cbn [List.concat]. apply in_or_app. auto.
Qed.

End HappyPath.

(** When every fetch of the planned days succeeds, the runner updates the
    job once per chunk and never sets "error": after chunk [i] (from 0)
    [completed_days] is [min (10 (i + 1)) total_days], and the status is
    "completed" from the update on that reaches [total_days] and "running"
    before it. *)
Theorem backfill_progress
    (fetchPriceFromAlchemy : string -> string -> Z -> string + number)
    (clock : Clock) (token network : string)
    (db db' : Database) (resp : Response) (bg : Background) :
  handler clock token network db = (resp, db', Some bg) ->
  get (bg_jobId bg) (jobs db) = None ->
  (forall ts, In ts (bg_dailyTimestamps bg) ->
     exists r, pricePromise fetchPriceFromAlchemy token network ts = inr r) ->
  let total := Z.of_nat (List.length (bg_dailyTimestamps bg)) in
  let run := background_states fetchPriceFromAlchemy token network bg db' in
  List.length run = List.length (bg_chunks bg) /\
  forall i s, nth_error run i = Some s ->
    exists j,
      get (bg_jobId bg) (jobs s) = Some j /\
      total_days j = total /\
      completed_days j = Z.min (10 * (Z.of_nat i + 1)) total /\
      status j = (if 10 * (Z.of_nat i + 1) >=? total then "completed" else "running") /\
      error_message j = None.
Proof.
  intros Hh Hfresh Hall total run.
  destruct (handler_scheduled_inv _ _ _ _ _ _ _ Hh) as (Hdays & Hbg & Hdb').
  set (days := generateDailyTimestamps (startTimestamp clock token network db)
                                       (now_generate clock)) in *.
  set (j0 := job_record (job_identifier clock token) token network days).
  assert (Hid : bg_jobId bg = job_id j0) by (rewrite Hbg; reflexivity).
  assert (Hget : get (bg_jobId bg) (jobs db') = Some j0).
  { rewrite Hdb', Hid. cbn [jobs]. apply get_insert_fresh.
    rewrite <- Hid. exact Hfresh. }
  assert (Hbd : bg_dailyTimestamps bg = days) by (rewrite Hbg; reflexivity).
  assert (Hbc : bg_chunks bg = chunk_loop (List.length days) days)
    by (rewrite Hbg; reflexivity).
  split.
  - subst run. unfold background_states. apply success_states_length.
    rewrite Hbc. fold (make_chunks days). rewrite make_chunks_concat.
    rewrite <- Hbd. exact Hall.
  - intros i s Hnth. subst run. unfold background_states in Hnth.
    rewrite Hbc in Hnth.
    assert (Ht : Z.of_nat (List.length days) = total)
      by (subst total; rewrite Hbd; reflexivity).
    rewrite Hbd in Hall.
    pose proof (progress_states fetchPriceFromAlchemy token network bg
                  (List.length days) days 0 db' j0 i s (Nat.le_refl _)
                  Hall Hget Hnth) as Hp.
    rewrite Z.add_0_l, Ht in Hp. fold total in Hp.
    eexists. split; [exact Hp|]. cbn [total_days completed_days status
                                        error_message progress j0 job_record].
    split; [exact Ht|].
    split; [reflexivity|]. split; [|reflexivity].
    destruct (Z.geb_spec (Z.min (10 * (Z.of_nat i + 1)) total) total);
      destruct (Z.geb_spec (10 * (Z.of_nat i + 1)) total); try reflexivity; lia.
Qed.

Lemma backfill_progress_witness :
  List.length (background_states Scenarios.steady "0xABCDEF1234" "ethereum"
                 Scenarios.scheduled_bg Scenarios.scheduled_db)
  = List.length (bg_chunks Scenarios.scheduled_bg) /\
  forall i s,
    nth_error (background_states Scenarios.steady "0xABCDEF1234" "ethereum"
                 Scenarios.scheduled_bg Scenarios.scheduled_db) i = Some s ->
    exists j,
      get (bg_jobId Scenarios.scheduled_bg) (jobs s) = Some j /\
      total_days j = Z.of_nat (List.length (bg_dailyTimestamps Scenarios.scheduled_bg)) /\
      completed_days j
      = Z.min (10 * (Z.of_nat i + 1))
              (Z.of_nat (List.length (bg_dailyTimestamps Scenarios.scheduled_bg))) /\
      status j
      = (if 10 * (Z.of_nat i + 1)
            >=? Z.of_nat (List.length (bg_dailyTimestamps Scenarios.scheduled_bg))
         then "completed" else "running") /\
      error_message j = None.
Proof.
  apply (backfill_progress Scenarios.steady Scenarios.two_days
           "0xABCDEF1234" "ethereum" Scenarios.empty Scenarios.scheduled_db
           (fst (fst Scenarios.scheduled)) Scenarios.scheduled_bg).
  - reflexivity.
  - reflexivity.
  - intros ts [<-|[<-|[]]]; eexists; reflexivity.
Defined.

(** *** What a successful run writes *)

Section Writes.

Variable fetchPriceFromAlchemy : string -> string -> Z -> string + number.
Variables (token network : string).

Local Abbreviation states := (chunk_states fetchPriceFromAlchemy token network).
Local Abbreviation promise := (pricePromise fetchPriceFromAlchemy token network).

(** The checks [TokenPrices.insert] makes. *)
Lemma insert_lands (rows kept : list CachedPrice) (tbl : TokenPrices.table) :
  stored_all rows = Some kept ->
  pairwise_free kept = true ->
  forallb (fun r => negb (existsb (conflicts r) tbl)) kept = true ->
  TokenPrices.insert rows tbl = tbl ++ kept.
Proof.
  intros H0 H1 H2. unfold TokenPrices.insert. rewrite H0, H1, H2. reflexivity.
Qed.

Lemma stored_all_app (rows1 rows2 kept : list CachedPrice) :
  stored_all (rows1 ++ rows2) = Some kept ->
  exists kept1 kept2,
    kept = kept1 ++ kept2 /\
    stored_all rows1 = Some kept1 /\ stored_all rows2 = Some kept2.
Proof.
  revert kept. induction rows1 as [|r rows1 IH]; intros kept H.
  - exists [], kept. auto.
  - cbn [app stored_all] in *. destruct (stored r) as [k|]; [|discriminate].
    destruct (stored_all (rows1 ++ rows2)) as [ks|]; [|discriminate].
    inversion H; subst. destruct (IH ks eq_refl) as (k1 & k2 & -> & -> & ->).
    exists (k :: k1), k2. auto.
Qed.

Lemma stored_all_columns (rows kept : list CachedPrice) :
  stored_all rows = Some kept ->
  map TokenPrices.token_address kept = map TokenPrices.token_address rows /\
  map TokenPrices.network kept = map TokenPrices.network rows /\
  map TokenPrices.timestamp kept = map TokenPrices.timestamp rows /\
  map date kept = map date rows /\
  map (fun k => Some (TokenPrices.price k)) kept
  = map (fun r => decimal_20_8 (TokenPrices.price r)) rows.
Proof.
  intros H. apply PriceFacts.stored_all_spec in H.
  induction H as [|r k rows kept Hk _ IH]; [repeat split|].
  destruct (PriceFacts.stored_key _ _ Hk) as (Ht & Hn & Hts & Hd & Hp & _).
  destruct IH as (IH1 & IH2 & IH3 & IH4 & IH5).
  cbn [map]. rewrite Ht, Hn, Hts, Hd, Hp, IH1, IH2, IH3, IH4, IH5.
  repeat split.
Qed.

Lemma pairwise_free_app_inv (l1 l2 : list CachedPrice) :
  pairwise_free (l1 ++ l2) = true ->
  pairwise_free l1 = true /\ pairwise_free l2 = true /\
  forall a b, In a l1 -> In b l2 -> conflicts a b = false.
Proof.
  induction l1 as [|x l1 IH]; cbn [app pairwise_free]; intros H.
  - split; [reflexivity|]. split; [exact H|]. intros a b [].
  - apply andb_true_iff in H. destruct H as [Hx H].
    apply negb_true_iff in Hx. rewrite existsb_app in Hx.
    apply orb_false_iff in Hx. destruct Hx as [Hx1 Hx2].
    destruct (IH H) as (H1 & H2 & Hcross).
    split; [rewrite Hx1, H1; reflexivity|]. split; [exact H2|].
    intros a b [<-|Ha] Hb.
    + apply not_true_is_false. intros Hc.
      assert (Hex : existsb (conflicts x) l2 = true).
      { apply existsb_exists. exists b. auto. }
      congruence.
    + apply Hcross; assumption.
Qed.

Lemma no_conflict_forall (rows : list CachedPrice) (tbl : TokenPrices.table) :
  forallb (fun r => negb (existsb (conflicts r) tbl)) rows = true <->
  forall a b, In a rows -> In b tbl -> conflicts a b = false.
Proof.
  rewrite forallb_forall. split.
  - intros H a b Ha Hb. specialize (H a Ha). apply negb_true_iff in H.
    apply not_true_is_false. intros Hc.
    assert (Hex : existsb (conflicts a) tbl = true).
    { apply existsb_exists. exists b. auto. }
    congruence.
  - intros H a Ha. apply negb_true_iff. apply not_true_is_false. intros Hex.
    apply existsb_exists in Hex. destruct Hex as (b & Hb & Hc).
    rewrite (H a b Ha Hb) in Hc. discriminate.
Qed.

(** Rows that could be inserted in one statement can be inserted chunk after
    chunk, and the table ends the same. *)
Lemma success_last_prices (bg : Background) (todo : list (list Z)) :
  forall (c : Z) (db : Database) (rows kept : list CachedPrice),
    promiseAll (map promise (List.concat todo)) = inr rows ->
    stored_all rows = Some kept ->
    pairwise_free kept = true ->
    forallb (fun r => negb (existsb (conflicts r) (prices db))) kept = true ->
    prices (last (states bg todo c db) db) = prices db ++ kept.
Proof.
  induction todo as [|chunk rest IH]; intros c db rows kept Hall Hkept Hfree Hnew.
  - cbn in Hall. inversion Hall; subst. cbn in Hkept. inversion Hkept.
    cbn. rewrite app_nil_r. reflexivity.
  - cbn [List.concat] in Hall. rewrite promiseAll_inr, map_app in Hall.
    symmetry in Hall. apply map_eq_app in Hall.
    destruct Hall as (rows1 & rows2 & -> & H1 & H2).
    symmetry in H1, H2. rewrite <- promiseAll_inr in H1, H2.
    destruct (stored_all_app _ _ _ Hkept) as (kept1 & kept2 & -> & Hk1 & Hk2).
    destruct (pairwise_free_app_inv _ _ Hfree) as (Hf1 & Hf2 & Hcross).
    rewrite forallb_app in Hnew. apply andb_true_iff in Hnew.
    destruct Hnew as [Hn1 Hn2].
    cbn [chunk_states]. rewrite H1. cbn [prices jobs]. rewrite last_cons.
    rewrite (insert_lands rows1 kept1 (prices db) Hk1 Hf1 Hn1).
    rewrite (IH _ _ rows2 kept2 H2 Hk2 Hf2).
    + cbn [prices]. rewrite app_assoc. reflexivity.
    + cbn [prices]. apply no_conflict_forall. intros a b Ha Hb.
      apply in_app_or in Hb. destruct Hb as [Hb|Hb].
      * rewrite no_conflict_forall in Hn2. apply Hn2; assumption.
      * rewrite PriceMore.conflicts_sym. apply Hcross; assumption.
Qed.

Lemma success_last_job (bg : Background) (todo : list (list Z)) :
  forall (c : Z) (db : Database) (j : Job),
    todo <> [] ->
    (forall ts, In ts (List.concat todo) -> exists r, promise ts = inr r) ->
    get (bg_jobId bg) (jobs db) = Some j ->
    get (bg_jobId bg) (jobs (last (states bg todo c db) db))
    = Some (progress (c + Z.of_nat (List.length (List.concat todo)))
                     (Z.of_nat (List.length (bg_dailyTimestamps bg))) j).
Proof.
  induction todo as [|chunk rest IH]; intros c db j Hne Hall Hget;
    [contradiction|].
  cbn [chunk_states].
  destruct (promiseAll_succeeds fetchPriceFromAlchemy token network chunk)
    as (rows & Hrows).
  { intros ts Hts. apply Hall. cbn [List.concat]. apply in_or_app. auto. }
  rewrite Hrows. cbn [prices jobs]. rewrite last_cons.
  set (total := Z.of_nat (List.length (bg_dailyTimestamps bg))).
  set (c' := c + Z.of_nat (List.length chunk)).
  set (db2 := {| prices := TokenPrices.insert rows (prices db);
                 jobs := update (progress c' total) (bg_jobId bg) (jobs db) |}).
  assert (Hget2 : get (bg_jobId bg) (jobs db2) = Some (progress c' total j)).
  { subst db2. cbn [jobs]. rewrite get_update, Hget by reflexivity. reflexivity. }
  destruct rest as [|chunk' rest'].
  - cbn [chunk_states last List.concat]. rewrite Hget2, app_nil_r. reflexivity.
  - rewrite (IH c' db2 (progress c' total j)); try assumption.
    + assert (Heq : c' + Z.of_nat (List.length (List.concat (chunk' :: rest')))
                    = c + Z.of_nat (List.length (List.concat (chunk :: chunk' :: rest')))).
      { subst c'. cbn [List.concat]. rewrite !length_app. lia. }
      rewrite Heq. reflexivity.
    + discriminate.
    + intros ts Hts. apply Hall. cbn [List.concat]. apply in_or_app. right.
      exact Hts.
Qed.

Lemma promised_timestamps (l : list Z) (rows : list CachedPrice) :
  map promise l = map inr rows ->
  map TokenPrices.timestamp rows = l /\
  map date rows = map (fun ts => ts / 86400) l /\
  Forall (fun r => TokenPrices.token_address r = toLowerCase token /\
                   TokenPrices.network r = network) rows.
Proof.
  revert rows. induction l as [|ts l IH]; intros rows H.
  - destruct rows; [|discriminate]. repeat split. constructor.
  - destruct rows as [|r rows]; [discriminate|].
    cbn [map] in H. inversion H as [[Hr Hrest]].
    destruct (IH rows Hrest) as (Hts & Hdates & Hkeys).
    pose proof (promise_row fetchPriceFromAlchemy token network ts r Hr)
      as (Ht & Hn & Hstamp & Hiso).
    assert (Hd : date r = ts / 86400).
    { unfold isoDate in Hiso.
      destruct (Z.abs (ts * 1000) <=? maxDateMs); [|discriminate].
      inversion Hiso. reflexivity. }
    cbn [map]. rewrite Hts, Hdates, Hstamp, Hd.
    repeat split. constructor; auto.
Qed.

Lemma sorted_dates_free (rows : list CachedPrice) :
  StronglySorted Z.lt (map date rows) -> pairwise_free rows = true.
Proof.
  induction rows as [|r rows IH]; cbn [map pairwise_free]; intros Hs.
  - reflexivity.
  - apply StronglySorted_inv in Hs. destruct Hs as [Hs Hall].
    rewrite (IH Hs), andb_true_r. apply negb_true_iff.
    apply not_true_is_false. intros Hex. apply existsb_exists in Hex.
    destruct Hex as (x & Hx & Hc).
    unfold conflicts in Hc. apply andb_true_iff in Hc. destruct Hc as [_ Hd].
    apply Z.eqb_eq in Hd.
    rewrite Forall_forall in Hall.
    specialize (Hall (date x) (in_map date _ _ Hx)). lia.
Qed.

End Writes.

(** The fetch of a chunk is all or nothing.  It gives rows exactly when the
    source answers for every timestamp of the chunk and every timestamp has
    a day [toISOString] can print; the rows then are one per timestamp, in
    the order of the chunk, each with the lower-cased token, the network,
    the timestamp, its UTC day and the price the source gave. *)
Theorem chunk_fetch_all_or_nothing
    (fetchPriceFromAlchemy : string -> string -> Z -> string + number)
    (token network : string) (chunk : list Z) :
  ((exists rows,
      promiseAll (map (pricePromise fetchPriceFromAlchemy token network) chunk)
      = inr rows) <->
   (forall ts, In ts chunk ->
      (exists p, fetchPriceFromAlchemy token network ts = inr p) /\
      Z.abs ts <= 8640000000000)) /\
  (forall rows,
     promiseAll (map (pricePromise fetchPriceFromAlchemy token network) chunk)
     = inr rows ->
     map TokenPrices.timestamp rows = chunk /\
     map date rows = map (fun ts => ts / 86400) chunk /\
     map (fun r => inr (TokenPrices.price r)) rows
     = map (fetchPriceFromAlchemy token network) chunk /\
     Forall (fun r => TokenPrices.token_address r = toLowerCase token /\
                      TokenPrices.network r = network) rows).
Proof.
  assert (Hone : forall ts,
            (exists r, pricePromise fetchPriceFromAlchemy token network ts = inr r)
            <-> (exists p, fetchPriceFromAlchemy token network ts = inr p) /\
                Z.abs ts <= 8640000000000).
  { intros ts. unfold pricePromise, isoDate, maxDateMs.
    destruct (fetchPriceFromAlchemy token network ts) as [msg|p].
    - split; [intros (r & Hr); discriminate|intros ((p & Hp) & _); discriminate].
    - destruct (Z.leb_spec (Z.abs (ts * 1000)) 8640000000000000).
      + split; [intros _; split; [eauto|lia] | intros _; eauto].
      + split; [intros (r & Hr); discriminate|intros (_ & Hle); lia]. }
  split.
  - split.
    + intros (rows & Hrows) ts Hts. apply Hone.
      rewrite promiseAll_inr in Hrows.
      assert (Hin : In (pricePromise fetchPriceFromAlchemy token network ts)
                       (map inr rows)).
      { rewrite <- Hrows. apply in_map. exact Hts. }
      apply in_map_iff in Hin. destruct Hin as (r & Hr & _). eauto.
    + intros Hall. apply promiseAll_succeeds.
      intros ts Hts. apply Hone. apply Hall. exact Hts.
  - intros rows Hrows. rewrite promiseAll_inr in Hrows.
    destruct (promised_timestamps fetchPriceFromAlchemy token network chunk rows Hrows)
      as (Hts & Hdates & Hkeys).
    repeat split; try assumption.
    clear Hts Hdates Hkeys. revert rows Hrows.
    induction chunk as [|ts chunk IH]; intros rows Hrows.
    + destruct rows; [reflexivity|discriminate].
    + destruct rows as [|r rows]; [discriminate|].
      cbn [map] in Hrows. inversion Hrows as [[Hr Hrest]].
      cbn [map]. rewrite (IH rows Hrest). f_equal.
      unfold pricePromise in Hr.
      destruct (fetchPriceFromAlchemy token network ts) as [msg|p]; [discriminate|].
      destruct (isoDate ts); [|discriminate].
      inversion Hr. reflexivity.
Qed.

Lemma chunk_fetch_all_or_nothing_witness :
  map TokenPrices.timestamp
    [ {| TokenPrices.token_address := "0xabcdef1234";
         TokenPrices.network := "ethereum"; timestamp := 0;
         price := Fin (Scenarios.q 1 1); date := 0 |} ] = [0] /\
  map date
    [ {| TokenPrices.token_address := "0xabcdef1234";
         TokenPrices.network := "ethereum"; timestamp := 0;
         price := Fin (Scenarios.q 1 1); date := 0 |} ]
  = map (fun ts => ts / 86400) [0] /\
  map (fun r => inr (TokenPrices.price r))
    [ {| TokenPrices.token_address := "0xabcdef1234";
         TokenPrices.network := "ethereum"; timestamp := 0;
         price := Fin (Scenarios.q 1 1); date := 0 |} ]
  = map (Scenarios.first_day_only "0xABCDEF1234" "ethereum") [0] /\
  Forall (fun r => TokenPrices.token_address r = toLowerCase "0xABCDEF1234" /\
                   TokenPrices.network r = "ethereum")
    [ {| TokenPrices.token_address := "0xabcdef1234";
         TokenPrices.network := "ethereum"; timestamp := 0;
         price := Fin (Scenarios.q 1 1); date := 0 |} ].
Proof.
  apply (proj2 (chunk_fetch_all_or_nothing Scenarios.first_day_only
                  "0xABCDEF1234" "ethereum" [0])).
  reflexivity.
Defined.

Lemma enumerated_dates_sorted (start : Z) (n k : nat) :
  StronglySorted Z.lt
    (map (fun ts => ts / 86400)
         (map (fun i => start + 86400 * Z.of_nat i) (seq k n))).
Proof.
  rewrite map_map.
  assert (Hext : forall i : nat,
            (start + 86400 * Z.of_nat i) / 86400 = start / 86400 + Z.of_nat i).
  { intros i. replace (start + 86400 * Z.of_nat i)
      with (start + Z.of_nat i * 86400) by lia.
    apply Z.div_add. lia. }
  rewrite (map_ext _ _ Hext).
  revert k. induction n as [|n IH]; intros k; cbn [seq map].
  - constructor.
  - constructor; [apply IH|].
    apply Forall_forall. intros x Hx. apply in_map_iff in Hx.
    destruct Hx as (i & <- & Hi). apply in_seq in Hi. lia.
Qed.

(** When the identifier of the job was not yet in the table, every fetch of
    the planned days succeeds with a price and a day the columns take, and
    nothing else writes in between, the run ends with the job "completed"
    and all its days counted, and the table of prices is the one the handler
    found followed by one row per planned day, in the order of the days,
    each with the fetched price rounded to 8 decimals by the column: no row
    is rejected by the unique index, on a first backfill as on a resumed
    one. *)
Theorem backfill_completes
    (fetchPriceFromAlchemy : string -> string -> Z -> string + number)
    (clock : Clock) (token network : string)
    (db db' : Database) (resp : Response) (bg : Background)
    (rows kept : list CachedPrice) :
  handler clock token network db = (resp, db', Some bg) ->
  get (bg_jobId bg) (jobs db) = None ->
  promiseAll (map (pricePromise fetchPriceFromAlchemy token network)
                  (bg_dailyTimestamps bg)) = inr rows ->
  stored_all rows = Some kept ->
  let final := background fetchPriceFromAlchemy token network bg db' in
  prices final = prices db ++ kept /\
  map TokenPrices.timestamp kept = bg_dailyTimestamps bg /\
  map (fun k => Some (TokenPrices.price k)) kept
  = map (fun r => decimal_20_8 (TokenPrices.price r)) rows /\
  exists j,
    get (bg_jobId bg) (jobs final) = Some j /\
    status j = "completed" /\
    completed_days j = total_days j /\
    total_days j = Z.of_nat (List.length kept) /\
    error_message j = None.
Proof.
  intros Hh Hfresh Hrows Hkept final.
  destruct (handler_scheduled_inv _ _ _ _ _ _ _ Hh) as (Hdays & Hbg & Hdb').
  set (days := generateDailyTimestamps (startTimestamp clock token network db)
                                       (now_generate clock)) in *.
  set (j0 := job_record (job_identifier clock token) token network days).
  assert (Hid : bg_jobId bg = job_id j0) by (rewrite Hbg; reflexivity).
  assert (Hget : get (bg_jobId bg) (jobs db') = Some j0).
  { rewrite Hdb', Hid. cbn [jobs]. apply get_insert_fresh.
    rewrite <- Hid. exact Hfresh. }
  assert (Hbd : bg_dailyTimestamps bg = days) by (rewrite Hbg; reflexivity).
  assert (Hbc : bg_chunks bg = make_chunks days) by (rewrite Hbg; reflexivity).
  assert (Hpr : prices db' = prices db) by (rewrite Hdb'; reflexivity).
  rewrite Hbd in Hrows.
  pose proof Hrows as Hmap. rewrite promiseAll_inr in Hmap.
  destruct (promised_timestamps fetchPriceFromAlchemy token network days rows Hmap)
    as (Hts0 & Hdates0 & _).
  destruct (stored_all_columns rows kept Hkept) as (_ & _ & Hts1 & Hdates1 & Hprices).
  assert (Hts : map TokenPrices.timestamp kept = days) by congruence.
  assert (Hdates : map date kept = map (fun ts => ts / 86400) days) by congruence.
  assert (Hkeys : Forall (fun r => TokenPrices.token_address r = toLowerCase token /\
                                   TokenPrices.network r = network /\
                                   In (TokenPrices.timestamp r) days) kept).
  { apply (kept_rows token network days rows kept).
    - apply PriceFacts.stored_all_spec. exact Hkept.
    - apply (promised_rows fetchPriceFromAlchemy). exact Hrows. }
  assert (Hlen : List.length kept = List.length days).
  { rewrite <- Hts. symmetry. apply length_map. }
  assert (Hle : startTimestamp clock token network db <= now_generate clock / 1000).
  { destruct (Z_le_gt_dec (startTimestamp clock token network db)
                          (now_generate clock / 1000)) as [|Hgt]; [assumption|].
    exfalso. apply Hdays. apply generateDailyTimestamps_late. lia. }
  assert (Hfree : pairwise_free kept = true).
  { apply sorted_dates_free. rewrite Hdates. subst days.
    rewrite generateDailyTimestamps_closed by exact Hle.
    apply enumerated_dates_sorted. }
  assert (Hnew : forallb (fun r => negb (existsb (conflicts r) (prices db'))) kept
                 = true).
  { rewrite Hpr. apply no_conflict_forall. intros a b Ha Hb.
    apply not_true_is_false. intros Hc. unfold conflicts in Hc.
    apply andb_true_iff in Hc. destruct Hc as [Hk Hd]. apply Z.eqb_eq in Hd.
    rewrite Forall_forall in Hkeys. destruct (Hkeys a Ha) as (Hat & Han & _).
    rewrite Hat, Han in Hk.
    destruct (stored_before_start clock token network db b Hb Hk) as [Hlt _].
    assert (Hin : In (date a) (map (fun ts => ts / 86400) days)).
    { rewrite <- Hdates. apply in_map. exact Ha. }
    apply in_map_iff in Hin. destruct Hin as (ts & Hdts & Hts').
    destruct (enumeration_members _ _ _ Hts') as (i & Hi & ->).
    replace (startTimestamp clock token network db + 86400 * i)
      with (startTimestamp clock token network db + i * 86400) in Hdts by lia.
    rewrite Z.div_add in Hdts by lia. lia. }
  assert (Hall : forall ts, In ts (List.concat (bg_chunks bg)) ->
            exists r, pricePromise fetchPriceFromAlchemy token network ts = inr r).
  { rewrite Hbc, make_chunks_concat. intros ts Hts'.
    assert (Hin : In (pricePromise fetchPriceFromAlchemy token network ts)
                     (map inr rows)).
    { rewrite <- Hmap. apply in_map. exact Hts'. }
    apply in_map_iff in Hin. destruct Hin as (r & Hr & _). eauto. }
  split; [|split; [|split]].
  - subst final. unfold background, background_states.
    rewrite (success_last_prices fetchPriceFromAlchemy token network bg
               (bg_chunks bg) 0 db' rows kept);
      [rewrite Hpr; reflexivity| |exact Hkept|exact Hfree|exact Hnew].
    rewrite Hbc, make_chunks_concat. exact Hrows.
  - rewrite Hbd. exact Hts.
  - exact Hprices.
  - subst final. unfold background, background_states.
    assert (Hne : bg_chunks bg <> []).
    { intros Hnil. apply Hdays. rewrite <- (make_chunks_concat days), <- Hbc, Hnil.
      reflexivity. }
    rewrite (success_last_job fetchPriceFromAlchemy token network bg
               (bg_chunks bg) 0 db' j0 Hne Hall Hget).
    eexists. split; [reflexivity|].
    rewrite Hbc, make_chunks_concat, Hbd, Z.add_0_l.
    cbn [status completed_days total_days error_message progress j0 job_record].
    rewrite Hlen. destruct (Z.geb_spec (Z.of_nat (List.length days))
                                        (Z.of_nat (List.length days))); [|lia].
    repeat split.
Qed.

Lemma backfill_completes_witness :
  prices (background Scenarios.steady "0xABCDEF1234" "ethereum"
            Scenarios.scheduled_bg Scenarios.scheduled_db)
  = prices Scenarios.empty
    ++ [ {| TokenPrices.token_address := "0xabcdef1234";
            TokenPrices.network := "ethereum"; timestamp := 0;
            price := Fin (Scenarios.q 1 1); date := 0 |};
         {| TokenPrices.token_address := "0xabcdef1234";
            TokenPrices.network := "ethereum"; timestamp := 86400;
            price := Fin (Scenarios.q 1 1); date := 1 |} ] /\
  map TokenPrices.timestamp
    [ {| TokenPrices.token_address := "0xabcdef1234";
         TokenPrices.network := "ethereum"; timestamp := 0;
         price := Fin (Scenarios.q 1 1); date := 0 |};
      {| TokenPrices.token_address := "0xabcdef1234";
         TokenPrices.network := "ethereum"; timestamp := 86400;
         price := Fin (Scenarios.q 1 1); date := 1 |} ]
  = bg_dailyTimestamps Scenarios.scheduled_bg /\
  map (fun k => Some (TokenPrices.price k))
    [ {| TokenPrices.token_address := "0xabcdef1234";
         TokenPrices.network := "ethereum"; timestamp := 0;
         price := Fin (Scenarios.q 1 1); date := 0 |};
      {| TokenPrices.token_address := "0xabcdef1234";
         TokenPrices.network := "ethereum"; timestamp := 86400;
         price := Fin (Scenarios.q 1 1); date := 1 |} ]
  = map (fun r => decimal_20_8 (TokenPrices.price r))
      [ {| TokenPrices.token_address := "0xabcdef1234";
           TokenPrices.network := "ethereum"; timestamp := 0;
           price := Fin (Scenarios.q 1 1); date := 0 |};
        {| TokenPrices.token_address := "0xabcdef1234";
           TokenPrices.network := "ethereum"; timestamp := 86400;
           price := Fin (Scenarios.q 1 1); date := 1 |} ] /\
  exists j,
    get "job-0xABCDEF-86405001"
      (jobs (background Scenarios.steady "0xABCDEF1234" "ethereum"
               Scenarios.scheduled_bg Scenarios.scheduled_db)) = Some j /\
    status j = "completed" /\
    completed_days j = total_days j /\
    total_days j = 2 /\
    error_message j = None.
Proof.
  apply (backfill_completes Scenarios.steady Scenarios.two_days
           "0xABCDEF1234" "ethereum" Scenarios.empty Scenarios.scheduled_db
           (fst (fst Scenarios.scheduled)) Scenarios.scheduled_bg
           [ {| TokenPrices.token_address := "0xabcdef1234";
                TokenPrices.network := "ethereum"; timestamp := 0;
                price := Fin (Scenarios.q 1 1); date := 0 |};
             {| TokenPrices.token_address := "0xabcdef1234";
                TokenPrices.network := "ethereum"; timestamp := 86400;
                price := Fin (Scenarios.q 1 1); date := 1 |} ]
           [ {| TokenPrices.token_address := "0xabcdef1234";
                TokenPrices.network := "ethereum"; timestamp := 0;
                price := Fin (Scenarios.q 1 1); date := 0 |};
             {| TokenPrices.token_address := "0xabcdef1234";
                TokenPrices.network := "ethereum"; timestamp := 86400;
                price := Fin (Scenarios.q 1 1); date := 1 |} ]).
  - reflexivity.
  - reflexivity.
  - reflexivity.
  - vm_compute. number_eq.
Defined.

(** *** An identifier that is taken *)

(** When a job of the same identifier exists already (same first 8
    characters of the token, same millisecond), the handler creates no
    record and changes none, but still answers the identifier and starts the
    background work. *)
Theorem taken_identifier_creates_no_job
    (clock : Clock) (token network : string) (db : Database) (j : Job) :
  token <> "" -> network <> "" ->
  generateDailyTimestamps (startTimestamp clock token network db)
                          (now_generate clock) <> [] ->
  get (job_identifier clock token) (jobs db) = Some j ->
  exists resp bg,
    handler clock token network db = (Json200 resp, db, Some bg) /\
    resp_job_id resp = job_identifier clock token /\
    bg_jobId bg = job_identifier clock token.
Proof.
  intros Ht Hn Hdays Hget. unfold handler.
  apply falsy_false in Ht, Hn. rewrite Ht, Hn. cbn [orb].
  destruct (generateDailyTimestamps _ _) as [|d rest]; [contradiction|].
  assert (Hex : existsb (has_id (job_identifier clock token)) (jobs db) = true).
  { unfold get in Hget. apply find_some in Hget. apply existsb_exists.
    exists j. exact Hget. }
  unfold FetchJobs.insert. cbn [job_id job_record]. rewrite Hex.
  do 2 eexists. split; [destruct db; reflexivity|]. split; reflexivity.
Qed.

Lemma taken_identifier_creates_no_job_witness :
  exists resp bg,
    handler Scenarios.two_days "0xABCDEF1234" "ethereum" Scenarios.scheduled_db
    = (Json200 resp, Scenarios.scheduled_db, Some bg) /\
    resp_job_id resp = job_identifier Scenarios.two_days "0xABCDEF1234" /\
    bg_jobId bg = job_identifier Scenarios.two_days "0xABCDEF1234".
Proof.
  apply (taken_identifier_creates_no_job Scenarios.two_days "0xABCDEF1234"
           "ethereum" Scenarios.scheduled_db
           (job_record "job-0xABCDEF-86405001" "0xABCDEF1234" "ethereum" [0; 86400])).
  - discriminate.
  - discriminate.
  - vm_compute. discriminate.
  - reflexivity.
Defined.

End ScheduleMore.

(** ** The form *)

Module FormFacts.

Import Form.

Lemma after_ticks_S (n : nat) (state : option ScheduleProgress) :
  after_ticks (S n) state = fst (progressTick (after_ticks n state)).
Proof.
  revert state. induction n as [|n IH]; intros state; [reflexivity|].
  change (after_ticks (S (S n)) state)
    with (after_ticks (S n) (fst (progressTick state))).
  rewrite IH. reflexivity.
Qed.

(** The progress the form shows does not follow the job: from the moment the
    function has answered, the [k]-th run of the timer shows
    [min (10 k) 100] percent, "running" before the tenth run and "completed"
    from it on, and the timer is cleared by the first run after that. *)
Theorem shown_progress_is_a_countdown (tokenAddress network : string) (k : nat) :
  after_ticks k (scheduled tokenAddress network)
  = Some {| token := tokenAddress; Form.network := network;
            progress := Z.min (10 * Z.of_nat k) 100;
            status := if (10 <=? k)%nat then "completed" else "running" |} /\
  snd (progressTick (after_ticks k (scheduled tokenAddress network)))
  = (10 <=? k)%nat.
Proof.
  assert (Hstate : after_ticks k (scheduled tokenAddress network)
    = Some {| token := tokenAddress; Form.network := network;
              progress := Z.min (10 * Z.of_nat k) 100;
              status := if (10 <=? k)%nat then "completed" else "running" |}).
  { induction k as [|k IH]; [reflexivity|].
    rewrite after_ticks_S, IH. unfold progressTick. cbn [progress token Form.network].
    destruct (Nat.leb_spec 10 k) as [Hk|Hk].
    - destruct (Z.geb_spec (Z.min (10 * Z.of_nat k) 100) 100); [|lia].
      cbn [fst]. destruct (Nat.leb_spec 10 (S k)); [|lia].
      do 2 f_equal. lia.
    - destruct (Z.geb_spec (Z.min (10 * Z.of_nat k) 100) 100); [lia|].
      cbn [fst]. do 2 f_equal; [lia|].
      destruct (Nat.leb_spec 10 (S k));
        destruct (Z.eqb_spec (Z.min (Z.min (10 * Z.of_nat k) 100 + 10) 100) 100);
        try reflexivity; lia. }
  split; [exact Hstate|].
  rewrite Hstate. unfold progressTick. cbn [progress].
  destruct (Nat.leb_spec 10 k);
    destruct (Z.geb_spec (Z.min (10 * Z.of_nat k) 100) 100);
    try reflexivity; lia.
Qed.

Lemma success_sources
    (alchemyApiKey : option string) (random : Qc)
    (token network : string) (t : Z) (tbl tbl' : TokenPrices.table)
    (body : Price.PriceResponse) :
  Price.handler alchemyApiKey random token network t tbl = (Price.Json200 body, tbl') ->
  Price.source body = "cache" \/ Price.source body = "interpolated"
  \/ Price.source body = "alchemy".
Proof.
  intros H.
  PriceMore.by_path alchemyApiKey random token network t tbl;
    rewrite Hres in H; inversion H; subst; cbn; auto.
Qed.

(** The badge of the form tells the three sources of the price function
    apart: two successful answers shown with the same badge have the same
    source, and no successful answer falls to the default case of the
    switch. *)
Theorem badge_tells_sources_apart
    (key key' : option string) (random random' : Qc)
    (token network token' network' : string) (t t' : Z)
    (tbl tbl1 tbl' tbl2 : TokenPrices.table)
    (body body' : Price.PriceResponse) :
  Price.handler key random token network t tbl = (Price.Json200 body, tbl1) ->
  Price.handler key' random' token' network' t' tbl' = (Price.Json200 body', tbl2) ->
  (getSourceBadgeVariant (Price.source body)
   = getSourceBadgeVariant (Price.source body') ->
   Price.source body = Price.source body') /\
  (Price.source body = "cache" \/ Price.source body = "alchemy"
   \/ Price.source body = "interpolated").
Proof.
  intros H H'.
  apply success_sources in H, H'.
  split; [|tauto].
  destruct H as [-> | [-> | ->]], H' as [-> | [-> | ->]];
    cbn; intros Hb; try reflexivity; discriminate Hb.
Qed.

Lemma badge_tells_sources_apart_witness :
  (getSourceBadgeVariant "cache" = getSourceBadgeVariant "interpolated" ->
   "cache" = "interpolated") /\
  ("cache" = "cache" \/ "cache" = "alchemy" \/ "cache" = "interpolated").
Proof.
  apply (badge_tells_sources_apart None None 0%Qc 0%Qc
           "0xAB" "ethereum" "0xAB" "ethereum" 1500 90000
           Scenarios.scenario_A Scenarios.scenario_A
           Scenarios.bracket_pair Scenarios.bracket_pair
           {| Price.price := Fin (Scenarios.q 1 1); Price.source := "cache" |}
           {| Price.price := parseFloat_toFixed8
                (Price.interpolatePrice 90000 80000 (Fin (Scenarios.q 1 1))
                   100000 (Fin (Scenarios.q 2 1)));
              Price.source := "interpolated" |}).
  - reflexivity.
  - reflexivity.
Defined.

End FormFacts.
